(** * Discriminated parsing and validation of assessment chat logs

    A shallow embedding of [src/index.ts]: the raw JSON-like trees handed to
    [Assessment.fromObject], the decorator schema of the entity classes, the
    type resolvers attached to [Message.data] and [Answer.question], and the
    two pipeline stages [parsePlainObject] and [validateClassInstance].

    The two stages call into class-transformer ([plainToInstance]) and
    class-validator ([validate]).  The pipeline is first defined over
    arbitrary implementations of these two calls, then instantiated with a
    model of the libraries driven by the decorators of the source. *)

From Stdlib Require Import List String Ascii ZArith Bool Lia.
From Stdlib Require QArith.
Import ListNotations.
Local Open Scope string_scope.
Local Open Scope list_scope.

Set Implicit Arguments.

(* ================================================================= *)
(** ** Raw input: JSON-compatible trees *)

(** A number: a finite one, kept as the rational it stands for, an
    infinity (what a literal beyond the range of doubles parses to), or
    [NaN]. *)
Inductive number : Type :=
| Finite (q : QArith_base.Q)
| Infinity (negative : bool)
| NaN.

Definition integer (z : Z) : number := Finite (QArith_base.Qmake z 1).

(** The raw tree is what JSON can express.  An object is kept as the list of
    its own enumerable properties, in the order [Object.keys] lists them; a
    property read takes the first binding of the name. *)
Unset Elimination Schemes.
Inductive json : Type :=
| JNull
| JBool (b : bool)
| JNum (n : number)
| JStr (s : string)
| JArr (xs : list json)
| JObj (fs : list (string * json)).
Set Elimination Schemes.

Section JsonInduction.
Variable P : json -> Prop.
Hypothesis Hnull : P JNull.
Hypothesis Hbool : forall b, P (JBool b).
Hypothesis Hnum : forall n, P (JNum n).
Hypothesis Hstr : forall s, P (JStr s).
Hypothesis Harr : forall xs, Forall P xs -> P (JArr xs).
Hypothesis Hobj : forall fs, Forall (fun kv => P (snd kv)) fs -> P (JObj fs).

Fixpoint json_ind (j : json) : P j :=
  match j with
  | JNull => Hnull
  | JBool b => Hbool b
  | JNum n => Hnum n
  | JStr s => Hstr s
  | JArr xs =>
      Harr ((fix all (l : list json) : Forall P l :=
               match l with
               | [] => Forall_nil P
               | x :: r => Forall_cons x (json_ind x) (all r)
               end) xs)
  | JObj fs =>
      Hobj ((fix all (l : list (string * json))
               : Forall (fun kv => P (snd kv)) l :=
               match l with
               | [] => Forall_nil _
               | kv :: r => Forall_cons kv (json_ind (snd kv)) (all r)
               end) fs)
  end.
End JsonInduction.

(** Association lists stand for the own properties of an object. *)
Fixpoint lookup {A : Type} (k : string) (fs : list (string * A)) : option A :=
  match fs with
  | [] => None
  | (k', v) :: r => if String.eqb k k' then Some v else lookup k r
  end.

Definition has_key {A : Type} (k : string) (fs : list (string * A)) : bool :=
  match lookup k fs with Some _ => true | None => false end.

Definition mem (k : string) (ks : list string) : bool :=
  existsb (String.eqb k) ks.

(* ================================================================= *)
(** ** Exceptions *)

(** A thrown value is an [Error] object; only its class and its [message]
    are ever inspected. *)
Inductive exn : Type :=
| TypeError (message : string)
| Error (message : string).

Definition message (e : exn) : string :=
  match e with TypeError m => m | Error m => m end.

(** Code that may throw returns [inl e] for [throw e]. *)
Definition throws (A : Type) : Type := (exn + A)%type.

Definition ret {A : Type} (a : A) : throws A := inr a.
Definition throw {A : Type} (e : exn) : throws A := inl e.
Definition bind {A B : Type} (m : throws A) (k : A -> throws B) : throws B :=
  match m with inl e => inl e | inr a => k a end.

Notation "x <- m ;; k" := (bind m (fun x => k))
  (at level 61, m at next level, right associativity).

(* ================================================================= *)
(** ** Enumerations *)

Module MessageSender.
Definition AGENT := "AGENT".
Definition CANDIDATE := "CANDIDATE".
Definition values : list string := [AGENT; CANDIDATE].
End MessageSender.

Module QuestionType.
Definition HINT := "HINT".
Definition FTQ := "FTQ".
Definition MCQ := "MCQ".
Definition VOICE := "VOICE".
Definition VIDEO := "VIDEO".
Definition SLIDER := "SLIDER".
Definition DROPDOWN := "DROPDOWN".
Definition BGQ := "BUTTON_GROUP_QUESTION".
Definition values : list string :=
  [HINT; FTQ; MCQ; VOICE; VIDEO; SLIDER; DROPDOWN; BGQ].
End QuestionType.

Module QuestionContentType.
Definition values : list string := ["TEXT"; "VOICE"; "VIDEO"; "SLIDER"].
End QuestionContentType.

Module RuleName.
Definition values : list string :=
  ["maxTextLength"; "minTextLength"; "recommendedTextLength";
   "minVoiceSeconds"; "maxVoiceSeconds"; "recommendedVoiceSeconds"].
End RuleName.

Module ButtonType.
Definition values : list string := ["PRIMARY"; "SECONDARY"; "DEFAULT"].
End ButtonType.

(* ================================================================= *)
(** ** Property reads, optional chaining and [includes] on raw values *)

(** [a?.k] for one of the property names the source reads ([sender], [data],
    [question], [types]); none of them is defined by a built-in prototype,
    so only an object's own properties can answer.  [None] is [undefined]. *)
Definition opt_get (a : option json) (k : string) : option json :=
  match a with
  | None | Some JNull => None
  | Some (JObj fs) => lookup k fs
  | Some _ => None
  end.

(** [s.includes(t)] on strings: [t] occurs in [s] as a substring. *)
Fixpoint str_includes (s t : string) : bool :=
  String.prefix t s ||
  match s with
  | EmptyString => false
  | String _ r => str_includes r t
  end.

(** [xs.includes(t)] on arrays, for a string [t]: some element is the very
    string [t] (SameValueZero). *)
Definition is_str (t : string) (j : json) : bool :=
  match j with JStr s => String.eqb s t | _ => false end.

Definition arr_includes (xs : list json) (t : string) : bool :=
  existsb (is_str t) xs.

(** [a?.includes(t)], where [callee] is the text of the called expression.
    A nullish [a] short-circuits to [undefined]; arrays and strings own an
    [includes] method; on every other value [a.includes] is not callable and
    the call throws. *)
Definition not_a_function (callee : string) : exn :=
  TypeError (callee ++ " is not a function").

Definition opt_includes (callee : string) (a : option json) (t : string)
  : throws (option bool) :=
  match a with
  | None | Some JNull => ret None
  | Some (JArr xs) => ret (Some (arr_includes xs t))
  | Some (JStr s) => ret (Some (str_includes s t))
  | Some (JBool _) | Some (JNum _) | Some (JObj _) =>
      throw (not_a_function callee)
  end.

(** Truthiness of the result of an optional call returning a boolean. *)
Definition truthy (r : option bool) : bool :=
  match r with Some true => true | _ => false end.

(** [a === "..."] for a possibly undefined raw value. *)
Definition strict_eq_str (a : option json) (t : string) : bool :=
  match a with Some j => is_str t j | None => false end.

(* ================================================================= *)
(** ** Exported predicates on raw message data *)

Definition isHint (messageData : option json) : throws (option bool) :=
  opt_includes "messageData?.types?.includes"
    (opt_get messageData "types") QuestionType.HINT.

Definition isButtonGroupQuestion (messageData : option json)
  : throws (option bool) :=
  opt_includes "messageData?.types?.includes"
    (opt_get messageData "types") QuestionType.BGQ.

Definition isAnswer (message : option json) : bool :=
  strict_eq_str (opt_get message "sender") MessageSender.CANDIDATE.

(* ================================================================= *)
(** ** Classes of the schema *)

Inductive class : Type :=
| BaseElement | Hint | QuestionContent | Trait | QuestionRule
| QuestionOption | Question | Trigger | Style | ButtonGroupOption
| ButtonGroupQuestion | Answer | Message | Assessment.

Definition class_eqb (a b : class) : bool :=
  match a, b with
  | BaseElement, BaseElement | Hint, Hint
  | QuestionContent, QuestionContent | Trait, Trait
  | QuestionRule, QuestionRule | QuestionOption, QuestionOption
  | Question, Question | Trigger, Trigger | Style, Style
  | ButtonGroupOption, ButtonGroupOption
  | ButtonGroupQuestion, ButtonGroupQuestion
  | Answer, Answer | Message, Message | Assessment, Assessment => true
  | _, _ => false
  end.

(** What a [@Type] function may return: a class of the schema or [Date]. *)
Inductive target : Type :=
| TClass (c : class)
| TDate.

(* ================================================================= *)
(** ** The two type resolvers *)

(** [@Type] of [Message.data]; [object] is the raw message being
    transformed. *)
Definition Message_data_type (object : option json) : throws target :=
  if strict_eq_str (opt_get object "sender") MessageSender.CANDIDATE then
    ret (TClass Answer)
  else
    h <- opt_includes "object?.data?.types?.includes"
           (opt_get (opt_get object "data") "types") QuestionType.HINT ;;
    if truthy h then ret (TClass Hint)
    else
      b <- opt_includes "object?.data?.types?.includes"
             (opt_get (opt_get object "data") "types") QuestionType.BGQ ;;
      if truthy b then ret (TClass ButtonGroupQuestion)
      else ret (TClass Question).

(** [@Type] of [Answer.question]; [object] is the raw answer. *)
Definition Answer_question_type (object : option json) : throws target :=
  b <- opt_includes "object?.question?.types?.includes"
         (opt_get (opt_get object "question") "types") QuestionType.BGQ ;;
  if truthy b then ret (TClass ButtonGroupQuestion)
  else ret (TClass Question).

(* ================================================================= *)
(** ** The decorator schema *)

(** Inheritance, from the [extends] clauses. *)
Definition superclass (c : class) : option class :=
  match c with
  | Hint => Some BaseElement
  | Question => Some BaseElement
  | ButtonGroupOption => Some QuestionOption
  | ButtonGroupQuestion => Some Question
  | _ => None
  end.

(** The prototype chain above [c], nearest ancestor first.  The chains of
    this schema have at most two links; the bound is the number of
    classes. *)
Fixpoint ancestors_upto (n : nat) (c : class) : list class :=
  match n with
  | O => []
  | S n' =>
      match superclass c with
      | None => []
      | Some p => p :: ancestors_upto n' p
      end
  end.

Definition ancestors (c : class) : list class := ancestors_upto 14 c.

Definition class_name (c : class) : string :=
  match c with
  | BaseElement => "BaseElement" | Hint => "Hint"
  | QuestionContent => "QuestionContent" | Trait => "Trait"
  | QuestionRule => "QuestionRule" | QuestionOption => "QuestionOption"
  | Question => "Question" | Trigger => "Trigger" | Style => "Style"
  | ButtonGroupOption => "ButtonGroupOption"
  | ButtonGroupQuestion => "ButtonGroupQuestion"
  | Answer => "Answer" | Message => "Message" | Assessment => "Assessment"
  end.

(** Instance methods declared in a class body. *)
Definition own_methods (c : class) : list string :=
  match c with
  | Assessment => ["validate"]
  | _ => []
  end.

(** Validation decorators. *)
Inductive constraint : Type :=
| IsString | IsEnum (entity : list string) | IsArray | IsMongoId
| IsNotEmpty | IsNumber | IsDate | IsDefined | IsOptional | ValidateNested.

Record decorator : Type := Dec { dec_constraint : constraint; dec_each : bool }.

Definition once (k : constraint) : decorator := Dec k false.
Definition each (k : constraint) : decorator := Dec k true.

(** One decorated property: [@Expose()], the optional [@Type(fn)] and the
    validation decorators, listed top to bottom as in the source. *)
Record member : Type := Member {
  prop_name : string;
  prop_expose : bool;
  prop_type : option (option json -> throws target);
  prop_validators : list decorator
}.

Definition field (name : string) (vs : list decorator) : member :=
  Member name true None vs.

Definition typed (name : string) (fn : option json -> throws target)
  (vs : list decorator) : member :=
  Member name true (Some fn) vs.

Definition always (t : target) : option json -> throws target :=
  fun _ => ret t.

Definition own_properties (c : class) : list member :=
  match c with
  | BaseElement =>
      [ field "_id" [once IsMongoId];
        field "types"
          [each IsString; each (IsEnum QuestionType.values); once IsArray];
        typed "contents" (always (TClass QuestionContent))
          [each ValidateNested; once IsArray] ]
  | Hint => []
  | QuestionContent =>
      [ field "value" [once IsString];
        field "types"
          [each IsString; each (IsEnum QuestionContentType.values)] ]
  | Trait =>
      [ field "_id" [once IsMongoId];
        field "parentId" [once IsString; once IsOptional];
        field "name" [once IsString];
        field "description" [once IsString; once IsOptional] ]
  | QuestionRule =>
      [ field "name" [once IsString; once (IsEnum RuleName.values)];
        field "type" [once IsString];
        field "value" [once IsNumber] ]
  | QuestionOption =>
      [ field "id" [once IsString];
        field "value" [once IsString];
        field "text" [once IsString] ]
  | Question =>
      [ field "masterId" [once IsString; once IsOptional];
        field "parentId" [once IsMongoId; once IsOptional];
        typed "traits" (always (TClass Trait))
          [each ValidateNested; once IsArray; once IsOptional];
        typed "rules" (always (TClass QuestionRule))
          [each ValidateNested; once IsArray; once IsOptional];
        typed "options" (always (TClass QuestionOption))
          [each ValidateNested; once IsArray; once IsOptional];
        field "version" [once IsNumber; once IsOptional];
        field "language" [once IsString; once IsOptional] ]
  | Trigger => [ field "action" [once IsString] ]
  | Style =>
      [ field "buttonType" [once IsString; once (IsEnum ButtonType.values)] ]
  | ButtonGroupOption =>
      [ typed "triggers" (always (TClass Trigger))
          [each ValidateNested; once IsArray];
        typed "style" (always (TClass Style))
          [once ValidateNested; once IsDefined] ]
  | ButtonGroupQuestion =>
      [ typed "options" (always (TClass ButtonGroupOption))
          [each ValidateNested; once IsArray] ]
  | Answer =>
      [ field "_id" [once IsString; once IsNotEmpty];
        typed "question" Answer_question_type
          [once IsDefined; once ValidateNested];
        field "value" [once IsString; once IsNotEmpty];
        field "text" [once IsString; once IsNotEmpty] ]
  | Message =>
      [ field "id" [once IsString];
        field "sender" [once (IsEnum MessageSender.values)];
        field "label" [once IsString; once IsOptional];
        typed "data" Message_data_type
          [once IsDefined; once ValidateNested];
        field "userAgent" [once IsString; once IsOptional];
        field "timeTaken" [once IsNumber; once IsOptional];
        typed "time" (always TDate) [once IsDate; once IsOptional] ]
  | Assessment =>
      [ typed "chatLogs" (always (TClass Message))
          [once IsArray; each ValidateNested; once IsOptional] ]
  end.

(* ================================================================= *)
(** ** Typed object graphs *)

Inductive ctor : Type :=
| CObject
| CClass (c : class).

(** Values of the typed graph.  A [Date] holds its time value, [None] being
    [NaN] (an Invalid Date).  An object holds its constructor and its own
    properties. *)
Unset Elimination Schemes.
Inductive value : Type :=
| VUndefined
| VNull
| VBool (b : bool)
| VNum (n : number)
| VStr (s : string)
| VDate (t : option Z)
| VArr (xs : list value)
| VObj (c : ctor) (fs : list (string * value)).
Set Elimination Schemes.

Section ValueInduction.
Variable P : value -> Prop.
Hypothesis Hundef : P VUndefined.
Hypothesis Hnull : P VNull.
Hypothesis Hbool : forall b, P (VBool b).
Hypothesis Hnum : forall n, P (VNum n).
Hypothesis Hstr : forall s, P (VStr s).
Hypothesis Hdate : forall t, P (VDate t).
Hypothesis Harr : forall xs, Forall P xs -> P (VArr xs).
Hypothesis Hobj :
  forall c fs, Forall (fun kv => P (snd kv)) fs -> P (VObj c fs).

Fixpoint value_ind (v : value) : P v :=
  match v with
  | VUndefined => Hundef
  | VNull => Hnull
  | VBool b => Hbool b
  | VNum n => Hnum n
  | VStr s => Hstr s
  | VDate t => Hdate t
  | VArr xs =>
      Harr ((fix all (l : list value) : Forall P l :=
               match l with
               | [] => Forall_nil P
               | x :: r => Forall_cons x (value_ind x) (all r)
               end) xs)
  | VObj c fs =>
      Hobj c ((fix all (l : list (string * value))
                 : Forall (fun kv => P (snd kv)) l :=
                 match l with
                 | [] => Forall_nil _
                 | kv :: r => Forall_cons kv (value_ind (snd kv)) (all r)
                 end) fs)
  end.
End ValueInduction.

(** [v.k] on a value of the typed graph, for a data property [k]. *)
Definition vget (v : value) (k : string) : value :=
  match v with
  | VObj _ fs => match lookup k fs with Some x => x | None => VUndefined end
  | _ => VUndefined
  end.

(** [v[i]] on an array. *)
Definition vnth (v : value) (i : nat) : value :=
  match v with
  | VArr xs => nth i xs VUndefined
  | _ => VUndefined
  end.

(** [v.length] on an array. *)
Definition vlength (v : value) : option nat :=
  match v with
  | VArr xs => Some (List.length xs)
  | _ => None
  end.

(* ================================================================= *)
(** ** Metadata lookups shared by the two libraries *)

(** [keys.filter((key, index, self) => self.indexOf(key) === index)]. *)
Fixpoint uniq_from (seen ks : list string) : list string :=
  match ks with
  | [] => []
  | k :: r => if mem k seen then uniq_from seen r else k :: uniq_from (k :: seen) r
  end.

Definition uniq (ks : list string) : list string := uniq_from [] ks.

Definition own_exposed (c : class) : list string :=
  map prop_name (filter prop_expose (own_properties c)).

(** Exposed property names of a class: those of its ancestors, nearest
    first, then its own. *)
Definition exposed_properties (c : class) : list string :=
  flat_map own_exposed (ancestors c) ++ own_exposed c.

Definition own_type (c : class) (k : string)
  : option (option json -> throws target) :=
  match find (fun p => String.eqb (prop_name p) k) (own_properties c) with
  | Some p => prop_type p
  | None => None
  end.

(** The [@Type] metadata of a property, looked up on the class itself and
    then along its ancestors. *)
Fixpoint first_type (cs : list class) (k : string)
  : option (option json -> throws target) :=
  match cs with
  | [] => None
  | c :: r =>
      match own_type c k with
      | Some fn => Some fn
      | None => first_type r k
      end
  end.

Definition find_type_metadata (c : class) (k : string)
  : option (option json -> throws target) :=
  first_type (c :: ancestors c) k.

(** Names that resolve to a function on every object through
    [Object.prototype]. *)
Definition Object_prototype_functions : list string :=
  ["constructor"; "__defineGetter__"; "__defineSetter__"; "hasOwnProperty";
   "__lookupGetter__"; "__lookupSetter__"; "isPrototypeOf";
   "propertyIsEnumerable"; "toString"; "valueOf"; "toLocaleString"].

Definition is_method (oc : option class) (k : string) : bool :=
  mem k Object_prototype_functions ||
  match oc with
  | Some c => mem k (flat_map own_methods (c :: ancestors c))
  | None => false
  end.

(* ================================================================= *)
(** ** Model of class-transformer's [plainToInstance] *)

(** The executor of class-transformer 0.5, plain to class, with the two
    options the source sets and every other option at its default. *)

(** The two options the source sets; an absent key is [None]. *)
Record ClassTransformOptions : Type := {
  excludeExtraneousValues : option bool;
  exposeUnsetFields : option bool
}.

Definition flag (default : bool) (o : option bool) : bool :=
  match o with Some b => b | None => default end.

(** [{...a, ...b}] on option records: the keys of [b] win. *)
Definition over (a b : option bool) : option bool :=
  match b with Some _ => b | None => a end.

Definition spread_transform (a b : ClassTransformOptions)
  : ClassTransformOptions :=
  {| excludeExtraneousValues :=
       over (excludeExtraneousValues a) (excludeExtraneousValues b);
     exposeUnsetFields := over (exposeUnsetFields a) (exposeUnsetFields b) |}.

Section MapM.
Variables A B : Type.
Variable f : A -> throws B.

Fixpoint mapM (l : list A) : throws (list B) :=
  match l with
  | [] => ret []
  | x :: r => y <- f x ;; ys <- mapM r ;; ret (y :: ys)
  end.
End MapM.

Definition ctor_of (oc : option class) : ctor :=
  match oc with Some c => CClass c | None => CObject end.

Definition is_undefined (v : value) : bool :=
  match v with VUndefined => true | _ => false end.

(** Truthiness of a raw value. *)
Definition number_truthy (n : number) : bool :=
  match n with
  | Finite q => negb (Z.eqb (QArith_base.Qnum q) 0)
  | Infinity _ => true
  | NaN => false
  end.

Definition json_truthy (v : json) : bool :=
  match v with
  | JNull => false
  | JBool b => b
  | JNum n => number_truthy n
  | JStr s => negb (String.eqb s "")
  | JArr _ | JObj _ => true
  end.

(** At a position without a declared type the executor guesses the type of
    a raw object from its [constructor]: an own property of that name, when
    truthy, is taken for the target type.  No raw value is a constructor:
    the executor then throws, while collecting the ancestors of the guessed
    type ([target.prototype.constructor]) or at the latest on
    [new targetType()]. *)
Definition guessed_type_failure (g : json) : exn :=
  match g with
  | JObj gfs =>
      match lookup "prototype" gfs with
      | None =>
          TypeError "Cannot read properties of undefined (reading 'constructor')"
      | Some JNull =>
          TypeError "Cannot read properties of null (reading 'constructor')"
      | Some (JObj pfs) =>
          match lookup "constructor" pfs with
          | Some JNull => TypeError "Cannot convert undefined or null to object"
          | _ => TypeError "targetType is not a constructor"
          end
      | Some _ => TypeError "targetType is not a constructor"
      end
  | _ =>
      TypeError "Cannot read properties of undefined (reading 'constructor')"
  end.

Definition guess_target (tt : option target) (fs : list (string * json))
  : throws unit :=
  match tt with
  | None =>
      match lookup "constructor" fs with
      | Some g =>
          if json_truthy g then throw (guessed_type_failure g)
          else ret Datatypes.tt
      | None => ret Datatypes.tt
      end
  | Some _ => ret Datatypes.tt
  end.

Section Transformer.
(** [Date.parse] on strings is left to the engine: [None] is [NaN]. *)
Variable Date_parse : string -> option Z.
Variable options : ClassTransformOptions.

(** The time value of a number: a finite number within the range of time
    values is truncated towards zero; anything else is [NaN]. *)
Definition TimeClip (n : number) : option Z :=
  match n with
  | Finite q =>
      if (Z.abs (QArith_base.Qnum q)
          <=? 8640000000000000 * Z.pos (QArith_base.Qden q))%Z
      then Some (Z.quot (QArith_base.Qnum q) (Z.pos (QArith_base.Qden q)))
      else None
  | _ => None
  end.

(** [new Date(v)] for the raw values that reach it (arrays and [null] are
    dealt with before).  An object is first converted to a primitive:
    [valueOf] answers the object itself, and [toString] gives
    "[object Object]" unless an own property of that name, which no raw
    value makes callable, hides it; the conversion then throws. *)
Definition new_Date (v : json) : throws value :=
  match v with
  | JNum n => ret (VDate (TimeClip n))
  | JBool b => ret (VDate (Some (if b then 1%Z else 0%Z)))
  | JStr s => ret (VDate (Date_parse s))
  | JObj fs =>
      if has_key "toString" fs
      then throw (TypeError "Cannot convert object to primitive value")
      else ret (VDate (Date_parse "[object Object]"))
  | JNull => ret (VDate (Some 0%Z))
  | JArr _ => ret (VDate None)
  end.

Definition raw_keys (fs : list (string * json)) : list string :=
  map fst fs.

(** The keys the executor visits on a raw object for a target class, or for
    no target at all (an untyped position). *)
Definition getKeys (oc : option class) (fs : list (string * json))
  : list string :=
  match oc with
  | Some c =>
      if flag false (excludeExtraneousValues options)
      then uniq (exposed_properties c)
      else uniq (raw_keys fs ++ exposed_properties c)
  | None => uniq (raw_keys fs)
  end.

(** The type of a sub-value: the [@Type] function of the property, applied
    to the raw parent. *)
Definition type_of (oc : option class) (k : string) (object : json)
  : throws (option target) :=
  match oc with
  | Some c =>
      match find_type_metadata c k with
      | Some fn => t <- fn (Some object) ;; ret (Some t)
      | None => ret None
      end
  | None => ret None
  end.

(** The loop over the keys of one object.  [sub] holds, for each own
    property of the raw object, its transformation awaiting the type. *)
Fixpoint set_keys (oc : option class) (object : json)
  (sub : list (string * (option target -> throws value)))
  (keys : list string) : throws (list (string * value)) :=
  match keys with
  | [] => ret []
  | k :: r =>
      if mem k ["__proto__"; "constructor"] then set_keys oc object sub r
      else
        ty <- type_of oc k object ;;
        if is_method oc k then set_keys oc object sub r
        else
          finalValue <-
            match lookup k sub with
            | Some transform_k => transform_k ty
            | None => ret VUndefined
            end ;;
          rest <- set_keys oc object sub r ;;
          if negb (is_undefined finalValue)
             || flag true (exposeUnsetFields options)
          then ret ((k, finalValue) :: rest)
          else ret rest
  end.

Definition target_class (tt : option target) : option class :=
  match tt with Some (TClass c) => Some c | _ => None end.

(** [TransformOperationExecutor.transform], plain to class. *)
Fixpoint transform (tt : option target) (v : json) {struct v}
  : throws value :=
  match v with
  | JArr xs => ys <- mapM (transform tt) xs ;; ret (VArr ys)
  | JNull => ret VNull
  | JBool b =>
      match tt with Some TDate => new_Date v | _ => ret (VBool b) end
  | JNum n =>
      match tt with Some TDate => new_Date v | _ => ret (VNum n) end
  | JStr s =>
      match tt with Some TDate => new_Date v | _ => ret (VStr s) end
  | JObj fs =>
      match tt with
      | Some TDate => new_Date v
      | _ =>
          _ <- guess_target tt fs ;;
          ps <- set_keys (target_class tt) v
                  (map (fun kv => (fst kv, fun t => transform t (snd kv))) fs)
                  (getKeys (target_class tt) fs) ;;
          ret (VObj (ctor_of (target_class tt)) ps)
      end
  end.

Definition plainToInstance_model (cls : class) (plain : json)
  : throws value :=
  transform (Some (TClass cls)) plain.
End Transformer.

(* ================================================================= *)
(** ** Model of class-validator's [validate] *)

(** The executor of class-validator 0.14 (values of unknown class are
    rejected), with the two options the source sets and every other option
    at its default.  Only the names of the failed constraints are kept of
    an error's [constraints]. *)

(** A validation error: the offending property, the names of the failed
    constraints and the errors of nested values.  [property] is [None]
    (undefined) on the error reported for a value of unknown class. *)
Unset Elimination Schemes.
Inductive ValidationError : Type :=
  VError (property : option string) (constraints : list string)
         (children : list ValidationError).
Set Elimination Schemes.

Definition property (e : ValidationError) : option string :=
  match e with VError p _ _ => p end.
Definition constraints (e : ValidationError) : list string :=
  match e with VError _ cs _ => cs end.
Definition children (e : ValidationError) : list ValidationError :=
  match e with VError _ _ ch => ch end.

Record ValidatorOptions : Type := {
  whitelist : option bool;
  forbidNonWhitelisted : option bool
}.

Definition spread_validator (a b : ValidatorOptions) : ValidatorOptions :=
  {| whitelist := over (whitelist a) (whitelist b);
     forbidNonWhitelisted :=
       over (forbidNonWhitelisted a) (forbidNonWhitelisted b) |}.

(** The metadata kinds of the validator's storage. *)
Inductive ValidationTypes : Type :=
| CUSTOM_VALIDATION | NESTED_VALIDATION | CONDITIONAL_VALIDATION | IS_DEFINED.

Definition ValidationTypes_eqb (a b : ValidationTypes) : bool :=
  match a, b with
  | CUSTOM_VALIDATION, CUSTOM_VALIDATION
  | NESTED_VALIDATION, NESTED_VALIDATION
  | CONDITIONAL_VALIDATION, CONDITIONAL_VALIDATION
  | IS_DEFINED, IS_DEFINED => true
  | _, _ => false
  end.

Definition metadata_type (k : constraint) : ValidationTypes :=
  match k with
  | IsOptional => CONDITIONAL_VALIDATION
  | ValidateNested => NESTED_VALIDATION
  | IsDefined => IS_DEFINED
  | _ => CUSTOM_VALIDATION
  end.

Record ValidationMetadata : Type := Meta {
  propertyName : string;
  meta_constraint : constraint;
  meta_each : bool
}.

(** Decorators of one property run bottom to top, properties in the order
    of the class body. *)
Definition own_metadatas (c : class) : list ValidationMetadata :=
  flat_map
    (fun p => map (fun d => Meta (prop_name p) (dec_constraint d) (dec_each d))
                  (rev (prop_validators p)))
    (own_properties c).

Definition same_slot (a b : ValidationMetadata) : bool :=
  String.eqb (propertyName a) (propertyName b) &&
  ValidationTypes_eqb (metadata_type (meta_constraint a))
                      (metadata_type (meta_constraint b)).

(** [getTargetValidationMetadatas]: the class's own metadata, then what it
    inherits (in registration order, oldest ancestor first) unless an own
    entry of the same property and kind overrides it. *)
Definition getTargetValidationMetadatas (c : class)
  : list ValidationMetadata :=
  let originalMetadatas := own_metadatas c in
  let inheritedMetadatas := flat_map own_metadatas (rev (ancestors c)) in
  originalMetadatas ++
  filter (fun i => negb (existsb (fun o => same_slot o i) originalMetadatas))
         inheritedMetadatas.

Definition ctor_metadatas (c : ctor) : list ValidationMetadata :=
  match c with
  | CClass cls => getTargetValidationMetadatas cls
  | CObject => []
  end.

(** [getTargetValidationMetadatas] on a value that is no registered class:
    nothing is registered for the value itself, and what counts as
    inherited are the metadata of every registered class its [prototype]
    is an instance of, in registration order. *)
Definition hidden_constructor_metadatas (g : value)
  : list ValidationMetadata :=
  match g with
  | VObj _ gfs =>
      match lookup "prototype" gfs with
      | Some (VObj (CClass cls) _) =>
          flat_map own_metadatas (rev (cls :: ancestors cls))
      | _ => []
      end
  | _ => []
  end.

(** The metadata [execute] works with: those of [object.constructor], which
    is the class of the object unless an own property named [constructor]
    hides it. *)
Definition instance_metadatas (c : ctor) (fs : list (string * value))
  : list ValidationMetadata :=
  match lookup "constructor" fs with
  | Some g => hidden_constructor_metadatas g
  | None => ctor_metadatas c
  end.

(** [groupByPropertyName]: the property names in order of first mention, and
    the metadata of one name. *)
Definition grouped_names (ms : list ValidationMetadata) : list string :=
  uniq (map propertyName ms).

Definition grouped (ms : list ValidationMetadata) (p : string)
  : list ValidationMetadata :=
  filter (fun m => String.eqb (propertyName m) p) ms.

Definition of_type (t : ValidationTypes) (ms : list ValidationMetadata)
  : list ValidationMetadata :=
  filter (fun m => ValidationTypes_eqb (metadata_type (meta_constraint m)) t) ms.

(** *** The constraints *)

Definition is_hex_digit (a : ascii) : bool :=
  let n := nat_of_ascii a in
  (Nat.leb 48 n && Nat.leb n 57) || (Nat.leb 65 n && Nat.leb n 70)
  || (Nat.leb 97 n && Nat.leb n 102).

Fixpoint all_hex (s : string) : bool :=
  match s with
  | EmptyString => true
  | String a r => is_hex_digit a && all_hex r
  end.

Definition hex_digits (s : string) : bool :=
  negb (String.eqb s "") && all_hex s.

(** validator.js [isHexadecimal]: [/^(0x|0h)?[0-9A-F]+$/i]. *)
Definition isHexadecimal (s : string) : bool :=
  hex_digits s ||
  match s with
  | String "0" (String x r) =>
      mem (String x EmptyString) ["x"; "X"; "h"; "H"] && hex_digits r
  | _ => false
  end.

Definition isMongoId (s : string) : bool :=
  isHexadecimal s && Nat.eqb (String.length s) 24.

Definition nullish (v : value) : bool :=
  match v with VUndefined | VNull => true | _ => false end.

(** One constraint on one value. *)
Definition satisfies (k : constraint) (v : value) : bool :=
  match k with
  | IsString => match v with VStr _ => true | _ => false end
  | IsEnum entity => match v with VStr s => mem s entity | _ => false end
  | IsArray => match v with VArr _ => true | _ => false end
  | IsMongoId => match v with VStr s => isMongoId s | _ => false end
  | IsNotEmpty =>
      match v with
      | VStr s => negb (String.eqb s "")
      | VNull | VUndefined => false
      | _ => true
      end
  | IsNumber => match v with VNum (Finite _) => true | _ => false end
  | IsDate => match v with VDate (Some _) => true | _ => false end
  | IsDefined => negb (nullish v)
  | IsOptional => negb (nullish v)
  | ValidateNested => true
  end.

Definition constraint_name (k : constraint) : string :=
  match k with
  | IsString => "isString" | IsEnum _ => "isEnum" | IsArray => "isArray"
  | IsMongoId => "isMongoId" | IsNotEmpty => "isNotEmpty"
  | IsNumber => "isNumber" | IsDate => "isDate" | IsDefined => "isDefined"
  | IsOptional => "conditionalValidation"
  | ValidateNested => "nestedValidation"
  end.

(** [customValidations]: with [each], an array is checked element by
    element; the names of the failed constraints are recorded in order. *)
Definition passes (m : ValidationMetadata) (v : value) : bool :=
  match meta_each m, v with
  | true, VArr xs => forallb (satisfies (meta_constraint m)) xs
  | _, _ => satisfies (meta_constraint m) v
  end.

Definition customValidations (ms : list ValidationMetadata) (v : value)
  : list string :=
  map (fun m => constraint_name (meta_constraint m))
      (filter (fun m => negb (passes m v)) ms).

(** [conditionalValidations]: every [@IsOptional] of the property lets the
    value through only when it is neither [null] nor [undefined]. *)
Definition conditionalValidations (ms : list ValidationMetadata) (v : value)
  : bool :=
  forallb (fun m => satisfies (meta_constraint m) v) ms.

Fixpoint index_from (i : nat) (A : Type) (l : list A) : list (nat * A) :=
  match l with
  | [] => []
  | x :: r => (i, x) :: index_from (S i) r
  end.

(** Decimal rendering of an array index. *)
Definition digit (n : nat) : string :=
  String (ascii_of_nat (48 + n)) EmptyString.

Fixpoint decimal_fuel (fuel n : nat) : string :=
  match fuel with
  | O => ""
  | S f =>
      if Nat.ltb n 10 then digit n
      else decimal_fuel f (Nat.div n 10) ++ digit (Nat.modulo n 10)
  end.

Definition index_toString (n : nat) : string := decimal_fuel (S n) n.

Definition unknownValue : ValidationError :=
  VError None ["unknownValue"] [].

(** The members of [Object.prototype] other than the functions of
    [length] 0. *)
Definition Object_prototype_with_length : list string :=
  [ "constructor"; "__defineGetter__"; "__defineSetter__"; "hasOwnProperty";
    "__lookupGetter__"; "__lookupSetter__"; "isPrototypeOf";
    "propertyIsEnumerable"; "__proto__" ].

Section Validator.
Variable options : ValidatorOptions.

(** [whitelist] asks [groupedMetadatas[propertyName]] whether a property
    has metadata.  [groupedMetadatas] is an object literal: for a name of a
    member of [Object.prototype] the lookup answers that member, and the
    name counts as having metadata unless the member is a function of
    [length] 0 ([toString], [toLocaleString], [valueOf]). *)
Definition has_metadata (ms : list ValidationMetadata) (k : string) : bool :=
  mem k (map propertyName ms) || mem k Object_prototype_with_length.

(** [whitelist]: with [forbidNonWhitelisted], one error per own property
    of the object that has no metadata. *)
Definition notAllowedProperties (ms : list ValidationMetadata)
  (fs : list (string * value)) : list string :=
  filter (fun k => negb (has_metadata ms k)) (map fst fs).

Definition whitelist_errors (ms : list ValidationMetadata)
  (fs : list (string * value)) : list ValidationError :=
  if flag false (whitelist options)
     && flag false (forbidNonWhitelisted options)
  then map (fun k => VError (Some k) ["whitelistValidation"] [])
           (notAllowedProperties ms fs)
  else [].

(** [performValidations] on one property.  [nested] is the outcome of
    [nestedValidations] on the value: the constraint names it sets and
    the children it adds. *)
Definition performValidations (ms : list ValidationMetadata)
  (p : string) (v : value)
  (nested : list string * list ValidationError) : ValidationError :=
  if negb (conditionalValidations (of_type CONDITIONAL_VALIDATION ms) v)
  then VError (Some p) [] []
  else
    let nested :=
      match of_type NESTED_VALIDATION ms with
      | [] => ([], [])
      | _ => nested
      end in
    VError (Some p)
      (customValidations (of_type IS_DEFINED ms) v
       ++ customValidations (of_type CUSTOM_VALIDATION ms) v
       ++ fst nested)
      (snd nested).

(** [execute] on one object, given the nested outcome of each of its own
    properties. *)
Definition execute_object (c : ctor) (fs : list (string * value))
  (sub : list (string * (list string * list ValidationError)))
  : list ValidationError :=
  let targetMetadatas := instance_metadatas c fs in
  match targetMetadatas with
  | [] => [unknownValue]
  | _ =>
      whitelist_errors targetMetadatas fs ++
      map (fun p =>
             performValidations (grouped targetMetadatas p) p
               (match lookup p fs with
                | Some v => v
                | None => VUndefined
                end)
               (match lookup p sub with
                | Some n => n
                | None => ([], [])
                end))
          (grouped_names targetMetadatas)
  end.

(** [nestedValidations] on a value: nothing on [undefined]; one child per
    element on an array; the errors of [execute] on an object; a failed
    constraint on anything else.  The exceptions of a run are told apart
    in [nested_throws] below: this is the outcome of a run that throws
    none. *)
Fixpoint nestedValidations (v : value)
  : list string * list ValidationError :=
  match v with
  | VUndefined => ([], [])
  | VArr xs =>
      ([], map (fun ix =>
                  VError (Some (index_toString (fst ix)))
                         (fst (snd ix)) (snd (snd ix)))
               (index_from 0 (map nestedValidations xs)))
  | VObj c fs =>
      ([], execute_object c fs
             (map (fun kv => (fst kv, nestedValidations (snd kv))) fs))
  | VDate _ => ([], [unknownValue])
  | VNull | VBool _ | VNum _ | VStr _ => (["nestedValidation"], [])
  end.

(** The errors [execute] collects at the root when it reads the
    [constructor] of the value without an exception: a value that is no
    object has a constructor without metadata. *)
Definition execute_errors (v : value) : list ValidationError :=
  match v with
  | VObj c fs => snd (nestedValidations v)
  | _ => [unknownValue]
  end.

(** The object after [execute]: in whitelist mode without
    [forbidNonWhitelisted] the properties without metadata are gone from
    every object [execute] has visited. *)
Fixpoint whitelist_strip (v : value) : value :=
  match v with
  | VArr xs => VArr (map whitelist_strip xs)
  | VObj c fs =>
      match instance_metadatas c fs with
      | [] => v
      | ms =>
          VObj c
            (filter (fun kv => has_metadata ms (fst kv))
               (map (fun kv =>
                       let g := grouped ms (fst kv) in
                       if conditionalValidations
                            (of_type CONDITIONAL_VALIDATION g) (snd kv)
                       then match of_type NESTED_VALIDATION g with
                            | [] => kv
                            | _ => (fst kv, whitelist_strip (snd kv))
                            end
                       else kv)
                  fs))
      end
  | _ => v
  end.
End Validator.

(** [stripEmptyErrors]: errors with neither constraints nor children are
    dropped, bottom up. *)
Fixpoint stripEmptyErrors_one (e : ValidationError) : option ValidationError :=
  match e with
  | VError p cs ch =>
      let ch' :=
        (fix strip (l : list ValidationError) : list ValidationError :=
           match l with
           | [] => []
           | x :: r =>
               match stripEmptyErrors_one x with
               | Some x' => x' :: strip r
               | None => strip r
               end
           end) ch in
      match cs, ch' with
      | [], [] => None
      | _, _ => Some (VError p cs ch')
      end
  end.

Fixpoint stripEmptyErrors (errors : list ValidationError)
  : list ValidationError :=
  match errors with
  | [] => []
  | x :: r =>
      match stripEmptyErrors_one x with
      | Some x' => x' :: stripEmptyErrors r
      | None => stripEmptyErrors r
      end
  end.

(** *** The exceptions of [execute]

    [execute] reads [object.constructor] and, while looking for inherited
    metadata, [targetConstructor.prototype]: the first read throws on
    [null] and [undefined], the second when an own property named
    [constructor] holds one of them. *)
Definition first_thrown (l : list (option exn)) : option exn :=
  fold_right (fun o rest => match o with Some e => Some e | None => rest end)
             None l.

Definition execute_object_throws (c : ctor) (fs : list (string * value))
  (sub : list (string * option exn)) : option exn :=
  match lookup "constructor" fs with
  | Some VUndefined =>
      Some (TypeError
              "Cannot read properties of undefined (reading 'prototype')")
  | Some VNull =>
      Some (TypeError "Cannot read properties of null (reading 'prototype')")
  | _ =>
      let targetMetadatas := instance_metadatas c fs in
      first_thrown
        (map (fun p =>
                let ms := grouped targetMetadatas p in
                let v := match lookup p fs with
                         | Some v => v
                         | None => VUndefined
                         end in
                if conditionalValidations (of_type CONDITIONAL_VALIDATION ms) v
                then match of_type NESTED_VALIDATION ms with
                     | [] => None
                     | _ => match lookup p sub with
                            | Some o => o
                            | None => None
                            end
                     end
                else None)
             (grouped_names targetMetadatas))
  end.

(** The exception of [nestedValidations] on a value, if any: the first one
    met, properties and elements being visited in order. *)
Fixpoint nested_throws (v : value) : option exn :=
  match v with
  | VArr xs => first_thrown (map nested_throws xs)
  | VObj c fs =>
      execute_object_throws c fs
        (map (fun kv => (fst kv, nested_throws (snd kv))) fs)
  | _ => None
  end.

(** [execute] at the root. *)
Definition execute (options : ValidatorOptions) (v : value)
  : throws (list ValidationError) :=
  match v with
  | VUndefined =>
      throw (TypeError
               "Cannot read properties of undefined (reading 'constructor')")
  | VNull =>
      throw (TypeError
               "Cannot read properties of null (reading 'constructor')")
  | VObj _ _ =>
      match nested_throws v with
      | Some e => throw e
      | None => ret (execute_errors options v)
      end
  | _ => ret (execute_errors options v)
  end.

(** The instance as a call of [validate] that returns leaves it. *)
Definition validated_instance (instance : value) (options : ValidatorOptions)
  : value :=
  match instance with
  | VObj _ _ =>
      if flag false (whitelist options)
         && negb (flag false (forbidNonWhitelisted options))
      then whitelist_strip instance else instance
  | _ => instance
  end.

(** [validate(instance, options)], when it returns: the instance as the
    call leaves it, and the errors found. *)
Definition validate_model (instance : value) (options : ValidatorOptions)
  : value * list ValidationError :=
  (validated_instance instance options,
   stripEmptyErrors (execute_errors options instance)).

(** [validate(instance, options)]. *)
Definition validate_lib (instance : value) (options : ValidatorOptions)
  : throws (value * list ValidationError) :=
  errors <- execute options instance ;;
  ret (validated_instance instance options, stripEmptyErrors errors).

(* ================================================================= *)
(** ** Effects of the pipeline: library calls, console, exceptions *)

(** What [console.error] is given: the template line and the value printed
    after it. *)
Inductive console_line : Type :=
| ParsingFailed (typeName : string) (errorMessage : string)
| ValidatingFailed (typeName : string) (errors : list ValidationError).

(** The observable events of one run, oldest first. *)
Inductive event : Type :=
| Called_plainToInstance (type : class) (plain : json)
    (options : ClassTransformOptions)
| Called_validate (instance : value) (options : ValidatorOptions)
| Console_error (line : console_line).

Definition trace : Type := list event.

(** A computation threads the trace and may throw. *)
Definition io (A : Type) : Type := trace -> trace * throws A.

Definition io_ret {A : Type} (a : A) : io A := fun t => (t, inr a).
Definition io_throw {A : Type} (e : exn) : io A := fun t => (t, inl e).
Definition io_bind {A B : Type} (m : io A) (k : A -> io B) : io B :=
  fun t =>
    match m t with
    | (t', inl e) => (t', inl e)
    | (t', inr a) => k a t'
    end.
Definition io_emit (ev : event) : io unit := fun t => (t ++ [ev], inr tt).
Definition io_lift {A : Type} (m : throws A) : io A := fun t => (t, m).
Definition io_try {A : Type} (m : io A) (handler : exn -> io A) : io A :=
  fun t =>
    match m t with
    | (t', inl e) => handler e t'
    | r => r
    end.

Declare Scope io_scope.
Delimit Scope io_scope with io.
Notation "x <-- m ;; k" := (io_bind m (fun x => k))
  (at level 61, m at next level, right associativity) : io_scope.
Notation "m ;;; k" := (io_bind m (fun _ => k))
  (at level 61, right associativity) : io_scope.

(** [`${props}`]: the array joined with commas, [undefined] printing as the
    empty string. *)
Fixpoint Array_toString (props : list (option string)) : string :=
  match props with
  | [] => ""
  | [p] => match p with Some s => s | None => "" end
  | p :: r =>
      (match p with Some s => s | None => "" end) ++ "," ++ Array_toString r
  end.

Definition no_transform_options : ClassTransformOptions :=
  {| excludeExtraneousValues := None; exposeUnsetFields := None |}.

Definition no_validator_options : ValidatorOptions :=
  {| whitelist := None; forbidNonWhitelisted := None |}.

Section Pipeline.
(** The two library entry points. *)
Variable plainToInstance :
  class -> json -> ClassTransformOptions -> throws value.
Variable validate :
  value -> ValidatorOptions -> throws (value * list ValidationError).

Local Open Scope io_scope.

Definition parsePlainObject (type : class) (plainObject : json)
  (options : ClassTransformOptions) : io value :=
  let transformOptions :=
    spread_transform
      {| excludeExtraneousValues := Some true;
         exposeUnsetFields := Some true |}
      options in
  io_try
    (io_emit (Called_plainToInstance type plainObject transformOptions) ;;;
     io_lift (plainToInstance type plainObject transformOptions))
    (fun error =>
       io_emit (Console_error
                  (ParsingFailed (class_name type) (message error))) ;;;
       io_throw (Error (message error))).

(** Objects are passed by reference: the value returned stands for the
    instance as [validate] has left it. *)
Definition validateClassInstance (instance : value) (type : class)
  (options : ValidatorOptions) (errorMsgTitle : option string) : io value :=
  let errorMsgTitle :=
    match errorMsgTitle with
    | Some t => t
    | None => "The following field values do not meet constraints"
    end in
  let validatorOptions :=
    spread_validator
      {| whitelist := Some true; forbidNonWhitelisted := Some true |}
      options in
  io_emit (Called_validate instance validatorOptions) ;;;
  outcome <-- io_lift (validate instance validatorOptions) ;;
  let (instance', errors) := outcome in
  if Nat.ltb 0 (List.length errors) then
    io_emit (Console_error (ValidatingFailed (class_name type) errors)) ;;;
    let props := map property errors in
    io_throw (Error (errorMsgTitle ++ ": " ++ Array_toString props))
  else io_ret instance'.

(** [Assessment.prototype.validate]. *)
Definition Assessment_validate (this : value) : io value :=
  validateClassInstance this Assessment no_validator_options
    (Some "The following field values do not meet constraints in Assessment").

(** The method call [entity.validate()]. *)
Definition call_validate (entity : value) : io value :=
  match entity with
  | VObj (CClass Assessment) fs =>
      if has_key "validate" fs
      then io_throw (not_a_function "entity.validate")
      else Assessment_validate entity
  | VUndefined =>
      io_throw (TypeError
        "Cannot read properties of undefined (reading 'validate')")
  | VNull =>
      io_throw (TypeError
        "Cannot read properties of null (reading 'validate')")
  | _ => io_throw (not_a_function "entity.validate")
  end.

(** [Assessment.fromObject]. *)
Definition Assessment_fromObject (obj : json) : io value :=
  entity <-- parsePlainObject Assessment obj no_transform_options ;;
  entity' <-- call_validate entity ;;
  io_ret entity'.
End Pipeline.

(** The pipeline over the models of the two libraries. *)
Definition plainToInstance_lib (Date_parse : string -> option Z)
  (cls : class) (plain : json) (options : ClassTransformOptions)
  : throws value :=
  plainToInstance_model Date_parse options cls plain.

Definition fromObject (Date_parse : string -> option Z) (obj : json)
  : io value :=
  Assessment_fromObject (plainToInstance_lib Date_parse) validate_lib obj.

(** The outcome of a run started with an empty trace. *)
Definition run {A : Type} (m : io A) : trace * throws A := m [].

(* ================================================================= *)
(** ** The sample exchange of the source *)

Definition sample_hint_message : json :=
  JObj
    [ ("data",
       JObj
         [ ("options",
            JArr [ JObj [ ("next", JStr "5f77dd133075f3b845b19c02");
                          ("id", JStr "0");
                          ("text", JStr "");
                          ("value", JStr "0") ] ]);
           ("masterId", JStr "greeting");
           ("types", JArr [JStr "HINT"]);
           ("_id", JStr "5f77dd133075f3b845b19c01");
           ("contents",
            JArr [ JObj [ ("value", JStr "Hey Tony, congratulations on your new role with Woolworths, Australia's #1 trusted brand!");
                          ("types", JArr [JStr "TEXT"]) ] ]) ]);
      ("sender", JStr "AGENT");
      ("id", JStr "bc12520c-9e9c-4ac0-971e-528d2dcafb2a") ].

Definition sample_answer_text : string :=
  "I have 10 years of experience in personal finance management, and I have assisted 45 repeat clients in increasing their capital by an average of 15% every year. As a financial analyst, I utilized visual growth charts to show my clients how each saving plan option can impact their goals.".

Definition sample_answer_message : json :=
  JObj
    [ ("timeTaken", JNum (integer 54321));
      ("userAgent", JStr "Mozilla/5.0 (Windows NT 6.1; Win64; x64; rv:47.0) Gecko/20100101 Firefox/47.0");
      ("id", JStr "db6489af-636f-4f05-a642-96c98fbcb36c");
      ("data",
       JObj
         [ ("_id", JStr "6021f9ebb02141003c057051");
           ("text", JStr sample_answer_text);
           ("question",
            JObj
              [ ("usageWhitelist", JArr [JStr "GENERAL_PY"]);
                ("masterId", JStr "previous.work.exp");
                ("types", JArr [JStr "BUTTON_GROUP_QUESTION"]);
                ("_id", JStr "5f7d0d27b89cf6d0ce033a25");
                ("contents",
                 JArr [ JObj [ ("value", JStr "Can you please describe your last work experience?");
                               ("types", JArr [JStr "TEXT"]) ] ]);
                ("version", JNum (integer 1)) ]);
           ("value", JStr sample_answer_text) ]);
      ("sender", JStr "CANDIDATE") ].

Definition sample_question_message : json :=
  JObj
    [ ("data",
       JObj
         [ ("_id", JStr "5f77dd133075f3b845b19d01");
           ("masterId", JStr "5f77dd133075f3b8450bc2a3");
           ("types", JArr [JStr "MCQ"]);
           ("contents",
            JArr [ JObj [ ("value", JStr "Are you hard working");
                          ("types", JArr [JStr "TEXT"]) ] ]);
           ("options",
            JArr [ JObj [ ("id", JStr "1"); ("text", JStr "Yes");
                          ("value", JStr "1") ];
                   JObj [ ("id", JStr "2"); ("text", JStr "No");
                          ("value", JStr "2") ] ]);
           ("usageWhitelist", JArr [JStr "GENERAL_PY"; JStr "SENSITIVE"]) ]);
      ("sender", JStr "AGENT");
      ("id", JStr "25688f98-27a0-4641-a60f-98ea87825657") ].

Definition sample : json :=
  JObj [ ("chatLogs",
          JArr [ sample_hint_message; sample_answer_message;
                 sample_question_message ]) ].

(* ================================================================= *)
(** ** Vocabulary of the properties *)

(** The variant the specification prescribes for [Message.data], from the
    three facts it names, first match winning. *)
Definition payload_variant (sender_is_candidate has_hint has_button_group : bool)
  : class :=
  if sender_is_candidate then Answer
  else if has_hint then Hint
  else if has_button_group then ButtonGroupQuestion
  else Question.

(** The variant the specification prescribes for [Answer.question]. *)
Definition question_variant (has_button_group : bool) : class :=
  if has_button_group then ButtonGroupQuestion else Question.

(** The [types] of the payload of a raw message, and of the question of a
    raw answer. *)
Definition data_types (node : json) : option json :=
  opt_get (opt_get (Some node) "data") "types".

Definition question_types (node : json) : option json :=
  opt_get (opt_get (Some node) "question") "types".

(** [types] is an array holding the tag. *)
Definition array_contains (types : option json) (tag : string) : bool :=
  match types with
  | Some (JArr xs) => arr_includes xs tag
  | _ => false
  end.

(** [types] is absent (or [null]), or is an array. *)
Definition absent_or_array (types : option json) : bool :=
  match types with
  | None | Some JNull | Some (JArr _) => true
  | _ => false
  end.

(** [types] is absent (or [null]) or has an [includes] method, as arrays and
    strings do. *)
Definition absent_or_includable (types : option json) : bool :=
  match types with
  | None | Some JNull | Some (JArr _) | Some (JStr _) => true
  | _ => false
  end.

Definition is_variant (t : target) : bool :=
  match t with
  | TClass Answer | TClass Hint | TClass ButtonGroupQuestion
  | TClass Question => true
  | _ => false
  end.

(** The constructor of an instance. *)
Definition class_of (v : value) : option class :=
  match v with
  | VObj (CClass c) _ => Some c
  | _ => None
  end.

Definition own_keys (v : value) : list string :=
  match v with
  | VObj _ fs => map fst fs
  | _ => []
  end.

(** Every instance of a schema class in the graph owns declared properties
    only. *)
Fixpoint only_declared (v : value) : bool :=
  match v with
  | VArr xs => forallb only_declared xs
  | VObj c fs =>
      forallb (fun kv =>
                 match c with
                 | CClass cls => mem (fst kv) (exposed_properties cls)
                 | CObject => true
                 end && only_declared (snd kv)) fs
  | _ => true
  end.

(** The raw tree without the keys the schema does not declare: at every
    object met at a typed position, only the exposed properties of the
    resolved class are kept, and their values are pruned in turn.  Values
    at untyped positions are data and stay as they are. *)
Fixpoint prune (tt : option target) (v : json) {struct v} : json :=
  match v with
  | JArr xs => JArr (map (prune tt) xs)
  | JObj fs =>
      match tt with
      | Some (TClass c) =>
          JObj
            (filter (fun kv => mem (fst kv) (exposed_properties c))
               (map (fun kv =>
                       (fst kv,
                        match type_of (Some c) (fst kv) v with
                        | inr ty => prune ty (snd kv)
                        | inl _ => snd kv
                        end))
                  fs))
      | _ => v
      end
  | _ => v
  end.

(** The options [parsePlainObject] and [validateClassInstance] hand to the
    libraries when the caller passes none. *)
Definition default_transform_options : ClassTransformOptions :=
  {| excludeExtraneousValues := Some true; exposeUnsetFields := Some true |}.

Definition default_validator_options : ValidatorOptions :=
  {| whitelist := Some true; forbidNonWhitelisted := Some true |}.

Definition Assessment_title : string :=
  "The following field values do not meet constraints in Assessment".

(** The messages of the [TypeError]s the two resolvers can raise. *)
Definition resolver_failure (e : exn) : Prop :=
  e = not_a_function "object?.data?.types?.includes" \/
  e = not_a_function "object?.question?.types?.includes".

(** The messages of the exceptions of the transform: those of the two
    resolvers, that of [new Date] on an object it cannot convert, and those
    of the executor on a raw object it takes a type from. *)
Definition transform_failure_messages : list string :=
  [ "object?.data?.types?.includes is not a function";
    "object?.question?.types?.includes is not a function";
    "Cannot convert object to primitive value";
    "Cannot read properties of undefined (reading 'constructor')";
    "Cannot read properties of null (reading 'constructor')";
    "Cannot convert undefined or null to object";
    "targetType is not a constructor" ].

(** The text [`${props}`] gives one entry of [props]. *)
Definition property_text (e : ValidationError) : string :=
  match property e with Some s => s | None => "" end.

(** Some message of the raw tree carries [time: s], a string the engine's
    [Date.parse] rejects. *)
Definition has_uncoercible_time (Date_parse : string -> option Z)
  (obj : json) : Prop :=
  exists fs ms i mfs s,
    obj = JObj fs /\
    lookup "chatLogs" fs = Some (JArr ms) /\
    nth_error ms i = Some (JObj mfs) /\
    lookup "time" mfs = Some (JStr s) /\
    Date_parse s = None.

(** The metadata [validate] works with at the root. *)
Definition root_metadatas (instance : value) : list ValidationMetadata :=
  match instance with
  | VObj c fs => instance_metadatas c fs
  | _ => []
  end.

(** A top-level name of an instance: one of its own properties or a
    property the metadata of its constructor declare; [undefined] on the
    error for a value without metadata. *)
Definition top_level_name (instance : value) (p : option string) : Prop :=
  match p with
  | None => True
  | Some k =>
      In k (own_keys instance) \/
      In k (grouped_names (root_metadatas instance))
  end.

(** An engine that recognises none of the date strings handed to it. *)
Definition Date_parse_none : string -> option Z := fun _ => None.

(** *** Inputs used as examples *)

(** A message whose payload carries [types: 5]. *)
Definition types_is_number : json :=
  JObj [ ("sender", JStr "AGENT"); ("id", JStr "m1");
         ("data", JObj [ ("types", JNum (integer 5)) ]) ].

(** An answer whose question carries [types: 5]. *)
Definition question_types_is_number : json :=
  JObj [ ("question", JObj [ ("types", JNum (integer 5)) ]) ].

(** A payload tagged both HINT and BUTTON_GROUP_QUESTION. *)
Definition both_tags : json :=
  JObj [ ("types", JArr [JStr "BUTTON_GROUP_QUESTION"; JStr "HINT"]) ].

Definition valid_question : value :=
  VObj (CClass Question)
    [ ("_id", VStr "5f77dd133075f3b845b19d01");
      ("types", VArr [VStr "MCQ"]);
      ("contents", VArr []) ].

(** A typed graph with two independent violations below [chatLogs]: an
    unknown [sender] and an empty [text] in the answer. *)
Definition two_violations : value :=
  VObj (CClass Assessment)
    [ ("chatLogs",
       VArr
         [ VObj (CClass Message)
             [ ("id", VStr "m1");
               ("sender", VStr "UNKNOWN");
               ("data",
                VObj (CClass Answer)
                  [ ("_id", VStr "a1");
                    ("question", valid_question);
                    ("value", VStr "v");
                    ("text", VStr "") ]) ] ]) ].

(** An instance with three violations at the top level: two properties
    the class does not declare and a [chatLogs] that is no array. *)
Definition three_violations : value :=
  VObj (CClass Assessment)
    [ ("zeta", VNum (integer 1)); ("alpha", VStr "a");
      ("chatLogs", VStr "x") ].

(** The sample with [time: "not a date"] added to its first message. *)
Definition sample_bad_time : json :=
  JObj [ ("chatLogs",
          JArr [ JObj [ ("time", JStr "not a date");
                        ("data", JObj [ ("_id", JStr "5f77dd133075f3b845b19c01");
                                        ("types", JArr [JStr "HINT"]);
                                        ("contents", JArr []) ]);
                        ("sender", JStr "AGENT");
                        ("id", JStr "m1") ] ]) ].

(* ================================================================= *)
(** ** Vocabulary of the proofs *)

(** The type functions of the schema: constant ones and the two resolvers,
    each attached to one property of one class. *)
Inductive type_function : class -> string ->
                          (option json -> throws target) -> Prop :=
| tf_always c k t : type_function c k (always t)
| tf_data : type_function Message "data" Message_data_type
| tf_question : type_function Answer "question" Answer_question_type.

(** The part of each resolver that reads [types]. *)
Definition hint_or_question (types : option json) : throws target :=
  h <- opt_includes "object?.data?.types?.includes" types QuestionType.HINT ;;
  if truthy h then ret (TClass Hint)
  else
    b <- opt_includes "object?.data?.types?.includes" types QuestionType.BGQ ;;
    if truthy b then ret (TClass ButtonGroupQuestion)
    else ret (TClass Question).

Definition group_or_question (types : option json) : throws target :=
  b <- opt_includes "object?.question?.types?.includes" types
         QuestionType.BGQ ;;
  if truthy b then ret (TClass ButtonGroupQuestion)
  else ret (TClass Question).

(** The keys the loop of [set_keys] does not skip. *)
Definition visited (oc : option class) (k : string) : bool :=
  negb (mem k ["__proto__"; "constructor"]) && negb (is_method oc k).

(** The value the loop computes for one key. *)
Definition key_value (sub : list (string * (option target -> throws value)))
  (k : string) (ty : option target) : throws value :=
  match lookup k sub with
  | Some transform_k => transform_k ty
  | None => ret VUndefined
  end.

(** The sub-transformations handed to the loop over the keys. *)
Definition pending (Date_parse : string -> option Z)
  (options : ClassTransformOptions) (fs : list (string * json))
  : list (string * (option target -> throws value)) :=
  map (fun kv => (fst kv, fun t => transform Date_parse options t (snd kv)))
      fs.

(** The value pruning leaves under a key of a raw object met at class
    [c]. *)
Definition pruned_value (c : class) (object : json) (k : string) (x : json)
  : json :=
  match type_of (Some c) k object with
  | inr ty => prune ty x
  | inl _ => x
  end.

(** No object of the graph owns a property named [constructor]: every
    object answers its class when asked for its constructor. *)
Fixpoint constructor_not_hidden (v : value) : bool :=
  match v with
  | VArr xs => forallb constructor_not_hidden xs
  | VObj c fs =>
      negb (has_key "constructor" fs) &&
      forallb (fun kv => constructor_not_hidden (snd kv)) fs
  | _ => true
  end.

(** What survives [stripEmptyErrors]: an error with a failed constraint,
    or with a surviving child. *)
Definition kept (e : ValidationError) : Prop :=
  constraints e <> [] \/ stripEmptyErrors (children e) <> [].

(** The nested outcome of each own property of an object. *)
Definition nested_outcomes (options : ValidatorOptions)
  (fs : list (string * value))
  : list (string * (list string * list ValidationError)) :=
  map (fun kv => (fst kv, nestedValidations options (snd kv))) fs.

(* ================================================================= *)
(* ================================================================= *)
(** ** Vocabulary of the further properties *)

(** The raw tree is an object whose [chatLogs] array holds the raw object
    [mfs] at index [i]. *)
Definition message_at (obj : json) (i : nat) (mfs : list (string * json))
  : Prop :=
  exists fs ms,
    obj = JObj fs /\
    lookup "chatLogs" fs = Some (JArr ms) /\
    nth_error ms i = Some (JObj mfs).

(** The pipeline never accepts the raw tree: the run does not return, and
    once the transform has returned, [validate] is called and the error
    thrown is the validation failure naming [chatLogs]. *)
Definition rejected_once_transformed (Date_parse : string -> option Z)
  (obj : json) : Prop :=
  (forall entity, snd (run (fromObject Date_parse obj)) <> inr entity) /\
  (forall entity,
     plainToInstance_lib Date_parse Assessment obj default_transform_options
     = inr entity ->
     exists errors,
       run (fromObject Date_parse obj)
       = ([Called_plainToInstance Assessment obj default_transform_options;
           Called_validate entity default_validator_options;
           Console_error (ValidatingFailed "Assessment" errors)],
          inl (Error (Assessment_title ++ ": chatLogs")))).

(** A raw message that violates a constraint of the schema: its [sender]
    is a string outside the enumeration; it is an answer of the candidate
    with an empty [_id], [value] or [text]; or its payload, that of a
    message the candidate did not send, carries an [_id] string that is no
    Mongo id. *)
Inductive constraint_violation (mfs : list (string * json)) : Prop :=
| bad_enum_value (s : string) :
    lookup "sender" mfs = Some (JStr s) ->
    s <> MessageSender.AGENT -> s <> MessageSender.CANDIDATE ->
    constraint_violation mfs
| empty_required_string (dfs : list (string * json)) (k : string) :
    lookup "sender" mfs = Some (JStr MessageSender.CANDIDATE) ->
    lookup "data" mfs = Some (JObj dfs) ->
    In k ["_id"; "value"; "text"] ->
    lookup k dfs = Some (JStr "") ->
    constraint_violation mfs
| malformed_id (dfs : list (string * json)) (s : string) :
    isAnswer (Some (JObj mfs)) = false ->
    lookup "data" mfs = Some (JObj dfs) ->
    lookup "_id" dfs = Some (JStr s) ->
    isMongoId s = false ->
    constraint_violation mfs.

(** Nested validation of a value, with the default options, reports a
    violation that survives [stripEmptyErrors]. *)
Definition reports (v : value) : Prop :=
  fst (nestedValidations default_validator_options v) <> [] \/
  stripEmptyErrors (snd (nestedValidations default_validator_options v))
  <> [].

(** The value of a property of an instance, [undefined] when it owns
    none. *)
Definition own_value (fs : list (string * value)) (p : string) : value :=
  match lookup p fs with Some v => v | None => VUndefined end.

(** The constraints of a class that fail on a value of one property, the
    conditional ones ([@IsOptional]) having let the value through. *)
Definition failed_constraints (c : class) (p : string) (v : value)
  : list string :=
  let g := grouped (getTargetValidationMetadatas c) p in
  if conditionalValidations (of_type CONDITIONAL_VALIDATION g) v
  then customValidations (of_type IS_DEFINED g) v
       ++ customValidations (of_type CUSTOM_VALIDATION g) v
  else [].

(** The property of a class is validated in depth when its value passes
    the conditional constraints. *)
Definition validated_nested (c : class) (p : string) (v : value) : bool :=
  let g := grouped (getTargetValidationMetadatas c) p in
  conditionalValidations (of_type CONDITIONAL_VALIDATION g) v
  && negb (Nat.eqb (List.length (of_type NESTED_VALIDATION g)) 0).

(** The class of the options of a question class. *)
Definition option_class (c : class) : class :=
  match c with
  | ButtonGroupQuestion => ButtonGroupOption
  | _ => QuestionOption
  end.

(** * Properties *)

Unset Implicit Arguments.

(** ** Basic facts on lookups and exceptions *)

Lemma bind_ret_inv {A B : Type} (m : throws A) (k : A -> throws B) (b : B) :
  bind m k = inr b -> exists a, m = inr a /\ k a = inr b.
Proof.
  destruct m as [e | a]; simpl; intros H; [discriminate | eauto].
Qed.

Lemma bind_throw_inv {A B : Type} (m : throws A) (k : A -> throws B) (e : exn) :
  bind m k = inl e -> m = inl e \/ exists a, m = inr a /\ k a = inl e.
Proof.
  destruct m as [e' | a]; simpl; intros H; [left; congruence | right; eauto].
Qed.

Lemma mem_In (k : string) (ks : list string) : mem k ks = true <-> In k ks.
Proof.
  unfold mem. rewrite existsb_exists. split.
  - intros [x [Hin Heq]]. apply String.eqb_eq in Heq. now subst.
  - intros Hin. exists k. split; [assumption | apply String.eqb_refl].
Qed.

Lemma lookup_map {A B : Type} (f : A -> B) (k : string)
  (fs : list (string * A)) :
  lookup k (map (fun kv => (fst kv, f (snd kv))) fs)
  = option_map f (lookup k fs).
Proof.
  induction fs as [| [k' v] r IH]; simpl; [reflexivity |].
  destruct (String.eqb k k'); [reflexivity | exact IH].
Qed.

Lemma lookup_In {A : Type} (k : string) (fs : list (string * A)) (v : A) :
  lookup k fs = Some v -> In (k, v) fs.
Proof.
  induction fs as [| [k' v'] r IH]; simpl; [discriminate |].
  destruct (String.eqb k k') eqn:E.
  - intros H. injection H as ->. apply String.eqb_eq in E. subst. now left.
  - intros H. right. now apply IH.
Qed.

(** ** The resolvers *)

(** C1: the variant of [Message.data] follows the ordered precedence
    CANDIDATE sender, then HINT, then BUTTON_GROUP_QUESTION, then Question:
    a CANDIDATE sender gives Answer whatever the payload holds; otherwise a
    [types] array holding "HINT" gives Hint, also when it holds
    "BUTTON_GROUP_QUESTION" too; otherwise a [types] array holding
    "BUTTON_GROUP_QUESTION" gives ButtonGroupQuestion; otherwise, [types]
    being an array or absent, the variant is Question. *)
Theorem Message_data_precedence (node : json) :
  (isAnswer (Some node) = true ->
   Message_data_type (Some node) = ret (TClass Answer)) /\
  (isAnswer (Some node) = false ->
   array_contains (data_types node) QuestionType.HINT = true ->
   Message_data_type (Some node) = ret (TClass Hint)) /\
  (isAnswer (Some node) = false ->
   array_contains (data_types node) QuestionType.HINT = false ->
   array_contains (data_types node) QuestionType.BGQ = true ->
   Message_data_type (Some node) = ret (TClass ButtonGroupQuestion)) /\
  (isAnswer (Some node) = false ->
   absent_or_array (data_types node) = true ->
   array_contains (data_types node) QuestionType.HINT = false ->
   array_contains (data_types node) QuestionType.BGQ = false ->
   Message_data_type (Some node) = ret (TClass Question)) /\
  (absent_or_array (data_types node) = true ->
   Message_data_type (Some node)
   = ret (TClass (payload_variant
                    (isAnswer (Some node))
                    (array_contains (data_types node) QuestionType.HINT)
                    (array_contains (data_types node) QuestionType.BGQ)))).
Proof.
  unfold Message_data_type, isAnswer, data_types, payload_variant.
  destruct (strict_eq_str (opt_get (Some node) "sender")
              MessageSender.CANDIDATE) eqn:Hs.
  - repeat split; intros; try discriminate; reflexivity.
  - destruct (opt_get (opt_get (Some node) "data") "types")
      as [[| b | n | s | xs | fs] |] eqn:Ht; simpl;
      repeat split; intros; try discriminate; try reflexivity.
    + destruct (arr_includes xs QuestionType.HINT); [reflexivity | discriminate].
    + destruct (arr_includes xs QuestionType.HINT); [discriminate |].
      simpl. destruct (arr_includes xs QuestionType.BGQ);
        [reflexivity | discriminate].
    + destruct (arr_includes xs QuestionType.HINT); [discriminate |].
      simpl. destruct (arr_includes xs QuestionType.BGQ);
        [discriminate | reflexivity].
    + destruct (arr_includes xs QuestionType.HINT); [reflexivity |].
      simpl. destruct (arr_includes xs QuestionType.BGQ); reflexivity.
Qed.

Lemma Message_data_precedence_witness :
  Message_data_type (Some sample_answer_message) = ret (TClass Answer) /\
  Message_data_type (Some sample_hint_message) = ret (TClass Hint) /\
  Message_data_type (Some (JObj [("data", both_tags)])) = ret (TClass Hint) /\
  Message_data_type (Some sample_question_message) = ret (TClass Question).
Proof.
  split; [| split; [| split]].
  - apply (proj1 (Message_data_precedence sample_answer_message)).
    reflexivity.
  - apply (proj1 (proj2 (Message_data_precedence sample_hint_message)));
      reflexivity.
  - apply (proj1 (proj2 (Message_data_precedence
                           (JObj [("data", both_tags)])))); reflexivity.
  - apply (proj1 (proj2 (proj2 (proj2
             (Message_data_precedence sample_question_message)))));
      reflexivity.
Defined.

(** C5: the variant of [Answer.question] is ButtonGroupQuestion exactly
    when the question's [types] array holds "BUTTON_GROUP_QUESTION" and
    Question otherwise; there is no HINT branch, so a question tagged
    "HINT" without the button-group tag is a plain Question, where the
    resolver of [Message.data] answers Hint for the same payload. *)
Theorem Answer_question_variant (node : json) :
  (array_contains (question_types node) QuestionType.BGQ = true ->
   Answer_question_type (Some node) = ret (TClass ButtonGroupQuestion)) /\
  (absent_or_array (question_types node) = true ->
   Answer_question_type (Some node)
   = ret (TClass (question_variant
                    (array_contains (question_types node) QuestionType.BGQ)))) /\
  (absent_or_array (question_types node) = true ->
   (Answer_question_type (Some node) = ret (TClass ButtonGroupQuestion)
    <-> array_contains (question_types node) QuestionType.BGQ = true)) /\
  (forall q,
     opt_get (Some node) "question" = Some q ->
     array_contains (question_types node) QuestionType.HINT = true ->
     array_contains (question_types node) QuestionType.BGQ = false ->
     Answer_question_type (Some node) = ret (TClass Question) /\
     Message_data_type (Some (JObj [("data", q)])) = ret (TClass Hint)).
Proof.
  unfold Answer_question_type, question_types, question_variant.
  split; [| split; [| split]].
  - destruct (opt_get (opt_get (Some node) "question") "types")
      as [[| b | n | s | xs | fs] |]; simpl; try discriminate.
    intros ->. reflexivity.
  - destruct (opt_get (opt_get (Some node) "question") "types")
      as [[| b | n | s | xs | fs] |]; simpl; try discriminate;
      try reflexivity.
    intros _. destruct (arr_includes xs QuestionType.BGQ); reflexivity.
  - destruct (opt_get (opt_get (Some node) "question") "types")
      as [[| b | n | s | xs | fs] |]; simpl; try discriminate;
      intros _; try (split; discriminate).
    destruct (arr_includes xs QuestionType.BGQ); split;
      (reflexivity || discriminate).
  - intros q Hq. rewrite Hq. intros Hhint Hbgq. split.
    + revert Hhint Hbgq.
      destruct (opt_get (Some q) "types")
        as [[| b | n | s | xs | fs] |]; simpl; try discriminate.
      intros _ ->. reflexivity.
    + revert Hhint Hbgq. unfold Message_data_type.
      change (opt_get (opt_get (Some (JObj [("data", q)])) "data") "types")
        with (opt_get (Some q) "types").
      change (strict_eq_str (opt_get (Some (JObj [("data", q)])) "sender")
                MessageSender.CANDIDATE) with false.
      destruct (opt_get (Some q) "types")
        as [[| b | n | s | xs | fs] |]; simpl; try discriminate.
      intros ->. reflexivity.
Qed.

Lemma Answer_question_variant_witness :
  Answer_question_type
    (Some (JObj [("question", JObj [("types", JArr [JStr "HINT"])])]))
  = ret (TClass Question) /\
  Message_data_type
    (Some (JObj [("data", JObj [("types", JArr [JStr "HINT"])])]))
  = ret (TClass Hint).
Proof.
  apply (proj2 (proj2 (proj2
           (Answer_question_variant
              (JObj [("question", JObj [("types", JArr [JStr "HINT"])])]))))
           (JObj [("types", JArr [JStr "HINT"])]));
    reflexivity.
Defined.

(** C6, as stated, fails: with [types: 5] the optional chain reaches a
    number, [includes] is not callable on it, and each resolver throws. *)
Lemma resolvers_throw_on_number_types :
  Message_data_type (Some types_is_number)
  = throw (TypeError "object?.data?.types?.includes is not a function") /\
  Answer_question_type (Some question_types_is_number)
  = throw (TypeError "object?.question?.types?.includes is not a function") /\
  isHint (Some (JObj [("types", JNum (integer 5))]))
  = throw (TypeError "messageData?.types?.includes is not a function").
Proof. repeat split; reflexivity. Qed.

(** C6, amended: both resolvers are functions of the raw node that return
    exactly one variant, without throwing, whenever the [types] they read is
    absent, [null], an array or a string (and, for [Message.data], whenever
    the sender is CANDIDATE); absent [sender], [data], [question] or [types]
    count as "does not contain".  When [types] is present as a number, a
    boolean or an object, the call of [includes] throws a TypeError. *)
Theorem resolvers_total_on_includable (object : option json) :
  (isAnswer object = true \/
   absent_or_includable (opt_get (opt_get object "data") "types") = true ->
   exists t, Message_data_type object = ret t /\ is_variant t = true) /\
  (isAnswer object = false ->
   opt_get (opt_get object "data") "types" = None ->
   Message_data_type object = ret (TClass Question)) /\
  (isAnswer object = false ->
   absent_or_includable (opt_get (opt_get object "data") "types") = false ->
   Message_data_type object
   = throw (not_a_function "object?.data?.types?.includes")) /\
  (absent_or_includable (opt_get (opt_get object "question") "types") = true ->
   exists t, Answer_question_type object = ret t /\
             (t = TClass ButtonGroupQuestion \/ t = TClass Question)) /\
  (opt_get (opt_get object "question") "types" = None ->
   Answer_question_type object = ret (TClass Question)) /\
  (absent_or_includable (opt_get (opt_get object "question") "types") = false ->
   Answer_question_type object
   = throw (not_a_function "object?.question?.types?.includes")).
Proof.
  unfold Message_data_type, Answer_question_type, isAnswer.
  split; [| split; [| split; [| split; [| split]]]].
  - intros [Hs | Ht].
    + rewrite Hs. eexists. split; reflexivity.
    + destruct (strict_eq_str (opt_get object "sender")
                  MessageSender.CANDIDATE);
        [eexists; split; reflexivity |].
      destruct (opt_get (opt_get object "data") "types")
        as [[| b | n | s | xs | fs] |]; simpl in *; try discriminate;
        try (eexists; split; reflexivity).
      * destruct (str_includes s QuestionType.HINT); simpl;
          [eexists; split; reflexivity |].
        destruct (str_includes s QuestionType.BGQ);
          eexists; split; reflexivity.
      * destruct (arr_includes xs QuestionType.HINT); simpl;
          [eexists; split; reflexivity |].
        destruct (arr_includes xs QuestionType.BGQ);
          eexists; split; reflexivity.
  - intros -> ->. reflexivity.
  - intros ->.
    destruct (opt_get (opt_get object "data") "types")
      as [[| b | n | s | xs | fs] |]; simpl; try discriminate; reflexivity.
  - destruct (opt_get (opt_get object "question") "types")
      as [[| b | n | s | xs | fs] |]; simpl; try discriminate;
      intros _; try (eexists; split; [reflexivity | now right]).
    + destruct (str_includes s QuestionType.BGQ);
        eexists; (split; [reflexivity |]); [now left | now right].
    + destruct (arr_includes xs QuestionType.BGQ);
        eexists; (split; [reflexivity |]); [now left | now right].
  - intros ->. reflexivity.
  - destruct (opt_get (opt_get object "question") "types")
      as [[| b | n | s | xs | fs] |]; simpl; try discriminate; reflexivity.
Qed.

Lemma resolvers_total_on_includable_witness :
  (exists t, Message_data_type (Some sample_hint_message) = ret t /\
             is_variant t = true) /\
  Message_data_type (Some types_is_number)
  = throw (not_a_function "object?.data?.types?.includes").
Proof.
  split.
  - apply (proj1 (resolvers_total_on_includable (Some sample_hint_message))).
    right. reflexivity.
  - apply (proj1 (proj2 (proj2
             (resolvers_total_on_includable (Some types_is_number)))));
      reflexivity.
Defined.

(** ** The two stages over arbitrary library implementations *)

Section PipelineFacts.
Variable plainToInstance :
  class -> json -> ClassTransformOptions -> throws value.
Variable validate :
  value -> ValidatorOptions -> throws (value * list ValidationError).

Lemma parsePlainObject_fails (type : class) (plainObject : json)
  (options : ClassTransformOptions) (e : exn) (t : trace) :
  let transformOptions := spread_transform default_transform_options options in
  plainToInstance type plainObject transformOptions = inl e ->
  parsePlainObject plainToInstance type plainObject options t
  = (t ++ [Called_plainToInstance type plainObject transformOptions;
           Console_error (ParsingFailed (class_name type) (message e))],
     inl (Error (message e))).
Proof.
  intros transformOptions H.
  unfold parsePlainObject, io_try, io_bind, io_emit, io_lift, io_throw.
  fold default_transform_options. fold transformOptions.
  rewrite H. now rewrite <- app_assoc.
Qed.

Lemma parsePlainObject_succeeds (type : class) (plainObject : json)
  (options : ClassTransformOptions) (instance : value) (t : trace) :
  let transformOptions := spread_transform default_transform_options options in
  plainToInstance type plainObject transformOptions = inr instance ->
  parsePlainObject plainToInstance type plainObject options t
  = (t ++ [Called_plainToInstance type plainObject transformOptions],
     inr instance).
Proof.
  intros transformOptions H.
  unfold parsePlainObject, io_try, io_bind, io_emit, io_lift, io_throw.
  fold default_transform_options. fold transformOptions.
  now rewrite H.
Qed.

Lemma validateClassInstance_passes (instance instance' : value)
  (type : class) (options : ValidatorOptions) (title : option string)
  (t : trace) :
  let validatorOptions := spread_validator default_validator_options options in
  validate instance validatorOptions = inr (instance', []) ->
  validateClassInstance validate instance type options title t
  = (t ++ [Called_validate instance validatorOptions], inr instance').
Proof.
  intros validatorOptions H.
  unfold validateClassInstance, io_bind, io_emit, io_ret, io_lift.
  fold default_validator_options. fold validatorOptions.
  now rewrite H.
Qed.

Lemma validateClassInstance_throws (instance : value)
  (type : class) (options : ValidatorOptions) (title : option string)
  (e : exn) (t : trace) :
  let validatorOptions := spread_validator default_validator_options options in
  validate instance validatorOptions = inl e ->
  validateClassInstance validate instance type options title t
  = (t ++ [Called_validate instance validatorOptions], inl e).
Proof.
  intros validatorOptions H.
  unfold validateClassInstance, io_bind, io_emit, io_ret, io_lift.
  fold default_validator_options. fold validatorOptions.
  now rewrite H.
Qed.

Lemma validateClassInstance_fails (instance instance' : value)
  (type : class) (options : ValidatorOptions) (title : string)
  (errors : list ValidationError) (t : trace) :
  let validatorOptions := spread_validator default_validator_options options in
  validate instance validatorOptions = inr (instance', errors) ->
  errors <> [] ->
  validateClassInstance validate instance type options (Some title) t
  = (t ++ [Called_validate instance validatorOptions;
           Console_error (ValidatingFailed (class_name type) errors)],
     inl (Error (title ++ ": " ++ Array_toString (map property errors)))).
Proof.
  intros validatorOptions H Hne.
  unfold validateClassInstance, io_bind, io_emit, io_throw, io_lift.
  fold default_validator_options. fold validatorOptions.
  rewrite H. destruct errors as [| e r]; [contradiction |].
  simpl. now rewrite <- app_assoc.
Qed.
End PipelineFacts.

(** C4, as stated, fails: the resolver's TypeError on [types: 5] aborts the
    transform of an Assessment, and the error [parsePlainObject] throws
    carries the root message alone; the name of the target type does not
    occur in it. *)
Lemma parsePlainObject_message_lacks_type_name :
  snd (run (parsePlainObject (plainToInstance_lib Date_parse_none) Assessment
              (JObj [("chatLogs", JArr [types_is_number])])
              no_transform_options))
  = inl (Error "object?.data?.types?.includes is not a function") /\
  str_includes "object?.data?.types?.includes is not a function"
    (class_name Assessment) = false.
Proof. split; reflexivity. Qed.

(** C4, amended: whenever [plainToInstance] throws, [parsePlainObject]
    fails with a fresh [Error] whose message is exactly the message of the
    root failure; the name of the target type goes to the console line
    only. *)
Theorem parsePlainObject_rethrows_root_message
  (plainToInstance : class -> json -> ClassTransformOptions -> throws value)
  (type : class) (plainObject : json) (options : ClassTransformOptions)
  (e : exn) (t : trace) :
  plainToInstance type plainObject
    (spread_transform default_transform_options options) = inl e ->
  parsePlainObject plainToInstance type plainObject options t
  = (t ++ [Called_plainToInstance type plainObject
             (spread_transform default_transform_options options);
           Console_error (ParsingFailed (class_name type) (message e))],
     inl (Error (message e))).
Proof. intros H. now apply parsePlainObject_fails. Qed.

Lemma parsePlainObject_rethrows_root_message_witness :
  parsePlainObject (plainToInstance_lib Date_parse_none) Assessment
    (JObj [("chatLogs", JArr [types_is_number])]) no_transform_options []
  = ([Called_plainToInstance Assessment
        (JObj [("chatLogs", JArr [types_is_number])])
        default_transform_options;
      Console_error
        (ParsingFailed "Assessment"
           "object?.data?.types?.includes is not a function")],
     inl (Error "object?.data?.types?.includes is not a function")).
Proof.
  apply (parsePlainObject_rethrows_root_message
           (plainToInstance_lib Date_parse_none) Assessment
           (JObj [("chatLogs", JArr [types_is_number])])
           no_transform_options
           (TypeError "object?.data?.types?.includes is not a function") []).
  reflexivity.
Defined.

(** ** The schema's [@Type] functions *)

Lemma first_type_In (cs : list class) (k : string)
  (fn : option json -> throws target) :
  first_type cs k = Some fn ->
  exists c p, In c cs /\ In p (own_properties c) /\
              prop_name p = k /\ prop_type p = Some fn.
Proof.
  induction cs as [| c r IH]; simpl; [discriminate |].
  unfold own_type at 1.
  destruct (find (fun p => String.eqb (prop_name p) k) (own_properties c))
    as [p |] eqn:Hf.
  - destruct (prop_type p) as [fn' |] eqn:Hp.
    + intros H. injection H as <-.
      apply find_some in Hf. destruct Hf as [Hin Heq].
      apply String.eqb_eq in Heq. exists c, p. auto.
    + intros H. destruct (IH H) as (c' & p' & Hc & Hrest).
      exists c', p'. auto.
  - intros H. destruct (IH H) as (c' & p' & Hc & Hrest).
    exists c', p'. auto.
Qed.

Lemma own_type_function (c : class) (p : member)
  (fn : option json -> throws target) :
  In p (own_properties c) -> prop_type p = Some fn ->
  type_function c (prop_name p) fn.
Proof.
  destruct c; simpl; intros Hin Hp;
    repeat (destruct Hin as [<- | Hin];
            [simpl in Hp; try discriminate; injection Hp as <-;
             constructor |]);
    contradiction.
Qed.

Lemma find_type_metadata_cases (c : class) (k : string)
  (fn : option json -> throws target) :
  find_type_metadata c k = Some fn ->
  (exists t, fn = always t) \/
  (c = Message /\ k = "data" /\ fn = Message_data_type) \/
  (c = Answer /\ k = "question" /\ fn = Answer_question_type).
Proof.
  unfold find_type_metadata. intros H.
  apply first_type_In in H. destruct H as (c' & p & Hc & Hp & Hk & Ht).
  pose proof (own_type_function c' p fn Hp Ht) as Htf. rewrite Hk in Htf.
  inversion Htf; subst.
  - left. eauto.
  - right. left. repeat split; try reflexivity.
    destruct c; simpl in Hc; intuition congruence.
  - right. right. repeat split; try reflexivity.
    destruct c; simpl in Hc; intuition congruence.
Qed.

Lemma opt_includes_failure (callee : string) (a : option json)
  (t : string) (e : exn) :
  opt_includes callee a t = inl e -> e = not_a_function callee.
Proof.
  destruct a as [[| b | n | s | xs | fs] |]; simpl; intros H;
    try discriminate; now injection H as <-.
Qed.

Lemma Message_data_type_failure (o : option json) (e : exn) :
  Message_data_type o = inl e ->
  e = not_a_function "object?.data?.types?.includes".
Proof.
  unfold Message_data_type.
  destruct (strict_eq_str (opt_get o "sender") MessageSender.CANDIDATE);
    [discriminate |].
  intros H. apply bind_throw_inv in H.
  destruct H as [H | (h & _ & H)].
  - now apply opt_includes_failure in H.
  - destruct (truthy h); [discriminate |].
    apply bind_throw_inv in H. destruct H as [H | (b & _ & H)].
    + now apply opt_includes_failure in H.
    + destruct (truthy b); discriminate.
Qed.

Lemma Answer_question_type_failure (o : option json) (e : exn) :
  Answer_question_type o = inl e ->
  e = not_a_function "object?.question?.types?.includes".
Proof.
  unfold Answer_question_type. intros H.
  apply bind_throw_inv in H. destruct H as [H | (b & _ & H)].
  - now apply opt_includes_failure in H.
  - destruct (truthy b); discriminate.
Qed.

Lemma type_of_failure (oc : option class) (k : string) (obj : json)
  (e : exn) :
  type_of oc k obj = inl e -> resolver_failure e.
Proof.
  unfold type_of. destruct oc as [c |]; [| discriminate].
  destruct (find_type_metadata c k) as [fn |] eqn:Hf; [| discriminate].
  intros H. apply bind_throw_inv in H.
  destruct H as [H | (t & _ & H)]; [| discriminate].
  apply find_type_metadata_cases in Hf.
  destruct Hf as [[t ->] | [(_ & _ & ->) | (_ & _ & ->)]].
  - discriminate.
  - left. now apply Message_data_type_failure in H.
  - right. now apply Answer_question_type_failure in H.
Qed.

(** ** The loop over the keys of one object *)

Section SetKeys.
Variable options : ClassTransformOptions.
Variable oc : option class.
Variable object : json.
Variable sub : list (string * (option target -> throws value)).

Lemma set_keys_cons (k : string) (r : list string) :
  set_keys options oc object sub (k :: r)
  = if mem k ["__proto__"; "constructor"]
    then set_keys options oc object sub r
    else
      ty <- type_of oc k object ;;
      if is_method oc k then set_keys options oc object sub r
      else
        finalValue <- key_value sub k ty ;;
        rest <- set_keys options oc object sub r ;;
        if negb (is_undefined finalValue)
           || flag true (exposeUnsetFields options)
        then ret ((k, finalValue) :: rest)
        else ret rest.
Proof. reflexivity. Qed.

Lemma set_keys_failure (keys : list string) (e : exn) :
  set_keys options oc object sub keys = inl e ->
  exists k, In k keys /\
    (type_of oc k object = inl e \/
     exists ty, type_of oc k object = inr ty /\ key_value sub k ty = inl e).
Proof.
  induction keys as [| k r IH]; [discriminate |].
  rewrite set_keys_cons.
  destruct (mem k ["__proto__"; "constructor"]).
  { intros H. destruct (IH H) as (k' & Hin & Hk'). exists k'.
    split; [now right | assumption]. }
  intros H. apply bind_throw_inv in H.
  destruct H as [H | (ty & Hty & H)].
  { exists k. split; [now left | now left]. }
  destruct (is_method oc k).
  { destruct (IH H) as (k' & Hin & Hk'). exists k'.
    split; [now right | assumption]. }
  apply bind_throw_inv in H. destruct H as [H | (v & Hv & H)].
  { exists k. split; [now left |]. right. exists ty. auto. }
  apply bind_throw_inv in H. destruct H as [H | (rest & Hrest & H)].
  { destruct (IH H) as (k' & Hin & Hk'). exists k'.
    split; [now right | assumption]. }
  destruct (negb (is_undefined v) || flag true (exposeUnsetFields options));
    discriminate.
Qed.

Lemma set_keys_entries (keys : list string) (ps : list (string * value)) :
  set_keys options oc object sub keys = inr ps ->
  Forall (fun kx => In (fst kx) keys /\
                    mem (fst kx) ["__proto__"; "constructor"] = false /\
                    exists ty, key_value sub (fst kx) ty = inr (snd kx)) ps.
Proof.
  revert ps. induction keys as [| k r IH]; intros ps H.
  { injection H as <-. constructor. }
  rewrite set_keys_cons in H. cbn [In].
  assert (Hweak : forall qs,
             Forall (fun kx => In (fst kx) r /\
                       mem (fst kx) ["__proto__"; "constructor"] = false /\
                       exists ty, key_value sub (fst kx) ty = inr (snd kx)) qs ->
             Forall (fun kx => (k = fst kx \/ In (fst kx) r) /\
                       mem (fst kx) ["__proto__"; "constructor"] = false /\
                       exists ty, key_value sub (fst kx) ty = inr (snd kx)) qs).
  { intros qs Hq. eapply Forall_impl; [| exact Hq].
    intros kx (H1 & H2 & H3). auto. }
  destruct (mem k ["__proto__"; "constructor"]) eqn:Hskip.
  { auto. }
  apply bind_ret_inv in H. destruct H as (ty & Hty & H).
  destruct (is_method oc k).
  { auto. }
  apply bind_ret_inv in H. destruct H as (v & Hval & H).
  apply bind_ret_inv in H. destruct H as (rest & Hrest & H).
  destruct (negb (is_undefined v) || flag true (exposeUnsetFields options));
    injection H as <-; [| auto].
  constructor; [| auto].
  cbn [fst snd]. split; [now left | split; [assumption | eauto]].
Qed.

Hypothesis Hunset : exposeUnsetFields options = Some true.

Lemma set_keys_names (keys : list string) (ps : list (string * value)) :
  set_keys options oc object sub keys = inr ps ->
  map fst ps = filter (visited oc) keys.
Proof.
  revert ps. induction keys as [| k r IH]; intros ps.
  { intros H. now injection H as <-. }
  rewrite set_keys_cons. cbn [filter]. unfold visited at 1.
  destruct (mem k ["__proto__"; "constructor"]); cbn [negb andb].
  { apply IH. }
  intros H. apply bind_ret_inv in H. destruct H as (ty & Hty & H).
  destruct (is_method oc k); cbn [negb].
  { now apply IH. }
  apply bind_ret_inv in H. destruct H as (v & Hv & H).
  apply bind_ret_inv in H. destruct H as (rest & Hrest & H).
  rewrite Hunset in H. cbn [flag] in H. rewrite orb_true_r in H.
  injection H as <-. cbn [map fst]. f_equal. now apply IH.
Qed.

Lemma set_keys_lookup (keys : list string) (ps : list (string * value))
  (k : string) :
  set_keys options oc object sub keys = inr ps ->
  In k keys -> visited oc k = true ->
  exists ty v, type_of oc k object = inr ty /\ key_value sub k ty = inr v /\
               lookup k ps = Some v.
Proof.
  revert ps. induction keys as [| k' r IH]; intros ps H Hin Hv.
  { contradiction. }
  rewrite set_keys_cons in H.
  destruct (String.eqb_spec k k') as [<- | Hne].
  - unfold visited in Hv. apply andb_true_iff in Hv.
    destruct Hv as [Hv1 Hv2].
    apply negb_true_iff in Hv1. apply negb_true_iff in Hv2.
    rewrite Hv1 in H.
    apply bind_ret_inv in H. destruct H as (ty & Hty & H).
    rewrite Hv2 in H.
    apply bind_ret_inv in H. destruct H as (v & Hval & H).
    apply bind_ret_inv in H. destruct H as (rest & Hrest & H).
    rewrite Hunset in H. cbn [flag] in H. rewrite orb_true_r in H.
    injection H as <-. exists ty, v. repeat split; try assumption.
    cbn [lookup]. now rewrite String.eqb_refl.
  - destruct Hin as [-> | Hin]; [contradiction |].
    destruct (mem k' ["__proto__"; "constructor"]).
    { now apply IH. }
    apply bind_ret_inv in H. destruct H as (ty & Hty & H).
    destruct (is_method oc k').
    { now apply IH. }
    apply bind_ret_inv in H. destruct H as (v & Hval & H).
    apply bind_ret_inv in H. destruct H as (rest & Hrest & H).
    rewrite Hunset in H. cbn [flag] in H. rewrite orb_true_r in H.
    injection H as <-.
    destruct (IH rest Hrest Hin Hv) as (ty' & v' & H1 & H2 & H3).
    exists ty', v'. repeat split; try assumption.
    cbn [lookup]. apply String.eqb_neq in Hne. now rewrite Hne.
Qed.

Lemma set_keys_values (keys : list string) (ps : list (string * value)) :
  set_keys options oc object sub keys = inr ps ->
  Forall (fun kx => In (fst kx) keys /\
                    exists ty, key_value sub (fst kx) ty = inr (snd kx)) ps.
Proof.
  revert ps. induction keys as [| k r IH]; intros ps H.
  { injection H as <-. constructor. }
  rewrite set_keys_cons in H. cbn [In].
  assert (Hweak : forall qs,
             Forall (fun kx => In (fst kx) r /\
                       exists ty, key_value sub (fst kx) ty = inr (snd kx)) qs ->
             Forall (fun kx => (k = fst kx \/ In (fst kx) r) /\
                       exists ty, key_value sub (fst kx) ty = inr (snd kx)) qs).
  { intros qs Hq. eapply Forall_impl; [| exact Hq].
    intros kx [H1 H2]. auto. }
  destruct (mem k ["__proto__"; "constructor"]).
  { auto. }
  apply bind_ret_inv in H. destruct H as (ty & Hty & H).
  destruct (is_method oc k).
  { auto. }
  apply bind_ret_inv in H. destruct H as (v & Hval & H).
  apply bind_ret_inv in H. destruct H as (rest & Hrest & H).
  rewrite Hunset in H. cbn [flag] in H. rewrite orb_true_r in H.
  injection H as <-. constructor; [| auto].
  cbn [fst snd]. split; [now left | eauto].
Qed.
End SetKeys.

(** ** The transform *)

Lemma mapM_failure {A B : Type} (f : A -> throws B) (l : list A) (e : exn) :
  mapM f l = inl e -> exists x, In x l /\ f x = inl e.
Proof.
  induction l as [| x r IH]; simpl; [discriminate |].
  intros H. apply bind_throw_inv in H. destruct H as [H | (y & Hy & H)].
  - exists x. auto.
  - apply bind_throw_inv in H. destruct H as [H | (ys & Hys & H)].
    + destruct (IH H) as (x' & Hin & Hx'). exists x'. auto.
    + discriminate.
Qed.

Lemma mapM_success {A B : Type} (f : A -> throws B) (l : list A)
  (ys : list B) :
  mapM f l = inr ys -> Forall2 (fun x y => f x = inr y) l ys.
Proof.
  revert ys. induction l as [| x r IH]; simpl; intros ys H.
  - injection H as <-. constructor.
  - apply bind_ret_inv in H. destruct H as (y & Hy & H).
    apply bind_ret_inv in H. destruct H as (zs & Hzs & H).
    injection H as <-. constructor; auto.
Qed.

Lemma mapM_ext {A B : Type} (f g : A -> throws B) (l : list A) :
  Forall (fun x => f x = g x) l -> mapM f l = mapM g l.
Proof.
  induction 1 as [| x r Hx _ IH]; simpl; [reflexivity |].
  now rewrite Hx, IH.
Qed.

Lemma mapM_map {A B C : Type} (f : B -> throws C) (g : A -> B) (l : list A) :
  mapM f (map g l) = mapM (fun x => f (g x)) l.
Proof.
  induction l as [| x r IH]; simpl; [reflexivity |]. now rewrite IH.
Qed.

Lemma target_eq_TDate (tt : option target) :
  {tt = Some TDate} + {tt <> Some TDate}.
Proof. destruct tt as [[c |] |]; (now left) || (right; discriminate). Qed.

Lemma exposed_are_visited (c : class) :
  filter (visited (Some c)) (uniq (exposed_properties c))
  = uniq (exposed_properties c).
Proof. destruct c; reflexivity. Qed.

Section TransformFacts.
Variable Date_parse : string -> option Z.

Lemma transform_object (options : ClassTransformOptions)
  (tt : option target) (fs : list (string * json)) :
  tt <> Some TDate ->
  transform Date_parse options tt (JObj fs)
  = _ <- guess_target tt fs ;;
    ps <- set_keys options (target_class tt) (JObj fs) (pending Date_parse options fs)
            (getKeys options (target_class tt) fs) ;;
    ret (VObj (ctor_of (target_class tt)) ps).
Proof.
  intros H. destruct tt as [[c |] |]; try reflexivity. congruence.
Qed.

(** At a class the executor does not guess. *)
Lemma transform_typed_object (options : ClassTransformOptions)
  (c : class) (fs : list (string * json)) :
  transform Date_parse options (Some (TClass c)) (JObj fs)
  = ps <- set_keys options (Some c) (JObj fs) (pending Date_parse options fs)
            (getKeys options (Some c) fs) ;;
    ret (VObj (CClass c) ps).
Proof. reflexivity. Qed.

Lemma key_value_pending (options : ClassTransformOptions)
  (fs : list (string * json)) (k : string) (ty : option target) :
  key_value (pending Date_parse options fs) k ty
  = match lookup k fs with
    | Some x => transform Date_parse options ty x
    | None => ret VUndefined
    end.
Proof.
  unfold key_value, pending.
  rewrite (lookup_map (fun x t => transform Date_parse options t x)).
  destruct (lookup k fs); reflexivity.
Qed.

Lemma resolver_failure_message (e : exn) :
  resolver_failure e -> In (message e) transform_failure_messages.
Proof.
  intros [-> | ->]; cbn; auto.
Qed.

Lemma guess_target_failure (tt : option target) (fs : list (string * json))
  (e : exn) :
  guess_target tt fs = inl e ->
  tt = None /\
  (exists g, lookup "constructor" fs = Some g /\ json_truthy g = true) /\
  In (message e) transform_failure_messages.
Proof.
  unfold guess_target. destruct tt as [t |]; [discriminate |].
  destruct (lookup "constructor" fs) as [g |]; [| discriminate].
  destruct (json_truthy g) eqn:Hg; [| discriminate].
  intros H. injection H as <-. split; [reflexivity |].
  split; [now exists g |].
  unfold guessed_type_failure.
  destruct g as [| b | n | s | xs | gfs]; cbn; auto 8.
  destruct (lookup "prototype" gfs) as [[| b | n | s | xs | pfs] |];
    cbn; auto 8.
  destruct (lookup "constructor" pfs) as [[| b | n | s | xs | cfs] |];
    cbn; auto 8.
Qed.

Lemma new_Date_failure (v : json) (e : exn) :
  new_Date Date_parse v = inl e ->
  (exists fs, v = JObj fs /\ has_key "toString" fs = true) /\
  e = TypeError "Cannot convert object to primitive value".
Proof.
  destruct v as [| b | n | s | xs | fs]; cbn [new_Date]; try discriminate.
  destruct (has_key "toString" fs) eqn:Hk; [| discriminate].
  intros H. injection H as <-. split; [now exists fs | reflexivity].
Qed.

(** Whatever the transform throws carries one of seven messages. *)
Lemma transform_failure (options : ClassTransformOptions) (v : json) :
  forall tt e, transform Date_parse options tt v = inl e ->
               In (message e) transform_failure_messages.
Proof.
  assert (Hdate : forall x e, new_Date Date_parse x = inl e ->
                              In (message e) transform_failure_messages).
  { intros x e H. apply new_Date_failure in H. destruct H as [_ ->].
    cbn. auto. }
  induction v as [| b | n | s | xs IH | fs IH] using json_ind;
    intros tt e H.
  - discriminate.
  - destruct tt as [[c |] |]; discriminate.
  - destruct tt as [[c |] |]; discriminate.
  - destruct tt as [[c |] |]; discriminate.
  - cbn [transform] in H. apply bind_throw_inv in H.
    destruct H as [H | (ys & _ & H)]; [| discriminate].
    apply mapM_failure in H. destruct H as (x & Hin & Hx).
    rewrite Forall_forall in IH. eapply IH; eassumption.
  - destruct (target_eq_TDate tt) as [-> | Hnd].
    { cbn [transform] in H. now apply Hdate in H. }
    rewrite transform_object in H by assumption.
    apply bind_throw_inv in H.
    destruct H as [H | (u & _ & H)].
    { now apply guess_target_failure in H. }
    apply bind_throw_inv in H.
    destruct H as [H | (ps & _ & H)]; [| discriminate].
    apply set_keys_failure in H.
    destruct H as (k & _ & [H | (ty & _ & H)]).
    + apply resolver_failure_message. eapply type_of_failure; eassumption.
    + rewrite key_value_pending in H.
      destruct (lookup k fs) as [x |] eqn:Hl; [| discriminate].
      apply lookup_In in Hl. rewrite Forall_forall in IH.
      apply (IH (k, x) Hl ty e H).
Qed.

(** With the default options an object at a typed position becomes an
    instance of the resolved class that owns exactly the exposed
    properties of that class. *)
Lemma transform_instance (c : class) (fs : list (string * json))
  (v : value) :
  transform Date_parse default_transform_options (Some (TClass c)) (JObj fs)
  = inr v ->
  exists ps,
    v = VObj (CClass c) ps /\
    map fst ps = uniq (exposed_properties c) /\
    set_keys default_transform_options (Some c) (JObj fs)
      (pending Date_parse default_transform_options fs) (uniq (exposed_properties c))
    = inr ps.
Proof.
  intros H. rewrite transform_typed_object in H.
  apply bind_ret_inv in H. destruct H as (ps & Hps & H).
  injection H as <-. exists ps. cbn in Hps.
  repeat split; try assumption.
  apply set_keys_names in Hps; [| reflexivity].
  now rewrite exposed_are_visited in Hps.
Qed.

Lemma uniq_from_incl (seen ks : list string) (k : string) :
  In k (uniq_from seen ks) -> In k ks.
Proof.
  revert seen. induction ks as [| k' r IH]; simpl; intros seen H.
  - assumption.
  - destruct (mem k' seen).
    + right. eapply IH; eassumption.
    + destruct H as [-> | H]; [now left | right; eapply IH; eassumption].
Qed.

(** Instances produced by the transform own declared properties only. *)
Lemma transform_only_declared (v : json) :
  forall tt r,
    transform Date_parse default_transform_options tt v = inr r ->
    only_declared r = true.
Proof.
  induction v as [| b | n | s | xs IH | fs IH] using json_ind;
    intros tt r H.
  - injection H as <-. reflexivity.
  - destruct tt as [[c |] |]; injection H as <-; reflexivity.
  - destruct tt as [[c |] |]; injection H as <-; reflexivity.
  - destruct tt as [[c |] |]; injection H as <-; reflexivity.
  - cbn [transform] in H. apply bind_ret_inv in H.
    destruct H as (ys & Hys & H). injection H as <-.
    apply mapM_success in Hys. cbn [only_declared].
    apply forallb_forall. intros y Hy.
    induction Hys as [| x y' xs ys Hxy _ IHl]; [contradiction |].
    inversion IH as [| ? ? Hx Hxs]; subst.
    destruct Hy as [<- | Hy]; [eapply Hx; eassumption | now apply IHl].
  - destruct (target_eq_TDate tt) as [-> | Hnd].
    { cbn [transform new_Date] in H.
      destruct (has_key "toString" fs); [discriminate |].
      injection H as <-. reflexivity. }
    rewrite transform_object in H by assumption.
    apply bind_ret_inv in H. destruct H as (u & _ & H).
    apply bind_ret_inv in H. destruct H as (ps & Hps & H).
    injection H as <-. cbn [only_declared].
    apply set_keys_values in Hps; [| reflexivity].
    apply forallb_forall. intros [k x] Hkx.
    rewrite Forall_forall in Hps. destruct (Hps _ Hkx) as [Hk [ty Hx]].
    cbn [fst snd] in *. apply andb_true_iff. split.
    + destruct tt as [[c |] |]; cbn [target_class ctor_of]; try reflexivity.
      cbn in Hk. apply uniq_from_incl in Hk. now apply mem_In.
    + rewrite key_value_pending in Hx.
      destruct (lookup k fs) as [x0 |] eqn:Hl.
      * apply lookup_In in Hl. rewrite Forall_forall in IH.
        apply (IH (k, x0) Hl ty x Hx).
      * injection Hx as <-. reflexivity.
Qed.

(** No object the transform builds owns a property named [constructor]. *)
Lemma transform_constructor_not_hidden (options : ClassTransformOptions)
  (v : json) :
  forall tt r,
    transform Date_parse options tt v = inr r ->
    constructor_not_hidden r = true.
Proof.
  assert (Hdate : forall x r, new_Date Date_parse x = inr r ->
                              constructor_not_hidden r = true).
  { intros x r H. destruct x as [| b | n | s | xs | fs]; cbn [new_Date] in H;
      try (injection H as <-; reflexivity).
    destruct (has_key "toString" fs); [discriminate |].
    injection H as <-. reflexivity. }
  induction v as [| b | n | s | xs IH | fs IH] using json_ind;
    intros tt r H.
  - injection H as <-. reflexivity.
  - destruct tt as [[c |] |]; injection H as <-; reflexivity.
  - destruct tt as [[c |] |]; injection H as <-; reflexivity.
  - destruct tt as [[c |] |]; injection H as <-; reflexivity.
  - cbn [transform] in H. apply bind_ret_inv in H.
    destruct H as (ys & Hys & H). injection H as <-.
    apply mapM_success in Hys. cbn [constructor_not_hidden].
    apply forallb_forall. intros y Hy.
    induction Hys as [| x y' xs ys Hxy _ IHl]; [contradiction |].
    inversion IH as [| ? ? Hx Hxs]; subst.
    destruct Hy as [<- | Hy]; [eapply Hx; eassumption | now apply IHl].
  - destruct (target_eq_TDate tt) as [-> | Hnd].
    { cbn [transform] in H. now apply Hdate in H. }
    rewrite transform_object in H by assumption.
    apply bind_ret_inv in H. destruct H as (u & _ & H).
    apply bind_ret_inv in H. destruct H as (ps & Hps & H).
    injection H as <-. cbn [constructor_not_hidden].
    apply set_keys_entries in Hps. rewrite Forall_forall in Hps.
    apply andb_true_iff. split.
    + apply negb_true_iff. unfold has_key.
      destruct (lookup "constructor" ps) as [x |] eqn:Hm; [| reflexivity].
      apply lookup_In in Hm.
      destruct (Hps _ Hm) as (_ & Hskip & _). discriminate.
    + apply forallb_forall. intros [k x] Hkx.
      destruct (Hps _ Hkx) as (_ & _ & [ty Hx]). cbn [fst snd] in *.
      rewrite key_value_pending in Hx.
      destruct (lookup k fs) as [x0 |] eqn:Hl.
      * apply lookup_In in Hl. rewrite Forall_forall in IH.
        apply (IH (k, x0) Hl ty x Hx).
      * injection Hx as <-. reflexivity.
Qed.
End TransformFacts.

(** ** Pruning undeclared keys does not change the transform *)

Lemma lookup_filter_map {A : Type} (G : string -> A -> A) (E : list string)
  (k : string) (fs : list (string * A)) :
  lookup k (filter (fun kv => mem (fst kv) E)
              (map (fun kv => (fst kv, G (fst kv) (snd kv))) fs))
  = if mem k E then option_map (G k) (lookup k fs) else None.
Proof.
  induction fs as [| [k' v] r IH]; cbn [map filter fst snd lookup].
  - now destruct (mem k E).
  - destruct (mem k' E) eqn:Hk'; cbn [lookup].
    + destruct (String.eqb_spec k k') as [-> | Hne].
      * now rewrite Hk'.
      * exact IH.
    + destruct (String.eqb_spec k k') as [-> | Hne].
      * rewrite IH, Hk'. reflexivity.
      * exact IH.
Qed.

Lemma prune_untyped (v : json) : prune None v = v.
Proof.
  induction v as [| b | n | s | xs IH | fs IH] using json_ind;
    try reflexivity.
  cbn [prune]. f_equal. induction IH as [| x r Hx _ IHr]; [reflexivity |].
  cbn [map]. now rewrite Hx, IHr.
Qed.

Lemma prune_date (v : json) : prune (Some TDate) v = v.
Proof.
  induction v as [| b | n | s | xs IH | fs IH] using json_ind;
    try reflexivity.
  cbn [prune]. f_equal. induction IH as [| x r Hx _ IHr]; [reflexivity |].
  cbn [map]. now rewrite Hx, IHr.
Qed.

Lemma prune_object (c : class) (fs : list (string * json)) :
  prune (Some (TClass c)) (JObj fs)
  = JObj (filter (fun kv => mem (fst kv) (exposed_properties c))
            (map (fun kv =>
                    (fst kv, pruned_value c (JObj fs) (fst kv) (snd kv)))
               fs)).
Proof. reflexivity. Qed.

Lemma lookup_prune (c : class) (fs fs' : list (string * json)) (k : string) :
  prune (Some (TClass c)) (JObj fs) = JObj fs' ->
  lookup k fs'
  = if mem k (exposed_properties c)
    then option_map (pruned_value c (JObj fs) k) (lookup k fs)
    else None.
Proof.
  rewrite prune_object. intros H. injection H as <-.
  apply (lookup_filter_map (pruned_value c (JObj fs))).
Qed.

(** Pruning at a question class keeps the [types] the resolvers read. *)
Lemma prune_keeps_types (c : class) (x : json) :
  mem "types" (exposed_properties c) = true ->
  find_type_metadata c "types" = None ->
  opt_get (Some (prune (Some (TClass c)) x)) "types"
  = opt_get (Some x) "types".
Proof.
  intros Hm Ht. destruct x as [| b | n | s | xs | fs]; try reflexivity.
  rewrite prune_object. cbn [opt_get].
  rewrite (lookup_filter_map (pruned_value c (JObj fs))), Hm.
  unfold pruned_value, type_of. rewrite Ht. cbn [ret].
  destruct (lookup "types" fs) as [y |]; [| reflexivity].
  cbn. now rewrite prune_untyped.
Qed.

Lemma hint_or_question_class (types : option json) (t : target) :
  hint_or_question types = inr t ->
  t = TClass Hint \/ t = TClass ButtonGroupQuestion \/ t = TClass Question.
Proof.
  unfold hint_or_question. intros H.
  apply bind_ret_inv in H. destruct H as (h & _ & H).
  destruct (truthy h); [injection H as <-; auto |].
  apply bind_ret_inv in H. destruct H as (b & _ & H).
  destruct (truthy b); injection H as <-; auto.
Qed.

Lemma group_or_question_class (types : option json) (t : target) :
  group_or_question types = inr t ->
  t = TClass ButtonGroupQuestion \/ t = TClass Question.
Proof.
  unfold group_or_question. intros H.
  apply bind_ret_inv in H. destruct H as (b & _ & H).
  destruct (truthy b); injection H as <-; auto.
Qed.

(** Pruning a payload at the class its resolver chose keeps its [types]. *)
Lemma pruned_payload_types (r : throws target) (x : json) :
  (forall t, r = inr t ->
     t = TClass Hint \/ t = TClass ButtonGroupQuestion \/ t = TClass Question) ->
  opt_get
    (Some match t <- r ;; ret (Some t) with
          | inl _ => x
          | inr ty => prune ty x
          end) "types"
  = opt_get (Some x) "types".
Proof.
  intros H. destruct r as [e | t]; [reflexivity |].
  cbn [bind ret].
  destruct (H t eq_refl) as [-> | [-> | ->]];
    now apply prune_keeps_types.
Qed.

Lemma Message_data_type_prune (fs : list (string * json)) :
  Message_data_type (Some (prune (Some (TClass Message)) (JObj fs)))
  = Message_data_type (Some (JObj fs)).
Proof.
  destruct (prune (Some (TClass Message)) (JObj fs)) as [| | | | | fs'] eqn:Hp;
    try discriminate.
  pose proof (lookup_prune Message fs fs' "sender" Hp) as Hs.
  pose proof (lookup_prune Message fs fs' "data" Hp) as Hd.
  change (mem "sender" (exposed_properties Message)) with true in Hs.
  change (mem "data" (exposed_properties Message)) with true in Hd.
  cbv iota in Hs, Hd.
  assert (Hs' : lookup "sender" fs' = lookup "sender" fs).
  { rewrite Hs. destruct (lookup "sender" fs) as [y |]; [| reflexivity].
    cbn. now rewrite prune_untyped. }
  clear Hs.
  change (Message_data_type (Some (JObj fs')))
    with (if strict_eq_str (lookup "sender" fs') MessageSender.CANDIDATE
          then ret (TClass Answer)
          else hint_or_question (opt_get (lookup "data" fs') "types")).
  change (Message_data_type (Some (JObj fs)))
    with (if strict_eq_str (lookup "sender" fs) MessageSender.CANDIDATE
          then ret (TClass Answer)
          else hint_or_question (opt_get (lookup "data" fs) "types")).
  rewrite Hs', Hd.
  destruct (strict_eq_str (lookup "sender" fs) MessageSender.CANDIDATE) eqn:Hc;
    [reflexivity |].
  destruct (lookup "data" fs) as [x |] eqn:Hx; [| reflexivity].
  cbn [option_map]. unfold pruned_value.
  change (type_of (Some Message) "data" (JObj fs))
    with (t <- Message_data_type (Some (JObj fs)) ;; ret (Some t)).
  change (Message_data_type (Some (JObj fs)))
    with (if strict_eq_str (lookup "sender" fs) MessageSender.CANDIDATE
          then ret (TClass Answer)
          else hint_or_question (opt_get (lookup "data" fs) "types")).
  rewrite Hc, Hx.
  rewrite pruned_payload_types; [reflexivity |].
  intros t Ht. eapply hint_or_question_class. exact Ht.
Qed.

Lemma Answer_question_type_prune (fs : list (string * json)) :
  Answer_question_type (Some (prune (Some (TClass Answer)) (JObj fs)))
  = Answer_question_type (Some (JObj fs)).
Proof.
  destruct (prune (Some (TClass Answer)) (JObj fs)) as [| | | | | fs'] eqn:Hp;
    try discriminate.
  pose proof (lookup_prune Answer fs fs' "question" Hp) as Hq.
  change (mem "question" (exposed_properties Answer)) with true in Hq.
  cbv iota in Hq.
  change (Answer_question_type (Some (JObj fs')))
    with (group_or_question (opt_get (lookup "question" fs') "types")).
  change (Answer_question_type (Some (JObj fs)))
    with (group_or_question (opt_get (lookup "question" fs) "types")).
  rewrite Hq.
  destruct (lookup "question" fs) as [x |] eqn:Hx; [| reflexivity].
  cbn [option_map]. unfold pruned_value.
  change (type_of (Some Answer) "question" (JObj fs))
    with (t <- Answer_question_type (Some (JObj fs)) ;; ret (Some t)).
  change (Answer_question_type (Some (JObj fs)))
    with (group_or_question (opt_get (lookup "question" fs) "types")).
  rewrite Hx.
  rewrite pruned_payload_types; [reflexivity |].
  intros t Ht. right. eapply group_or_question_class. exact Ht.
Qed.

Lemma type_of_prune (c : class) (k : string) (fs : list (string * json)) :
  type_of (Some c) k (prune (Some (TClass c)) (JObj fs))
  = type_of (Some c) k (JObj fs).
Proof.
  unfold type_of. destruct (find_type_metadata c k) as [fn |] eqn:Hf;
    [| reflexivity].
  apply find_type_metadata_cases in Hf.
  destruct Hf as [[t ->] | [(-> & _ & ->) | (-> & _ & ->)]].
  - reflexivity.
  - now rewrite Message_data_type_prune.
  - now rewrite Answer_question_type_prune.
Qed.

Lemma set_keys_ext (options : ClassTransformOptions) (oc : option class)
  (obj obj' : json) (sub sub' : list (string * (option target -> throws value)))
  (keys : list string) :
  (forall k, In k keys ->
     type_of oc k obj' = type_of oc k obj /\
     forall ty, type_of oc k obj = inr ty ->
                key_value sub' k ty = key_value sub k ty) ->
  set_keys options oc obj' sub' keys = set_keys options oc obj sub keys.
Proof.
  induction keys as [| k r IH]; intros H; [reflexivity |].
  rewrite !set_keys_cons.
  assert (Hr : set_keys options oc obj' sub' r = set_keys options oc obj sub r).
  { apply IH. intros k' Hk'. apply H. now right. }
  destruct (H k (or_introl eq_refl)) as [Hty Hval].
  rewrite Hr, Hty.
  destruct (mem k ["__proto__"; "constructor"]); [reflexivity |].
  destruct (type_of oc k obj) as [e | ty]; [reflexivity |].
  cbn [bind]. now rewrite (Hval ty eq_refl).
Qed.

Section PruneFacts.
Variable Date_parse : string -> option Z.

Lemma transform_prune (v : json) :
  forall tt,
    transform Date_parse default_transform_options tt (prune tt v)
    = transform Date_parse default_transform_options tt v.
Proof.
  induction v as [| b | n | s | xs IH | fs IH] using json_ind;
    intros tt; try reflexivity.
  - cbn [prune transform]. rewrite mapM_map.
    rewrite (mapM_ext _ (transform Date_parse default_transform_options tt));
      [reflexivity |].
    eapply Forall_impl; [| exact IH]. intros x Hx. apply Hx.
  - destruct tt as [[c |] |]; try reflexivity.
    destruct (prune (Some (TClass c)) (JObj fs)) as [| | | | | fs'] eqn:Hp;
      try discriminate.
    rewrite !transform_object by discriminate.
    cbn [target_class getKeys flag excludeExtraneousValues
           default_transform_options].
    rewrite (set_keys_ext default_transform_options (Some c) (JObj fs)
               (JObj fs')
               (pending Date_parse default_transform_options fs)
               (pending Date_parse default_transform_options fs'));
      [reflexivity |].
    intros k Hk. rewrite <- Hp.
    split; [apply type_of_prune |].
    intros ty Hty. rewrite !key_value_pending.
    rewrite (lookup_prune c fs fs' k Hp).
    apply uniq_from_incl in Hk. apply mem_In in Hk. rewrite Hk.
    destruct (lookup k fs) as [x |] eqn:Hl; [| reflexivity].
    cbn [option_map]. unfold pruned_value. rewrite Hty.
    apply lookup_In in Hl. rewrite Forall_forall in IH.
    apply (IH (k, x) Hl ty).
Qed.
End PruneFacts.

(** ** The validator *)

Lemma class_has_metadata (c : class) : getTargetValidationMetadatas c <> [].
Proof. destruct c; discriminate. Qed.

Lemma stripEmptyErrors_one_eq (p : option string) (cs : list string)
  (ch : list ValidationError) :
  stripEmptyErrors_one (VError p cs ch)
  = match cs, stripEmptyErrors ch with
    | [], [] => None
    | _, _ => Some (VError p cs (stripEmptyErrors ch))
    end.
Proof.
  cbn [stripEmptyErrors_one].
  assert (H : forall l,
            (fix strip (l : list ValidationError) : list ValidationError :=
               match l with
               | [] => []
               | x :: r =>
                   match stripEmptyErrors_one x with
                   | Some x' => x' :: strip r
                   | None => strip r
                   end
               end) l = stripEmptyErrors l).
  { induction l as [| x r IH]; [reflexivity |].
    cbn [stripEmptyErrors]. now rewrite IH. }
  now rewrite H.
Qed.

Lemma stripEmptyErrors_one_property (e e' : ValidationError) :
  stripEmptyErrors_one e = Some e' -> property e' = property e.
Proof.
  destruct e as [p cs ch]. rewrite stripEmptyErrors_one_eq.
  destruct cs; destruct (stripEmptyErrors ch); intros H;
    try discriminate; now injection H as <-.
Qed.

Lemma kept_survives (e : ValidationError) :
  kept e -> exists e', stripEmptyErrors_one e = Some e' /\
                       property e' = property e.
Proof.
  destruct e as [p cs ch]. unfold kept. cbn [constraints children].
  intros H. rewrite stripEmptyErrors_one_eq.
  destruct cs as [| c cs'].
  - destruct (stripEmptyErrors ch) as [| x r].
    + destruct H as [H | H]; contradiction.
    + eexists. split; reflexivity.
  - eexists. split; reflexivity.
Qed.

Lemma stripEmptyErrors_origin (l : list ValidationError)
  (e' : ValidationError) :
  In e' (stripEmptyErrors l) ->
  exists e, In e l /\ property e' = property e.
Proof.
  induction l as [| x r IH]; cbn [stripEmptyErrors]; [contradiction |].
  destruct (stripEmptyErrors_one x) as [x' |] eqn:Hx.
  - intros [<- | Hin].
    + exists x. split; [now left |].
      now apply stripEmptyErrors_one_property.
    + destruct (IH Hin) as (e & He & Hp). exists e. split; [now right | exact Hp].
  - intros Hin. destruct (IH Hin) as (e & He & Hp).
    exists e. split; [now right | exact Hp].
Qed.

Lemma stripEmptyErrors_keeps (l : list ValidationError)
  (e : ValidationError) :
  In e l -> kept e ->
  exists e', In e' (stripEmptyErrors l) /\ property e' = property e.
Proof.
  induction l as [| x r IH]; [contradiction |].
  intros [-> | Hin] Hk; cbn [stripEmptyErrors].
  - destruct (kept_survives e Hk) as (e' & He' & Hp).
    rewrite He'. exists e'. split; [now left | exact Hp].
  - destruct (IH Hin Hk) as (e' & He' & Hp).
    destruct (stripEmptyErrors_one x); exists e';
      (split; [| exact Hp]); [now right | assumption].
Qed.

Lemma stripEmptyErrors_nonempty (l : list ValidationError)
  (e : ValidationError) :
  In e l -> kept e -> stripEmptyErrors l <> [].
Proof.
  intros Hin Hk Hnil.
  destruct (stripEmptyErrors_keeps l e Hin Hk) as (e' & He' & _).
  rewrite Hnil in He'. contradiction.
Qed.

Lemma performValidations_property (ms : list ValidationMetadata)
  (p : string) (v : value) (n : list string * list ValidationError) :
  property (performValidations ms p v n) = Some p.
Proof.
  unfold performValidations.
  destruct (negb (conditionalValidations (of_type CONDITIONAL_VALIDATION ms) v));
    reflexivity.
Qed.

Lemma execute_instance (options : ValidatorOptions) (c : ctor)
  (fs : list (string * value)) :
  execute_errors options (VObj c fs)
  = execute_object options c fs (nested_outcomes options fs).
Proof. reflexivity. Qed.

Lemma nestedValidations_instance (options : ValidatorOptions) (c : ctor)
  (fs : list (string * value)) :
  nestedValidations options (VObj c fs)
  = ([], execute_object options c fs (nested_outcomes options fs)).
Proof. reflexivity. Qed.

Lemma has_key_lookup {A : Type} (k : string) (fs : list (string * A)) :
  has_key k fs = false <-> lookup k fs = None.
Proof.
  unfold has_key. destruct (lookup k fs); split; congruence.
Qed.

(** An object that owns no [constructor] answers its class. *)
Lemma instance_metadatas_class (c : ctor) (fs : list (string * value)) :
  lookup "constructor" fs = None ->
  instance_metadatas c fs = ctor_metadatas c.
Proof. unfold instance_metadatas. now intros ->. Qed.

Lemma execute_object_metadatas (options : ValidatorOptions) (c : ctor)
  (fs : list (string * value))
  (sub : list (string * (list string * list ValidationError))) :
  instance_metadatas c fs <> [] ->
  execute_object options c fs sub
  = whitelist_errors options (instance_metadatas c fs) fs ++
    map (fun p =>
           performValidations
             (grouped (instance_metadatas c fs) p) p
             (match lookup p fs with Some v => v | None => VUndefined end)
             (match lookup p sub with Some n => n | None => ([], []) end))
        (grouped_names (instance_metadatas c fs)).
Proof.
  unfold execute_object. intros H.
  destruct (instance_metadatas c fs); [contradiction | reflexivity].
Qed.

Lemma execute_object_class (options : ValidatorOptions) (c : class)
  (fs : list (string * value))
  (sub : list (string * (list string * list ValidationError))) :
  lookup "constructor" fs = None ->
  execute_object options (CClass c) fs sub
  = whitelist_errors options (getTargetValidationMetadatas c) fs ++
    map (fun p =>
           performValidations
             (grouped (getTargetValidationMetadatas c) p) p
             (match lookup p fs with Some v => v | None => VUndefined end)
             (match lookup p sub with Some n => n | None => ([], []) end))
        (grouped_names (getTargetValidationMetadatas c)).
Proof.
  intros Hc. rewrite execute_object_metadatas;
    rewrite (instance_metadatas_class _ _ Hc); cbn [ctor_metadatas].
  - reflexivity.
  - apply class_has_metadata.
Qed.

(** Every top-level error names an own property of the instance or a
    property declared by the metadata of its constructor. *)
Lemma execute_top_level (options : ValidatorOptions) (instance : value)
  (e : ValidationError) :
  In e (execute_errors options instance) ->
  top_level_name instance (property e).
Proof.
  destruct instance as [| | b | n | s | t | xs | c fs];
    try (intros [<- | []]; exact I).
  rewrite execute_instance.
  destruct (instance_metadatas c fs) as [| m ms] eqn:Hms.
  { unfold execute_object. rewrite Hms. intros [<- | []]. exact I. }
  rewrite execute_object_metadatas by (rewrite Hms; discriminate).
  intros H. apply in_app_or in H. destruct H as [H | H].
  - unfold whitelist_errors in H.
    destruct (flag false (whitelist options)
              && flag false (forbidNonWhitelisted options));
      [| contradiction].
    apply in_map_iff in H. destruct H as (k & <- & Hk).
    unfold notAllowedProperties in Hk. apply filter_In in Hk.
    left. apply Hk.
  - apply in_map_iff in H. destruct H as (p & <- & Hp).
    rewrite performValidations_property. right. exact Hp.
Qed.

Lemma validate_model_default_instance (instance : value) :
  fst (validate_model instance default_validator_options) = instance.
Proof. destruct instance; reflexivity. Qed.

Lemma validate_model_pair (instance : value) :
  validate_model instance default_validator_options
  = (instance,
     stripEmptyErrors (execute_errors default_validator_options instance)).
Proof. destruct instance; reflexivity. Qed.

(** *** When [validate] returns *)

Lemma first_thrown_none (l : list (option exn)) :
  Forall (fun o => o = None) l -> first_thrown l = None.
Proof.
  induction 1 as [| o r Ho _ IH]; [reflexivity |].
  cbn [first_thrown fold_right]. now rewrite Ho.
Qed.

Lemma constructor_not_hidden_object (c : ctor) (fs : list (string * value)) :
  constructor_not_hidden (VObj c fs) = true ->
  lookup "constructor" fs = None /\
  forall k v, lookup k fs = Some v -> constructor_not_hidden v = true.
Proof.
  cbn [constructor_not_hidden]. intros H. apply andb_true_iff in H.
  destruct H as [H1 H2]. split.
  - apply has_key_lookup. now apply negb_true_iff.
  - intros k v Hl. apply lookup_In in Hl.
    rewrite forallb_forall in H2. apply (H2 (k, v) Hl).
Qed.

(** Nothing is thrown on a graph whose objects all answer their class. *)
Lemma nested_throws_none (v : value) :
  constructor_not_hidden v = true -> nested_throws v = None.
Proof.
  induction v as [| | b | n | s | d | xs IH | c fs IH] using value_ind;
    intros H; try reflexivity.
  - cbn [nested_throws]. apply first_thrown_none.
    cbn [constructor_not_hidden] in H. rewrite forallb_forall in H.
    apply Forall_map. rewrite Forall_forall in *. intros x Hx.
    apply IH; [exact Hx | now apply H].
  - destruct (constructor_not_hidden_object c fs H) as [Hc Hsub].
    cbn [nested_throws]. unfold execute_object_throws. rewrite Hc.
    apply first_thrown_none. apply Forall_map. apply Forall_forall.
    intros p _.
    destruct (conditionalValidations _ _); [| reflexivity].
    destruct (of_type NESTED_VALIDATION _); [reflexivity |].
    rewrite (lookup_map nested_throws).
    destruct (lookup p fs) as [x |] eqn:Hl; [| reflexivity].
    cbn [option_map]. rewrite Forall_forall in IH.
    apply (IH (p, x)); [now apply lookup_In in Hl |].
    now apply (Hsub p).
Qed.

Lemma validate_lib_returns (c : ctor) (fs : list (string * value))
  (options : ValidatorOptions) :
  constructor_not_hidden (VObj c fs) = true ->
  validate_lib (VObj c fs) options
  = inr (validate_model (VObj c fs) options).
Proof.
  intros H. unfold validate_lib, execute.
  now rewrite (nested_throws_none _ H).
Qed.

(** What [validate] returns, when it returns. *)
Lemma validate_lib_outcome (instance : value) (options : ValidatorOptions)
  (r : value * list ValidationError) :
  validate_lib instance options = inr r ->
  r = validate_model instance options.
Proof.
  unfold validate_lib, validate_model. intros H.
  apply bind_ret_inv in H. destruct H as (errors & He & H).
  injection H as <-. f_equal. f_equal.
  unfold execute in He.
  destruct instance as [| | b | n | s | t | xs | c fs];
    try discriminate; try (now injection He as <-).
  destruct (nested_throws (VObj c fs)); [discriminate |].
  now injection He as <-.
Qed.

(** [`${props}`] joins the property names with commas. *)
Lemma Array_toString_concat (errors : list ValidationError) :
  Array_toString (map property errors)
  = String.concat "," (map property_text errors).
Proof.
  induction errors as [| e r IH]; [reflexivity |].
  cbn [map Array_toString String.concat].
  destruct r as [| e' r']; [reflexivity |].
  cbn [map] in IH |- *. unfold property_text at 1. now rewrite IH.
Qed.

(** ** Reporting of validation failures *)

(** C2, as stated, fails: on a graph with an unknown [sender] and an empty
    answer [text], both below [chatLogs], the validator finds the two
    violations as nested children, but the error thrown lists the single
    top-level name [chatLogs]; neither nested path is in its message. *)
Lemma nested_violations_are_not_listed :
  validate_lib two_violations default_validator_options
  = inr (two_violations,
         [ VError (Some "chatLogs") []
             [ VError (Some "0") []
                 [ VError (Some "sender") ["isEnum"] [];
                   VError (Some "data") []
                     [ VError (Some "text") ["isNotEmpty"] [] ] ] ] ]) /\
  snd (run (Assessment_validate validate_lib two_violations))
  = inl (Error "The following field values do not meet constraints in Assessment: chatLogs") /\
  str_includes
    "The following field values do not meet constraints in Assessment: chatLogs"
    "sender" = false /\
  str_includes
    "The following field values do not meet constraints in Assessment: chatLogs"
    "text" = false.
Proof. repeat split; reflexivity. Qed.

(** C2, amended: when validation of a typed graph fails, the single error
    thrown carries, after the title and ": ", the [property] of every
    top-level validation error joined with commas, in the validator's
    order; each entry is a property name of the validated instance itself
    (one of its own properties or one the metadata of its constructor
    declare), never a path: violations inside nested objects are reported
    through the top-level property that holds them. *)
Theorem validation_failure_lists_top_level_properties
  (instance instance' : value) (type : class) (title : string)
  (errors : list ValidationError) :
  validate_lib instance default_validator_options = inr (instance', errors) ->
  errors <> [] ->
  run (validateClassInstance validate_lib instance type
         no_validator_options (Some title))
  = ([Called_validate instance default_validator_options;
      Console_error (ValidatingFailed (class_name type) errors)],
     inl (Error (title ++ ": " ++
                 String.concat "," (map property_text errors)))) /\
  Forall (top_level_name instance) (map property errors).
Proof.
  intros He Hne. split.
  - unfold run. rewrite <- Array_toString_concat.
    apply (validateClassInstance_fails validate_lib instance instance'
             type no_validator_options title errors []); [| exact Hne].
    exact He.
  - apply validate_lib_outcome in He. rewrite validate_model_pair in He.
    injection He as _ ->.
    apply Forall_forall. intros p Hp.
    apply in_map_iff in Hp. destruct Hp as (e' & <- & He').
    apply stripEmptyErrors_origin in He'. destruct He' as (e & He & ->).
    eapply execute_top_level. exact He.
Qed.

Lemma validation_failure_lists_top_level_properties_witness :
  run (validateClassInstance validate_lib three_violations Assessment
         no_validator_options (Some "T"))
  = ([Called_validate three_violations default_validator_options;
      Console_error
        (ValidatingFailed "Assessment"
           [ VError (Some "zeta") ["whitelistValidation"] [];
             VError (Some "alpha") ["whitelistValidation"] [];
             VError (Some "chatLogs") ["isArray"; "nestedValidation"] [] ])],
     inl (Error "T: zeta,alpha,chatLogs")) /\
  Forall (top_level_name three_violations)
    [Some "zeta"; Some "alpha"; Some "chatLogs"].
Proof.
  apply (validation_failure_lists_top_level_properties three_violations
           three_violations Assessment "T"
           [ VError (Some "zeta") ["whitelistValidation"] [];
             VError (Some "alpha") ["whitelistValidation"] [];
             VError (Some "chatLogs") ["isArray"; "nestedValidation"] [] ]).
  - reflexivity.
  - discriminate.
Defined.




(** ** The orchestration *)

Section OrchestrationFacts.
Variable plainToInstance :
  class -> json -> ClassTransformOptions -> throws value.
Variable validate :
  value -> ValidatorOptions -> throws (value * list ValidationError).

Lemma fromObject_transform_fails (obj : json) (e : exn) (t : trace) :
  plainToInstance Assessment obj default_transform_options = inl e ->
  Assessment_fromObject plainToInstance validate obj t
  = (t ++ [Called_plainToInstance Assessment obj default_transform_options;
           Console_error (ParsingFailed "Assessment" (message e))],
     inl (Error (message e))).
Proof.
  intros H. unfold Assessment_fromObject, io_bind.
  now rewrite (parsePlainObject_fails plainToInstance Assessment obj
                 no_transform_options e t H).
Qed.

Lemma fromObject_transform_succeeds (obj : json) (entity : value)
  (t : trace) :
  plainToInstance Assessment obj default_transform_options = inr entity ->
  Assessment_fromObject plainToInstance validate obj t
  = call_validate validate entity
      (t ++ [Called_plainToInstance Assessment obj
               default_transform_options]).
Proof.
  intros H. unfold Assessment_fromObject, io_bind at 1.
  rewrite (parsePlainObject_succeeds plainToInstance Assessment obj
             no_transform_options entity t H).
  unfold io_bind, io_ret.
  destruct (call_validate validate entity _) as [t' [e | a]]; reflexivity.
Qed.

Lemma validateClassInstance_outcome (instance : value) (type : class)
  (options : ValidatorOptions) (title : option string) (t : trace) :
  snd (validateClassInstance validate instance type options title t)
  = snd (validateClassInstance validate instance type options title []).
Proof.
  unfold validateClassInstance, io_bind, io_emit, io_throw, io_ret, io_lift.
  destruct (validate instance _) as [e | [instance' errors]];
    [reflexivity |].
  destruct (Nat.ltb 0 (List.length errors)); reflexivity.
Qed.

Lemma call_validate_outcome (entity : value) (t : trace) :
  snd (call_validate validate entity t)
  = snd (call_validate validate entity []).
Proof.
  unfold call_validate, Assessment_validate.
  destruct entity as [| | b | n | s | d | xs | [| c] fs]; try reflexivity.
  destruct c; try reflexivity.
  destruct (has_key "validate" fs); [reflexivity |].
  apply validateClassInstance_outcome.
Qed.

(** The outcome of the pipeline is a function of what the transform
    returned. *)
Lemma fromObject_outcome (obj : json) (t : trace) :
  snd (Assessment_fromObject plainToInstance validate obj t)
  = match plainToInstance Assessment obj default_transform_options with
    | inl e => inl (Error (message e))
    | inr entity => snd (call_validate validate entity [])
    end.
Proof.
  destruct (plainToInstance Assessment obj default_transform_options)
    as [e | entity] eqn:H.
  - now rewrite (fromObject_transform_fails obj e t H).
  - rewrite (fromObject_transform_succeeds obj entity t H).
    apply call_validate_outcome.
Qed.
End OrchestrationFacts.

Lemma single_key {A : Type} (k : string) (ps : list (string * A)) :
  map fst ps = [k] -> exists v, ps = [(k, v)].
Proof.
  destruct ps as [| [k' v] [| q r]]; cbn; intros H; try discriminate.
  injection H as ->. now exists v.
Qed.

(** The transform of a raw object into an Assessment yields an Assessment
    instance whose only own property is [chatLogs]. *)
Lemma transform_Assessment (Date_parse : string -> option Z)
  (fs : list (string * json)) (entity : value) :
  plainToInstance_lib Date_parse Assessment (JObj fs) default_transform_options
  = inr entity ->
  exists v, entity = VObj (CClass Assessment) [("chatLogs", v)].
Proof.
  intros H. apply transform_instance in H.
  destruct H as (ps & -> & Hk & _).
  apply single_key in Hk. destruct Hk as [v ->]. now exists v.
Qed.

Lemma fromObject_run_transform_fails (Date_parse : string -> option Z)
  (obj : json) (e : exn) :
  plainToInstance_lib Date_parse Assessment obj default_transform_options
  = inl e ->
  run (fromObject Date_parse obj)
  = ([Called_plainToInstance Assessment obj default_transform_options;
      Console_error (ParsingFailed "Assessment" (message e))],
     inl (Error (message e))).
Proof.
  intros H.
  exact (fromObject_transform_fails _ validate_lib obj e [] H).
Qed.

Lemma fromObject_run_valid (Date_parse : string -> option Z)
  (fs : list (string * json)) (entity : value) :
  plainToInstance_lib Date_parse Assessment (JObj fs)
    default_transform_options = inr entity ->
  snd (validate_model entity default_validator_options) = [] ->
  run (fromObject Date_parse (JObj fs))
  = ([Called_plainToInstance Assessment (JObj fs) default_transform_options;
      Called_validate entity default_validator_options],
     inr entity).
Proof.
  intros H Hv. unfold run, fromObject.
  rewrite (fromObject_transform_succeeds _ validate_lib _ entity [] H).
  pose proof (transform_constructor_not_hidden _ _ _ _ _ H) as Hc.
  destruct (transform_Assessment _ _ _ H) as [v ->].
  cbn [call_validate has_key lookup String.eqb Ascii.eqb Bool.eqb].
  unfold Assessment_validate.
  refine (validateClassInstance_passes validate_lib _ _ Assessment
            no_validator_options _ [_] _).
  change (spread_validator default_validator_options no_validator_options)
    with default_validator_options.
  rewrite (validate_lib_returns _ _ _ Hc).
  rewrite validate_model_pair in *. cbn [snd] in Hv. now rewrite Hv.
Qed.

Lemma fromObject_run_invalid (Date_parse : string -> option Z)
  (fs : list (string * json)) (entity : value)
  (errors : list ValidationError) :
  plainToInstance_lib Date_parse Assessment (JObj fs)
    default_transform_options = inr entity ->
  snd (validate_model entity default_validator_options) = errors ->
  errors <> [] ->
  run (fromObject Date_parse (JObj fs))
  = ([Called_plainToInstance Assessment (JObj fs) default_transform_options;
      Called_validate entity default_validator_options;
      Console_error (ValidatingFailed "Assessment" errors)],
     inl (Error (Assessment_title ++ ": " ++
                 Array_toString (map property errors)))).
Proof.
  intros H Hv Hne. unfold run, fromObject.
  rewrite (fromObject_transform_succeeds _ validate_lib _ entity [] H).
  pose proof (transform_constructor_not_hidden _ _ _ _ _ H) as Hc.
  destruct (transform_Assessment _ _ _ H) as [v ->].
  cbn [call_validate has_key lookup String.eqb Ascii.eqb Bool.eqb].
  unfold Assessment_validate.
  refine (validateClassInstance_fails validate_lib _ _ Assessment
            no_validator_options Assessment_title errors [_] _ Hne).
  change (spread_validator default_validator_options no_validator_options)
    with default_validator_options.
  rewrite (validate_lib_returns _ _ _ Hc).
  rewrite validate_model_pair in *. cbn [snd] in Hv. now rewrite Hv.
Qed.

(** C7: [Assessment.fromObject] on a raw object first calls the Transformer
    and only then the Validator: when the transform throws, the failure is
    rethrown and [validate] is never called; when it succeeds, [validate] is
    called next on the entity, which is returned when no error is found,
    and otherwise the validation failure is thrown. *)
Theorem fromObject_transforms_then_validates
  (Date_parse : string -> option Z) (fs : list (string * json)) :
  (forall e,
     plainToInstance_lib Date_parse Assessment (JObj fs)
       default_transform_options = inl e ->
     run (fromObject Date_parse (JObj fs))
     = ([Called_plainToInstance Assessment (JObj fs)
           default_transform_options;
         Console_error (ParsingFailed "Assessment" (message e))],
        inl (Error (message e)))) /\
  (forall entity,
     plainToInstance_lib Date_parse Assessment (JObj fs)
       default_transform_options = inr entity ->
     snd (validate_model entity default_validator_options) = [] ->
     run (fromObject Date_parse (JObj fs))
     = ([Called_plainToInstance Assessment (JObj fs)
           default_transform_options;
         Called_validate entity default_validator_options],
        inr entity)) /\
  (forall entity errors,
     plainToInstance_lib Date_parse Assessment (JObj fs)
       default_transform_options = inr entity ->
     snd (validate_model entity default_validator_options) = errors ->
     errors <> [] ->
     run (fromObject Date_parse (JObj fs))
     = ([Called_plainToInstance Assessment (JObj fs)
           default_transform_options;
         Called_validate entity default_validator_options;
         Console_error (ValidatingFailed "Assessment" errors)],
        inl (Error (Assessment_title ++ ": " ++
                    Array_toString (map property errors))))).
Proof.
  split; [| split].
  - intros e. apply fromObject_run_transform_fails.
  - intros entity. apply fromObject_run_valid.
  - intros entity errors. apply fromObject_run_invalid.
Qed.

Lemma fromObject_transforms_then_validates_witness :
  run (fromObject Date_parse_none (JObj [("chatLogs", JArr [types_is_number])]))
  = ([Called_plainToInstance Assessment
        (JObj [("chatLogs", JArr [types_is_number])])
        default_transform_options;
      Console_error
        (ParsingFailed "Assessment"
           "object?.data?.types?.includes is not a function")],
     inl (Error "object?.data?.types?.includes is not a function")).
Proof.
  apply (proj1 (fromObject_transforms_then_validates Date_parse_none
                  [("chatLogs", JArr [types_is_number])])
           (TypeError "object?.data?.types?.includes is not a function")).
  reflexivity.
Defined.

(** ** Undeclared keys *)

Lemma prune_drops_sample_extras :
  prune (Some (TClass Assessment)) sample <> sample /\
  prune (Some (TClass Message)) sample_question_message
  = JObj
      [ ("data",
         JObj
           [ ("_id", JStr "5f77dd133075f3b845b19d01");
             ("masterId", JStr "5f77dd133075f3b8450bc2a3");
             ("types", JArr [JStr "MCQ"]);
             ("contents",
              JArr [ JObj [ ("value", JStr "Are you hard working");
                            ("types", JArr [JStr "TEXT"]) ] ]);
             ("options",
              JArr [ JObj [ ("id", JStr "1"); ("text", JStr "Yes");
                            ("value", JStr "1") ];
                     JObj [ ("id", JStr "2"); ("text", JStr "No");
                            ("value", JStr "2") ] ]) ]);
        ("sender", JStr "AGENT");
        ("id", JStr "25688f98-27a0-4641-a60f-98ea87825657") ].
Proof. split; [vm_compute; discriminate | reflexivity]. Qed.

(** C8: keys of the raw input that the schema does not declare, at the top
    or nested, change nothing: the transform of the input returns exactly
    what it returns on the input without them (so it succeeds whenever it
    does without them), every instance of the resulting graph owns declared
    properties only, and the outcome of the whole pipeline, success or
    error, is the one of the input without them. *)
Theorem undeclared_keys_are_dropped
  (Date_parse : string -> option Z) (obj : json) :
  plainToInstance_lib Date_parse Assessment
    (prune (Some (TClass Assessment)) obj) default_transform_options
  = plainToInstance_lib Date_parse Assessment obj default_transform_options /\
  (forall entity,
     plainToInstance_lib Date_parse Assessment obj default_transform_options
     = inr entity ->
     only_declared entity = true) /\
  snd (run (fromObject Date_parse (prune (Some (TClass Assessment)) obj)))
  = snd (run (fromObject Date_parse obj)).
Proof.
  assert (H : plainToInstance_lib Date_parse Assessment
                (prune (Some (TClass Assessment)) obj)
                default_transform_options
              = plainToInstance_lib Date_parse Assessment obj
                  default_transform_options).
  { apply transform_prune. }
  split; [exact H | split].
  - intros entity He. eapply transform_only_declared. exact He.
  - unfold run, fromObject. rewrite !fromObject_outcome. now rewrite H.
Qed.

Lemma undeclared_keys_are_dropped_witness :
  only_declared
    (VObj (CClass Assessment)
       [("chatLogs",
         VArr [VObj (CClass Message)
                 [("id", VStr "m1"); ("sender", VStr "AGENT");
                  ("label", VUndefined); ("data", VUndefined);
                  ("userAgent", VUndefined); ("timeTaken", VUndefined);
                  ("time", VUndefined)]])]) = true.
Proof.
  apply (proj1 (proj2 (undeclared_keys_are_dropped Date_parse_none
           (JObj [("chatLogs",
                   JArr [JObj [("id", JStr "m1"); ("extra", JNum (integer 1));
                               ("sender", JStr "AGENT")]]);
                  ("unknown", JBool true)])))).
  reflexivity.
Defined.

(** ** The sample *)

(** C9: on the three-message sample of the source the pipeline transforms
    and validates successfully; the result has three chat logs, the first
    payload is a Hint, the second an Answer whose question is a
    ButtonGroupQuestion, the third a Question with exactly two options, each
    a QuestionOption. *)
Theorem sample_is_accepted (Date_parse : string -> option Z) :
  exists entity,
    snd (run (fromObject Date_parse sample)) = inr entity /\
    In (Called_validate entity default_validator_options)
       (fst (run (fromObject Date_parse sample))) /\
    class_of entity = Some Assessment /\
    vlength (vget entity "chatLogs") = Some 3%nat /\
    class_of (vget (vnth (vget entity "chatLogs") 0) "data") = Some Hint /\
    class_of (vget (vnth (vget entity "chatLogs") 1) "data") = Some Answer /\
    class_of (vget (vget (vnth (vget entity "chatLogs") 1) "data") "question")
    = Some ButtonGroupQuestion /\
    class_of (vget (vnth (vget entity "chatLogs") 2) "data") = Some Question /\
    vlength (vget (vget (vnth (vget entity "chatLogs") 2) "data") "options")
    = Some 2%nat /\
    class_of
      (vnth (vget (vget (vnth (vget entity "chatLogs") 2) "data") "options") 0)
    = Some QuestionOption /\
    class_of
      (vnth (vget (vget (vnth (vget entity "chatLogs") 2) "data") "options") 1)
    = Some QuestionOption.
Proof.
  eexists. split; [vm_compute; reflexivity |].
  split; [vm_compute; right; left; reflexivity |].
  repeat split.
Qed.

(** ** Dates *)

Lemma Forall2_nth_error {A B : Type} (R : A -> B -> Prop) (l : list A)
  (l' : list B) (i : nat) (x : A) :
  Forall2 R l l' -> nth_error l i = Some x ->
  exists y, nth_error l' i = Some y /\ R x y.
Proof.
  intros H. revert i. induction H as [| a b r r' Hab _ IH]; intros i Hi.
  - destruct i; discriminate.
  - destruct i as [| i]; cbn in *.
    + injection Hi as ->. eauto.
    + now apply IH.
Qed.

(** At a position typed [Date] a string becomes the date the engine parses
    it to, an Invalid Date when it cannot. *)
Lemma transform_date_string (Date_parse : string -> option Z)
  (options : ClassTransformOptions) (s : string) :
  transform Date_parse options (Some TDate) (JStr s)
  = ret (VDate (Date_parse s)).
Proof. reflexivity. Qed.

Lemma nested_element (options : ValidatorOptions) (ys : list value)
  (y : value) (k : nat) :
  In y ys ->
  exists j,
    In (VError (Some (index_toString j))
          (fst (nestedValidations options y))
          (snd (nestedValidations options y)))
       (map (fun ix =>
               VError (Some (index_toString (fst ix)))
                      (fst (snd ix)) (snd (snd ix)))
            (index_from k (map (nestedValidations options) ys))).
Proof.
  revert k. induction ys as [| x r IH]; intros k Hin; [contradiction |].
  destruct Hin as [-> | Hin].
  - exists k. now left.
  - destruct (IH (S k) Hin) as [j Hj]. exists j. now right.
Qed.

(** ** How violations travel up the graph *)

Lemma app_nonempty_l {A : Type} (l r : list A) : l <> [] -> l ++ r <> [].
Proof. destruct l; [contradiction | discriminate]. Qed.

Lemma app_nonempty_r {A : Type} (l r : list A) : r <> [] -> l ++ r <> [].
Proof. destruct l; [now cbn | discriminate]. Qed.

Lemma lookup_nested_outcomes (options : ValidatorOptions)
  (fs : list (string * value)) (p : string) :
  lookup p (nested_outcomes options fs)
  = option_map (nestedValidations options) (lookup p fs).
Proof. apply (lookup_map (nestedValidations options)). Qed.

Lemma lookup_absent {A : Type} (k : string) (fs : list (string * A)) :
  ~ In k (map fst fs) -> lookup k fs = None.
Proof.
  induction fs as [| [k' v] r IH]; [reflexivity |].
  cbn [map fst In lookup]. intros H.
  destruct (String.eqb_spec k k') as [-> | Hne].
  - exfalso. apply H. now left.
  - apply IH. intros Hin. apply H. now right.
Qed.

(** An instance that owns the exposed properties of its class owns no
    [constructor]. *)
Lemma instance_owns_no_constructor (c : class) (ps : list (string * value)) :
  map fst ps = uniq (exposed_properties c) ->
  lookup "constructor" ps = None.
Proof.
  intros H. apply lookup_absent. rewrite H. intros Hin.
  apply mem_In in Hin. destruct c; discriminate.
Qed.

(** The error of one declared property among the errors of an instance. *)
Lemma property_error_In (c : class) (fs : list (string * value)) (p : string) :
  lookup "constructor" fs = None ->
  In p (grouped_names (getTargetValidationMetadatas c)) ->
  In (performValidations
        (grouped (getTargetValidationMetadatas c) p) p (own_value fs p)
        (match lookup p fs with
         | Some v => nestedValidations default_validator_options v
         | None => ([], [])
         end))
     (snd (nestedValidations default_validator_options (VObj (CClass c) fs))).
Proof.
  intros Hc Hp. rewrite nestedValidations_instance. cbn [snd].
  rewrite execute_object_class by exact Hc. apply in_or_app. right.
  apply in_map_iff. exists p. split; [| exact Hp].
  rewrite lookup_nested_outcomes. unfold own_value.
  destruct (lookup p fs); reflexivity.
Qed.

(** An instance with a failed constraint on one of its properties is
    reported. *)
Lemma reports_constraint (c : class) (fs : list (string * value))
  (p : string) :
  lookup "constructor" fs = None ->
  In p (grouped_names (getTargetValidationMetadatas c)) ->
  failed_constraints c p (own_value fs p) <> [] ->
  reports (VObj (CClass c) fs).
Proof.
  intros Hc Hp Hf. right.
  apply (stripEmptyErrors_nonempty _ _ (property_error_In c fs p Hc Hp)).
  left. unfold failed_constraints in Hf. unfold performValidations.
  destruct (conditionalValidations _ (own_value fs p)); [| contradiction].
  cbn [negb constraints]. rewrite app_assoc. now apply app_nonempty_l.
Qed.

(** An instance is reported when a property validated in depth holds a
    reported value. *)
Lemma reports_nested (c : class) (fs : list (string * value)) (p : string)
  (v : value) :
  lookup "constructor" fs = None ->
  In p (grouped_names (getTargetValidationMetadatas c)) ->
  lookup p fs = Some v ->
  validated_nested c p v = true ->
  reports v ->
  reports (VObj (CClass c) fs).
Proof.
  intros Hown Hp Hl Hn Hv. right.
  pose proof (property_error_In c fs p Hown Hp) as Hin.
  unfold own_value in Hin. rewrite Hl in Hin.
  apply (stripEmptyErrors_nonempty _ _ Hin).
  unfold validated_nested in Hn. apply andb_true_iff in Hn.
  destruct Hn as [Hc Hn]. unfold performValidations. rewrite Hc.
  cbn [negb].
  destruct (of_type NESTED_VALIDATION
              (grouped (getTargetValidationMetadatas c) p)) as [| m ms];
    [discriminate |].
  destruct Hv as [Hv | Hv].
  - left. cbn [constraints]. now apply app_nonempty_r, app_nonempty_r.
  - right. exact Hv.
Qed.

(** An array is reported when one of its elements is. *)
Lemma reports_element (ys : list value) (y : value) :
  In y ys -> reports y -> reports (VArr ys).
Proof.
  intros Hin Hy. right. cbn [nestedValidations snd].
  destruct (nested_element default_validator_options ys y 0 Hin) as [j Hj].
  apply (stripEmptyErrors_nonempty _ _ Hj).
  destruct Hy as [Hy | Hy]; [left | right]; exact Hy.
Qed.

(** ** The outcomes of the pipeline *)

(** The errors found on an Assessment produced by the transform: none, or
    the single error of [chatLogs]. *)
Lemma Assessment_errors (v : value) :
  let errors :=
    snd (validate_model (VObj (CClass Assessment) [("chatLogs", v)])
           default_validator_options) in
  errors = [] \/
  exists e, errors = [e] /\ property e = Some "chatLogs".
Proof.
  cbn zeta. rewrite validate_model_pair. cbn [snd].
  rewrite execute_instance, execute_object_class by reflexivity.
  change (whitelist_errors default_validator_options
            (getTargetValidationMetadatas Assessment) [("chatLogs", v)])
    with (@nil ValidationError).
  change (grouped_names (getTargetValidationMetadatas Assessment))
    with ["chatLogs"].
  cbn [app map stripEmptyErrors].
  destruct (stripEmptyErrors_one _) as [e |] eqn:He; [right | now left].
  exists e. split; [reflexivity |].
  apply stripEmptyErrors_one_property in He. rewrite He.
  apply performValidations_property.
Qed.

Lemma Assessment_invalid (v : value) :
  reports (VObj (CClass Assessment) [("chatLogs", v)]) ->
  exists e,
    snd (validate_model (VObj (CClass Assessment) [("chatLogs", v)])
           default_validator_options) = [e] /\
    property e = Some "chatLogs".
Proof.
  intros [Hr | Hr]; [now cbn in Hr |].
  destruct (Assessment_errors v) as [Hnil | He]; [| exact He].
  exfalso. apply Hr. rewrite validate_model_pair in Hnil. exact Hnil.
Qed.

Lemma rejected_when_reported (Date_parse : string -> option Z)
  (fs : list (string * json)) :
  (forall entity,
     plainToInstance_lib Date_parse Assessment (JObj fs)
       default_transform_options = inr entity ->
     reports entity) ->
  rejected_once_transformed Date_parse (JObj fs).
Proof.
  intros H.
  assert (Hrun : forall entity,
            plainToInstance_lib Date_parse Assessment (JObj fs)
              default_transform_options = inr entity ->
            exists errors,
              run (fromObject Date_parse (JObj fs))
              = ([Called_plainToInstance Assessment (JObj fs)
                    default_transform_options;
                  Called_validate entity default_validator_options;
                  Console_error (ValidatingFailed "Assessment" errors)],
                 inl (Error (Assessment_title ++ ": chatLogs")))).
  { intros entity He. pose proof (H entity He) as Hr.
    destruct (transform_Assessment _ _ _ He) as [v ->].
    destruct (Assessment_invalid v Hr) as (e & Herr & Hp).
    exists [e].
    rewrite (fromObject_run_invalid Date_parse fs _ [e] He Herr);
      [| discriminate].
    cbn [map Array_toString]. now rewrite Hp. }
  split; [| exact Hrun].
  intros entity.
  destruct (plainToInstance_lib Date_parse Assessment (JObj fs)
              default_transform_options) as [e | entity'] eqn:Ht.
  - rewrite (fromObject_run_transform_fails _ _ _ Ht). discriminate.
  - destruct (Hrun entity' eq_refl) as [errors ->]. discriminate.
Qed.

(** X2: the outcomes of [Assessment.fromObject] on a raw object are of
    three kinds: the entity, an Assessment owning [chatLogs] alone on
    which [validate] found nothing; an Error with the message of the
    exception [plainToInstance] threw, [validate] not having been called;
    or the Error of the validation failure, whose list is exactly
    [chatLogs]. *)
Theorem fromObject_outcomes (Date_parse : string -> option Z)
  (fs : list (string * json)) :
  (exists v,
     run (fromObject Date_parse (JObj fs))
     = ([Called_plainToInstance Assessment (JObj fs)
           default_transform_options;
         Called_validate (VObj (CClass Assessment) [("chatLogs", v)])
           default_validator_options],
        inr (VObj (CClass Assessment) [("chatLogs", v)])) /\
     validate_lib (VObj (CClass Assessment) [("chatLogs", v)])
       default_validator_options
     = inr (VObj (CClass Assessment) [("chatLogs", v)], [])) \/
  (exists e,
     plainToInstance_lib Date_parse Assessment (JObj fs)
       default_transform_options = inl e /\
     run (fromObject Date_parse (JObj fs))
     = ([Called_plainToInstance Assessment (JObj fs)
           default_transform_options;
         Console_error (ParsingFailed "Assessment" (message e))],
        inl (Error (message e)))) \/
  (exists entity errors,
     run (fromObject Date_parse (JObj fs))
     = ([Called_plainToInstance Assessment (JObj fs)
           default_transform_options;
         Called_validate entity default_validator_options;
         Console_error (ValidatingFailed "Assessment" errors)],
        inl (Error "The following field values do not meet constraints in Assessment: chatLogs"))).
Proof.
  destruct (plainToInstance_lib Date_parse Assessment (JObj fs)
              default_transform_options) as [e | entity] eqn:Ht.
  - right. left. exists e. split; [reflexivity |].
    now apply fromObject_run_transform_fails.
  - pose proof (transform_constructor_not_hidden _ _ _ _ _ Ht) as Hc.
    destruct (transform_Assessment _ _ _ Ht) as [v ->].
    destruct (Assessment_errors v) as [Hnil | (e & He & Hp)].
    + left. exists v. split.
      * now apply fromObject_run_valid.
      * rewrite (validate_lib_returns _ _ _ Hc), validate_model_pair.
        rewrite validate_model_pair in Hnil. cbn [snd] in Hnil.
        now rewrite Hnil.
    + right. right. exists (VObj (CClass Assessment) [("chatLogs", v)]), [e].
      rewrite (fromObject_run_invalid Date_parse fs _ [e] Ht He);
        [| discriminate].
      cbn [snd map Array_toString]. now rewrite Hp.
Qed.

(** ** Fields of transformed instances *)

Lemma filter_fixed {A : Type} (f : A -> bool) (l : list A) (x : A) :
  filter f l = l -> In x l -> f x = true.
Proof.
  intros H Hin. rewrite <- H in Hin. apply filter_In in Hin. apply Hin.
Qed.

(** Each exposed property of an instance produced by the transform holds
    the transform of the raw value of that name, at the type its [@Type]
    function gives, or [undefined] when the raw object has none. *)
Lemma transform_field (Date_parse : string -> option Z) (c : class)
  (fs : list (string * json)) (y : value) (k : string) :
  transform Date_parse default_transform_options (Some (TClass c)) (JObj fs)
  = inr y ->
  In k (uniq (exposed_properties c)) ->
  exists ps ty v,
    y = VObj (CClass c) ps /\
    map fst ps = uniq (exposed_properties c) /\
    type_of (Some c) k (JObj fs) = inr ty /\
    match lookup k fs with
    | Some x => transform Date_parse default_transform_options ty x
    | None => ret VUndefined
    end = inr v /\
    lookup k ps = Some v.
Proof.
  intros H Hk. apply transform_instance in H.
  destruct H as (ps & -> & Hkeys & Hset).
  destruct (set_keys_lookup default_transform_options (Some c) (JObj fs) _
              eq_refl _ ps k Hset Hk)
    as (ty & v & Hty & Hv & Hl).
  { apply (filter_fixed _ _ _ (exposed_are_visited c) Hk). }
  rewrite key_value_pending in Hv.
  exists ps, ty, v. repeat split; assumption.
Qed.

(** Values at untyped positions keep their kind. *)
Lemma transform_untyped_kind (Date_parse : string -> option Z)
  (options : ClassTransformOptions) (x : json) (v : value) :
  transform Date_parse options None x = inr v ->
  match x with
  | JNull => v = VNull
  | JBool b => v = VBool b
  | JNum n => v = VNum n
  | JStr s => v = VStr s
  | JArr _ => exists ys, v = VArr ys
  | JObj _ => exists ps, v = VObj CObject ps
  end.
Proof.
  destruct x as [| b | n | s | xs | fs]; intros H;
    try (injection H as <-; reflexivity).
  - cbn [transform] in H. apply bind_ret_inv in H.
    destruct H as (ys & _ & H). injection H as <-. now exists ys.
  - rewrite transform_object in H by discriminate.
    apply bind_ret_inv in H. destruct H as (u & _ & H).
    apply bind_ret_inv in H. destruct H as (ps & _ & H).
    injection H as <-. now exists ps.
Qed.

Lemma transform_untyped_string (Date_parse : string -> option Z)
  (options : ClassTransformOptions) (x : json) (s : string) :
  transform Date_parse options None x = inr (VStr s) -> x = JStr s.
Proof.
  intros H. apply transform_untyped_kind in H.
  destruct x as [| b | n | s' | xs | fs];
    try discriminate; try (destruct H; discriminate).
  now injection H as ->.
Qed.

(** The chat logs of the entity are the transforms of the raw messages. *)
Lemma chatLogs_elements (Date_parse : string -> option Z)
  (fs : list (string * json)) (ms : list json) (entity : value) :
  plainToInstance_lib Date_parse Assessment (JObj fs)
    default_transform_options = inr entity ->
  lookup "chatLogs" fs = Some (JArr ms) ->
  exists ys,
    entity = VObj (CClass Assessment) [("chatLogs", VArr ys)] /\
    Forall2 (fun m y =>
               transform Date_parse default_transform_options
                 (Some (TClass Message)) m = inr y) ms ys.
Proof.
  intros H Hl.
  destruct (transform_field Date_parse Assessment fs entity "chatLogs" H)
    as (ps & ty & v & -> & Hkeys & Hty & Hv & Hlv); [now left |].
  apply single_key in Hkeys. destruct Hkeys as [v' ->].
  cbn [lookup String.eqb Ascii.eqb Bool.eqb] in Hlv. injection Hlv as ->.
  injection Hty as <-. rewrite Hl in Hv.
  cbn [transform] in Hv. apply bind_ret_inv in Hv.
  destruct Hv as (ys & Hys & Hv). injection Hv as <-.
  exists ys. split; [reflexivity |]. now apply mapM_success.
Qed.

(** A raw tree is rejected once transformed when the transform of one of
    its messages is reported. *)
Lemma message_reported (Date_parse : string -> option Z) (obj : json)
  (i : nat) (mfs : list (string * json)) :
  message_at obj i mfs ->
  (forall y,
     transform Date_parse default_transform_options (Some (TClass Message))
       (JObj mfs) = inr y -> reports y) ->
  rejected_once_transformed Date_parse obj.
Proof.
  intros (fs & ms & -> & Hl & Hnth) Hy.
  apply rejected_when_reported. intros entity He.
  destruct (chatLogs_elements _ _ _ _ He Hl) as (ys & -> & Hys).
  destruct (Forall2_nth_error _ _ _ i _ Hys Hnth) as (y & Hiy & Hty).
  apply (reports_nested Assessment _ "chatLogs" (VArr ys));
    [reflexivity | now left | reflexivity | reflexivity |].
  apply (reports_element ys y); [eapply nth_error_In; exact Hiy |].
  now apply Hy.
Qed.

(** A raw tree is rejected once transformed when a property of one of its
    messages then fails a constraint. *)
Lemma message_field_rejected (Date_parse : string -> option Z) (obj : json)
  (i : nat) (mfs : list (string * json)) (k : string) :
  message_at obj i mfs ->
  In k (uniq (exposed_properties Message)) ->
  (forall ty v,
     type_of (Some Message) k (JObj mfs) = inr ty ->
     match lookup k mfs with
     | Some x => transform Date_parse default_transform_options ty x
     | None => ret VUndefined
     end = inr v ->
     failed_constraints Message k v <> []) ->
  rejected_once_transformed Date_parse obj.
Proof.
  intros Hm Hk Hf. apply (message_reported _ _ i mfs Hm). intros y Hy.
  destruct (transform_field _ _ _ _ k Hy Hk)
    as (ps & ty & v & -> & Hkeys & Hty & Hv & Hl).
  apply (reports_constraint Message ps k);
    [now apply (instance_owns_no_constructor Message) | exact Hk |].
  unfold own_value. rewrite Hl. now apply (Hf ty v).
Qed.

(** ** The [chatLogs] of an Assessment *)

Lemma transform_primitive_chatLogs (Date_parse : string -> option Z)
  (fs : list (string * json)) (x : option json) (v : value) :
  lookup "chatLogs" fs = x ->
  match x with
  | None => ret VUndefined
  | Some j =>
      transform Date_parse default_transform_options (Some (TClass Message)) j
  end = inr v ->
  plainToInstance_lib Date_parse Assessment (JObj fs)
    default_transform_options
  = inr (VObj (CClass Assessment) [("chatLogs", v)]).
Proof.
  intros Hl Hv. unfold plainToInstance_lib, plainToInstance_model.
  rewrite transform_typed_object.
  change (getKeys default_transform_options (Some Assessment) fs)
    with ["chatLogs"].
  rewrite set_keys_cons.
  change (mem "chatLogs" ["__proto__"; "constructor"]) with false.
  change (type_of (Some Assessment) "chatLogs" (JObj fs))
    with (ret (A := option target) (Some (TClass Message))).
  cbn [bind ret].
  change (is_method (Some Assessment) "chatLogs") with false.
  cbv iota. rewrite key_value_pending, Hl.
  destruct x as [j |]; rewrite Hv;
    cbn [bind set_keys ret flag exposeUnsetFields default_transform_options];
    rewrite orb_true_r; reflexivity.
Qed.

(** X3: [chatLogs] is optional: a raw object without [chatLogs], with
    [chatLogs: null] or with an empty array passes both stages, whatever
    other keys it carries, and the entity holds [undefined], [null] or the
    empty array there. *)
Theorem missing_chatLogs_is_accepted (Date_parse : string -> option Z)
  (fs : list (string * json)) (v : value) :
  (lookup "chatLogs" fs = None /\ v = VUndefined) \/
  (lookup "chatLogs" fs = Some JNull /\ v = VNull) \/
  (lookup "chatLogs" fs = Some (JArr []) /\ v = VArr []) ->
  run (fromObject Date_parse (JObj fs))
  = ([Called_plainToInstance Assessment (JObj fs) default_transform_options;
      Called_validate (VObj (CClass Assessment) [("chatLogs", v)])
        default_validator_options],
     inr (VObj (CClass Assessment) [("chatLogs", v)])).
Proof.
  intros H. apply fromObject_run_valid.
  - destruct H as [[Hl ->] | [[Hl ->] | [Hl ->]]];
      apply (transform_primitive_chatLogs _ _ _ _ Hl); reflexivity.
  - destruct H as [[_ ->] | [[_ ->] | [_ ->]]]; reflexivity.
Qed.

Lemma missing_chatLogs_is_accepted_witness :
  run (fromObject Date_parse_none (JObj [("unrelated", JBool true)]))
  = ([Called_plainToInstance Assessment (JObj [("unrelated", JBool true)])
        default_transform_options;
      Called_validate (VObj (CClass Assessment) [("chatLogs", VUndefined)])
        default_validator_options],
     inr (VObj (CClass Assessment) [("chatLogs", VUndefined)])).
Proof.
  apply (missing_chatLogs_is_accepted Date_parse_none
           [("unrelated", JBool true)] VUndefined).
  left. split; reflexivity.
Defined.

(** X4: a [chatLogs] that is present but is neither an array nor [null] (a
    single message object, a string, a number, a boolean) is never
    accepted: once the transform has returned, validation rejects the
    entity with the error naming [chatLogs]. *)
Theorem chatLogs_must_be_an_array (Date_parse : string -> option Z)
  (fs : list (string * json)) (x : json) :
  lookup "chatLogs" fs = Some x ->
  match x with JArr _ | JNull => False | _ => True end ->
  rejected_once_transformed Date_parse (JObj fs).
Proof.
  intros Hl Hx. apply rejected_when_reported. intros entity He.
  destruct (transform_field Date_parse Assessment fs entity "chatLogs" He)
    as (ps & ty & v & -> & Hkeys & Hty & Hv & Hlv); [now left |].
  apply (reports_constraint Assessment ps "chatLogs");
    [now apply (instance_owns_no_constructor Assessment) | now left |].
  unfold own_value. rewrite Hlv. injection Hty as <-. rewrite Hl in Hv.
  destruct x as [| b | n | s | xs | mfs]; try contradiction;
    try (injection Hv as <-; discriminate).
  apply transform_instance in Hv. destruct Hv as (mps & -> & _).
  discriminate.
Qed.

Lemma chatLogs_must_be_an_array_witness :
  rejected_once_transformed Date_parse_none
    (JObj [("chatLogs", sample_hint_message)]).
Proof.
  apply (chatLogs_must_be_an_array Date_parse_none
           [("chatLogs", sample_hint_message)] sample_hint_message).
  - reflexivity.
  - exact I.
Defined.

(** ** Required fields of a message *)

Lemma untyped_message_field (k : string) (mfs : list (string * json)) :
  In k ["id"; "sender"; "label"; "userAgent"; "timeTaken"] ->
  type_of (Some Message) k (JObj mfs) = inr None.
Proof.
  intros H. repeat (destruct H as [<- | H]; [reflexivity |]). contradiction.
Qed.

Lemma sender_outside_enum_rejected (Date_parse : string -> option Z)
  (obj : json) (i : nat) (mfs : list (string * json)) :
  message_at obj i mfs ->
  lookup "sender" mfs <> Some (JStr MessageSender.AGENT) ->
  lookup "sender" mfs <> Some (JStr MessageSender.CANDIDATE) ->
  rejected_once_transformed Date_parse obj.
Proof.
  intros Hm Ha Hc.
  apply (message_field_rejected _ _ i mfs "sender" Hm);
    [vm_compute; tauto |].
  intros ty v Hty Hv.
  rewrite untyped_message_field in Hty by (vm_compute; tauto).
  injection Hty as <-.
  destruct (lookup "sender" mfs) as [x |].
  - destruct v as [| | b | n | s | d | xs | c ps]; try discriminate.
    apply transform_untyped_string in Hv. subst x. intros Hf.
    destruct (String.eqb_spec s MessageSender.AGENT) as [-> | H1];
      [now apply Ha |].
    destruct (String.eqb_spec s MessageSender.CANDIDATE) as [-> | H2];
      [now apply Hc |].
    apply String.eqb_neq in H1. apply String.eqb_neq in H2.
    revert Hf. unfold failed_constraints.
    change (grouped (getTargetValidationMetadatas Message) "sender")
      with [Meta "sender" (IsEnum MessageSender.values) false].
    cbn. unfold MessageSender.AGENT, MessageSender.CANDIDATE in *.
    rewrite H1, H2. discriminate.
  - injection Hv as <-. discriminate.
Qed.

(** X5: a message whose [sender] is anything but the string "AGENT" or
    "CANDIDATE" (another string, a value of another kind, or no sender at
    all) is never accepted: once the transform has returned, validation
    rejects the entity with the error naming [chatLogs]. *)
Theorem unknown_sender_is_rejected (Date_parse : string -> option Z)
  (obj : json) (i : nat) (mfs : list (string * json)) :
  message_at obj i mfs ->
  lookup "sender" mfs <> Some (JStr MessageSender.AGENT) ->
  lookup "sender" mfs <> Some (JStr MessageSender.CANDIDATE) ->
  rejected_once_transformed Date_parse obj.
Proof. apply sender_outside_enum_rejected. Qed.

Lemma unknown_sender_is_rejected_witness :
  rejected_once_transformed Date_parse_none
    (JObj [("chatLogs",
            JArr [JObj [("id", JStr "m1"); ("sender", JStr "UNKNOWN")]])]).
Proof.
  apply (unknown_sender_is_rejected Date_parse_none _ 0
           [("id", JStr "m1"); ("sender", JStr "UNKNOWN")]).
  - exists [("chatLogs",
             JArr [JObj [("id", JStr "m1"); ("sender", JStr "UNKNOWN")]])],
           [JObj [("id", JStr "m1"); ("sender", JStr "UNKNOWN")]].
    repeat split.
  - discriminate.
  - discriminate.
Defined.

(** X6: [id], [sender] and [data] are required on every message: a raw
    message lacking one of them is never accepted; once the transform has
    returned, validation rejects the entity with the error naming
    [chatLogs]. *)
Theorem required_message_field_is_missing (Date_parse : string -> option Z)
  (obj : json) (i : nat) (mfs : list (string * json)) (k : string) :
  message_at obj i mfs ->
  In k ["id"; "sender"; "data"] ->
  lookup k mfs = None ->
  rejected_once_transformed Date_parse obj.
Proof.
  intros Hm Hk Hl.
  apply (message_field_rejected _ _ i mfs k Hm).
  { destruct Hk as [<- | [<- | [<- | []]]]; vm_compute; tauto. }
  intros ty v _. rewrite Hl. intros Hv. injection Hv as <-.
  destruct Hk as [<- | [<- | [<- | []]]]; discriminate.
Qed.

Lemma required_message_field_is_missing_witness :
  rejected_once_transformed Date_parse_none
    (JObj [("chatLogs",
            JArr [JObj [("id", JStr "m1"); ("sender", JStr "AGENT")]])]).
Proof.
  apply (required_message_field_is_missing Date_parse_none _ 0
           [("id", JStr "m1"); ("sender", JStr "AGENT")] "data").
  - exists [("chatLogs",
             JArr [JObj [("id", JStr "m1"); ("sender", JStr "AGENT")]])],
           [JObj [("id", JStr "m1"); ("sender", JStr "AGENT")]].
    repeat split.
  - right. right. now left.
  - reflexivity.
Defined.

(** ** Answers *)

Lemma candidate_data_is_an_answer (mfs : list (string * json)) :
  lookup "sender" mfs = Some (JStr MessageSender.CANDIDATE) ->
  type_of (Some Message) "data" (JObj mfs) = inr (Some (TClass Answer)).
Proof.
  intros Hs.
  change (type_of (Some Message) "data" (JObj mfs))
    with (t <- Message_data_type (Some (JObj mfs)) ;; ret (Some t)).
  unfold Message_data_type. cbn [opt_get]. rewrite Hs. reflexivity.
Qed.

Lemma answer_field_rejected (Date_parse : string -> option Z)
  (obj : json) (i : nat) (mfs dfs : list (string * json)) (k : string) :
  message_at obj i mfs ->
  lookup "sender" mfs = Some (JStr MessageSender.CANDIDATE) ->
  lookup "data" mfs = Some (JObj dfs) ->
  In k ["_id"; "value"; "text"] ->
  lookup k dfs = Some (JStr "") \/ lookup k dfs = None ->
  rejected_once_transformed Date_parse obj.
Proof.
  intros Hm Hs Hd Hk Hl.
  apply (message_reported _ _ i mfs Hm). intros y Hy.
  destruct (transform_field _ _ _ _ "data" Hy)
    as (ps & ty & a & -> & Hkeys & Hty & Ha & Hla); [vm_compute; tauto |].
  rewrite (candidate_data_is_an_answer mfs Hs) in Hty. injection Hty as <-.
  rewrite Hd in Ha.
  assert (Hk' : In k (uniq (exposed_properties Answer))).
  { destruct Hk as [<- | [<- | [<- | []]]]; vm_compute; tauto. }
  destruct (transform_field _ _ _ _ k Ha Hk')
    as (aps & ty & v & -> & Hakeys & Hty & Hv & Hlv).
  apply (reports_nested Message ps "data" (VObj (CClass Answer) aps));
    [now apply (instance_owns_no_constructor Message) | vm_compute; tauto
    | exact Hla | reflexivity |].
  apply (reports_constraint Answer aps k);
    [now apply (instance_owns_no_constructor Answer) | exact Hk' |].
  unfold own_value. rewrite Hlv.
  assert (Hv' : v = VStr "" \/ v = VUndefined).
  { destruct Hk as [<- | [<- | [<- | []]]]; injection Hty as <-;
      (destruct Hl as [Hl | Hl]; rewrite Hl in Hv; injection Hv as <-;
       [now left | now right]). }
  destruct Hk as [<- | [<- | [<- | []]]]; destruct Hv' as [-> | ->];
    discriminate.
Qed.

(** X7: the [_id], [value] and [text] of a candidate's answer must be
    non-empty strings: a message from CANDIDATE whose payload object has
    one of them empty or missing is never accepted; once the transform has
    returned, validation rejects the entity with the error naming
    [chatLogs]. *)
Theorem empty_answer_field_is_rejected (Date_parse : string -> option Z)
  (obj : json) (i : nat) (mfs dfs : list (string * json)) (k : string) :
  message_at obj i mfs ->
  lookup "sender" mfs = Some (JStr MessageSender.CANDIDATE) ->
  lookup "data" mfs = Some (JObj dfs) ->
  In k ["_id"; "value"; "text"] ->
  lookup k dfs = Some (JStr "") \/ lookup k dfs = None ->
  rejected_once_transformed Date_parse obj.
Proof. apply answer_field_rejected. Qed.

Lemma empty_answer_field_is_rejected_witness :
  rejected_once_transformed Date_parse_none
    (JObj [("chatLogs",
            JArr [JObj [("id", JStr "m1"); ("sender", JStr "CANDIDATE");
                        ("data", JObj [("_id", JStr "a1");
                                       ("text", JStr "")])]])]).
Proof.
  apply (empty_answer_field_is_rejected Date_parse_none _ 0
           [("id", JStr "m1"); ("sender", JStr "CANDIDATE");
            ("data", JObj [("_id", JStr "a1"); ("text", JStr "")])]
           [("_id", JStr "a1"); ("text", JStr "")] "text").
  - eexists _, _. repeat split.
  - reflexivity.
  - reflexivity.
  - right. right. now left.
  - left. reflexivity.
Defined.

(** ** Transform failures and validation failures *)

(** A raw tree one of whose messages carries a date string the engine
    cannot parse is rejected once transformed. *)
Lemma uncoercible_time_rejected (Date_parse : string -> option Z)
  (obj : json) :
  has_uncoercible_time Date_parse obj ->
  rejected_once_transformed Date_parse obj.
Proof.
  intros (fs & ms & i & mfs & s & -> & Hlogs & Hnth & Htime & Hparse).
  apply (message_field_rejected _ _ i mfs "time").
  - exists fs, ms. auto.
  - vm_compute. tauto.
  - intros ty v Hty Hv. injection Hty as <-. rewrite Htime in Hv.
    rewrite transform_date_string, Hparse in Hv. injection Hv as <-.
    discriminate.
Qed.

(** The payload of a message the candidate did not send is a Hint or a
    question. *)
Lemma agent_data_type (mfs : list (string * json)) (ty : option target) :
  isAnswer (Some (JObj mfs)) = false ->
  type_of (Some Message) "data" (JObj mfs) = inr ty ->
  ty = Some (TClass Hint) \/ ty = Some (TClass ButtonGroupQuestion) \/
  ty = Some (TClass Question).
Proof.
  intros Hs.
  change (type_of (Some Message) "data" (JObj mfs))
    with (t <- Message_data_type (Some (JObj mfs)) ;; ret (Some t)).
  unfold Message_data_type. unfold isAnswer in Hs. rewrite Hs.
  fold (hint_or_question (opt_get (opt_get (Some (JObj mfs)) "data") "types")).
  intros H. apply bind_ret_inv in H. destruct H as (t & Ht & H).
  injection H as <-. apply hint_or_question_class in Ht.
  destruct Ht as [-> | [-> | ->]]; auto.
Qed.

Lemma malformed_id_rejected (Date_parse : string -> option Z)
  (obj : json) (i : nat) (mfs dfs : list (string * json)) (s : string) :
  message_at obj i mfs ->
  isAnswer (Some (JObj mfs)) = false ->
  lookup "data" mfs = Some (JObj dfs) ->
  lookup "_id" dfs = Some (JStr s) ->
  isMongoId s = false ->
  rejected_once_transformed Date_parse obj.
Proof.
  intros Hm Hs Hd Hid Hbad.
  apply (message_reported _ _ i mfs Hm). intros y Hy.
  destruct (transform_field _ _ _ _ "data" Hy)
    as (ps & ty & a & -> & Hkeys & Hty & Ha & Hla); [vm_compute; tauto |].
  rewrite Hd in Ha.
  assert (Hcase : exists c,
            ty = Some (TClass c) /\
            (c = Hint \/ c = ButtonGroupQuestion \/ c = Question)).
  { destruct (agent_data_type mfs ty Hs Hty) as [-> | [-> | ->]];
      eexists; split; try reflexivity; auto. }
  destruct Hcase as (c & -> & Hc).
  assert (Hk : In "_id" (uniq (exposed_properties c))).
  { destruct Hc as [-> | [-> | ->]]; vm_compute; tauto. }
  destruct (transform_field _ _ _ _ "_id" Ha Hk)
    as (aps & ty & v & -> & Hakeys & Hty' & Hv & Hlv).
  apply (reports_nested Message ps "data" (VObj (CClass c) aps));
    [now apply (instance_owns_no_constructor Message) | vm_compute; tauto
    | exact Hla | reflexivity |].
  assert (Hgn : In "_id" (grouped_names (getTargetValidationMetadatas c))).
  { destruct Hc as [-> | [-> | ->]]; vm_compute; tauto. }
  apply (reports_constraint c aps "_id");
    [now apply (instance_owns_no_constructor c) | exact Hgn |].
  unfold own_value. rewrite Hlv. rewrite Hid in Hv.
  assert (Hv' : v = VStr s).
  { destruct Hc as [-> | [-> | ->]]; injection Hty' as <-;
      now injection Hv as <-. }
  subst v.
  destruct Hc as [-> | [-> | ->]]; cbn; rewrite Hbad; discriminate.
Qed.

Lemma constraint_violation_rejected (Date_parse : string -> option Z)
  (obj : json) (i : nat) (mfs : list (string * json)) :
  message_at obj i mfs -> constraint_violation mfs ->
  rejected_once_transformed Date_parse obj.
Proof.
  intros Hm [s Hs Ha Hc | dfs k Hs Hd Hk Hl | dfs s Hs Hd Hid Hbad].
  - apply (sender_outside_enum_rejected _ _ i mfs Hm);
      rewrite Hs; congruence.
  - apply (answer_field_rejected _ _ i mfs dfs k Hm Hs Hd Hk). now left.
  - apply (malformed_id_rejected _ _ i mfs dfs s Hm Hs Hd Hid Hbad).
Qed.

Lemma transform_failure_is_no_validation_failure (m : string) :
  In m transform_failure_messages ->
  String.prefix Assessment_title m = false.
Proof.
  intros H. repeat (destruct H as [<- | H]; [reflexivity |]). contradiction.
Qed.

(** C3, as stated, fails: with [time: "not a date"] the transform succeeds
    (the field becomes an Invalid Date), [validate] is called, and the
    failure is the validation error on [chatLogs]. *)
Lemma uncoercible_date_fails_at_validation :
  (exists entity,
     plainToInstance_lib Date_parse_none Assessment sample_bad_time
       default_transform_options = inr entity /\
     vget (vnth (vget entity "chatLogs") 0) "time" = VDate None /\
     In (Called_validate entity default_validator_options)
        (fst (run (fromObject Date_parse_none sample_bad_time)))) /\
  snd (run (fromObject Date_parse_none sample_bad_time))
  = inl (Error "The following field values do not meet constraints in Assessment: chatLogs").
Proof.
  split; [| reflexivity].
  eexists. split; [reflexivity |]. split; [reflexivity |].
  right. left. reflexivity.
Qed.

(** C3, amended: a date string the engine cannot parse is no transform
    failure: [new Date] turns it into an Invalid Date, and a raw input
    whose [time] is such a string is, once transformed, rejected by the
    validation ([@IsDate]) with the error naming [chatLogs].  Constraint
    violations (a [sender] outside the enumeration, an empty required
    string of an answer, an [_id] that is no Mongo id) are rejected in the
    same way, at validation.  The caller can tell the two failure classes
    apart: when the transform throws, [validate] is not called, the
    console line is the parsing one and the Error carries the message of
    the exception, which never begins with the title of the validation
    failure; when the validation finds errors, [validate] has been called,
    the console line is the validating one and the message is the title
    followed by ": chatLogs". *)
Theorem uncoercible_date_is_a_validation_failure
  (Date_parse : string -> option Z) :
  (forall s options,
     transform Date_parse options (Some TDate) (JStr s)
     = ret (VDate (Date_parse s))) /\
  (forall obj,
     has_uncoercible_time Date_parse obj ->
     rejected_once_transformed Date_parse obj) /\
  (forall obj i mfs,
     message_at obj i mfs -> constraint_violation mfs ->
     rejected_once_transformed Date_parse obj) /\
  (forall fs e,
     plainToInstance_lib Date_parse Assessment (JObj fs)
       default_transform_options = inl e ->
     run (fromObject Date_parse (JObj fs))
     = ([Called_plainToInstance Assessment (JObj fs)
           default_transform_options;
         Console_error (ParsingFailed "Assessment" (message e))],
        inl (Error (message e))) /\
     String.prefix Assessment_title (message e) = false) /\
  (forall fs entity,
     plainToInstance_lib Date_parse Assessment (JObj fs)
       default_transform_options = inr entity ->
     snd (validate_model entity default_validator_options) <> [] ->
     exists errors,
       run (fromObject Date_parse (JObj fs))
       = ([Called_plainToInstance Assessment (JObj fs)
             default_transform_options;
           Called_validate entity default_validator_options;
           Console_error (ValidatingFailed "Assessment" errors)],
          inl (Error "The following field values do not meet constraints in Assessment: chatLogs"))).
Proof.
  split; [| split; [| split; [| split]]].
  - reflexivity.
  - apply uncoercible_time_rejected.
  - apply constraint_violation_rejected.
  - intros fs e H. split.
    + now apply fromObject_run_transform_fails.
    + apply transform_failure_is_no_validation_failure.
      eapply transform_failure. exact H.
  - intros fs entity H Hne.
    destruct (transform_Assessment _ _ _ H) as [v ->].
    destruct (Assessment_errors v) as [Hnil | (e & He & Hp)];
      [contradiction |].
    exists [e].
    rewrite (fromObject_run_invalid Date_parse fs _ [e] H He);
      [| discriminate].
    cbn [map Array_toString]. now rewrite Hp.
Qed.

Lemma uncoercible_date_is_a_validation_failure_witness :
  exists errors,
    run (fromObject Date_parse_none sample_bad_time)
    = ([Called_plainToInstance Assessment sample_bad_time
          default_transform_options;
        Called_validate
          (VObj (CClass Assessment)
             [("chatLogs",
               VArr [VObj (CClass Message)
                       [("id", VStr "m1"); ("sender", VStr "AGENT");
                        ("label", VUndefined);
                        ("data",
                         VObj (CClass Hint)
                           [("_id", VStr "5f77dd133075f3b845b19c01");
                            ("types", VArr [VStr "HINT"]);
                            ("contents", VArr [])]);
                        ("userAgent", VUndefined); ("timeTaken", VUndefined);
                        ("time", VDate None)]])])
          default_validator_options;
        Console_error (ValidatingFailed "Assessment" errors)],
       inl (Error "The following field values do not meet constraints in Assessment: chatLogs")).
Proof.
  apply (proj2 (proj1 (proj2 (uncoercible_date_is_a_validation_failure
                                Date_parse_none))
                  sample_bad_time
                  (ex_intro _ _ (ex_intro _ _ (ex_intro _ 0%nat
                     (ex_intro _ _ (ex_intro _ "not a date"
                        (conj eq_refl (conj eq_refl (conj eq_refl
                           (conj eq_refl eq_refl)))))))))));
    reflexivity.
Defined.

(** ** The exported predicates and the resolvers *)

Lemma opt_includes_callee (c1 c2 : string) (a : option json) (t : string) :
  (forall r, opt_includes c1 a t = inr r <-> opt_includes c2 a t = inr r) /\
  ((exists e, opt_includes c1 a t = inl e) <->
   (exists e, opt_includes c2 a t = inl e)).
Proof.
  destruct a as [[| b | n | s | xs | fs] |]; cbn; split;
    try (intros r; split; intros H; exact H);
    try (intros r; split; discriminate);
    split; intros [e H]; try discriminate; eexists; reflexivity.
Qed.

Lemma opt_includes_shape (c : string) (a : option json) (t1 t2 : string) :
  (exists e, opt_includes c a t1 = inl e) <->
  (exists e, opt_includes c a t2 = inl e).
Proof.
  destruct a as [[| b | n | s | xs | fs] |]; cbn;
    split; intros [e H]; try discriminate; eexists; reflexivity.
Qed.

(** X1: the exported predicates [isAnswer], [isHint] and
    [isButtonGroupQuestion] decide what the two inline resolvers decide:
    asked in the resolver's order about a message and its [data] (or about
    the [question] of an answer), they lead to the same variant, and they
    throw on exactly the raw values on which the resolver throws. *)
Theorem predicates_agree_with_resolvers (node : json) :
  (isAnswer (Some node) = true ->
   Message_data_type (Some node) = ret (TClass Answer)) /\
  (forall h,
     isAnswer (Some node) = false ->
     isHint (opt_get (Some node) "data") = inr h -> truthy h = true ->
     Message_data_type (Some node) = ret (TClass Hint)) /\
  (forall h b,
     isAnswer (Some node) = false ->
     isHint (opt_get (Some node) "data") = inr h -> truthy h = false ->
     isButtonGroupQuestion (opt_get (Some node) "data") = inr b ->
     Message_data_type (Some node)
     = ret (TClass (if truthy b then ButtonGroupQuestion else Question))) /\
  (isAnswer (Some node) = false ->
   ((exists e, isHint (opt_get (Some node) "data") = inl e) <->
    (exists e, Message_data_type (Some node) = inl e))) /\
  (forall b,
     isButtonGroupQuestion (opt_get (Some node) "question") = inr b ->
     Answer_question_type (Some node)
     = ret (TClass (if truthy b then ButtonGroupQuestion else Question))) /\
  ((exists e, isButtonGroupQuestion (opt_get (Some node) "question") = inl e)
   <-> (exists e, Answer_question_type (Some node) = inl e)).
Proof.
  unfold isAnswer, isHint, isButtonGroupQuestion.
  split; [| split; [| split; [| split; [| split]]]].
  - intros Hs. unfold Message_data_type. now rewrite Hs.
  - intros h Hs Hh Ht. unfold Message_data_type. rewrite Hs.
    apply (proj1 (opt_includes_callee _ "object?.data?.types?.includes" _ _))
      in Hh.
    rewrite Hh. cbn [bind]. now rewrite Ht.
  - intros h b Hs Hh Ht Hb. unfold Message_data_type. rewrite Hs.
    apply (proj1 (opt_includes_callee _ "object?.data?.types?.includes" _ _))
      in Hh.
    apply (proj1 (opt_includes_callee _ "object?.data?.types?.includes" _ _))
      in Hb.
    rewrite Hh. cbn [bind]. rewrite Ht, Hb. cbn [bind].
    now destruct (truthy b).
  - intros Hs. unfold Message_data_type. rewrite Hs.
    rewrite (proj2 (opt_includes_callee "messageData?.types?.includes"
                      "object?.data?.types?.includes" _ _)).
    split.
    + intros [e He]. exists e. now rewrite He.
    + intros [e He]. apply bind_throw_inv in He.
      destruct He as [He | (h & Hh & He)]; [eauto |].
      destruct (truthy h); [discriminate |].
      apply bind_throw_inv in He. destruct He as [He | (b & _ & He)].
      * apply (opt_includes_shape _ _ QuestionType.BGQ). eauto.
      * destruct (truthy b); discriminate.
  - intros b Hb. unfold Answer_question_type.
    apply (proj1 (opt_includes_callee _
                    "object?.question?.types?.includes" _ _)) in Hb.
    rewrite Hb. cbn [bind]. now destruct (truthy b).
  - unfold Answer_question_type.
    rewrite (proj2 (opt_includes_callee "messageData?.types?.includes"
                      "object?.question?.types?.includes" _ _)).
    split.
    + intros [e He]. exists e. now rewrite He.
    + intros [e He]. apply bind_throw_inv in He.
      destruct He as [He | (b & _ & He)]; [eauto |].
      destruct (truthy b); discriminate.
Qed.

Lemma predicates_agree_with_resolvers_witness :
  Message_data_type (Some sample_hint_message) = ret (TClass Hint).
Proof.
  apply (proj1 (proj2 (predicates_agree_with_resolvers sample_hint_message))
           (Some true)); reflexivity.
Defined.

(** ** What an instance owns *)

Lemma uniq_from_complete (k : string) (ks seen : list string) :
  In k ks -> mem k seen = false -> In k (uniq_from seen ks).
Proof.
  revert seen. induction ks as [| k' r IH]; intros seen Hin Hs;
    [contradiction |].
  cbn [uniq_from]. destruct (String.eqb_spec k k') as [<- | Hne].
  - rewrite Hs. now left.
  - destruct Hin as [-> | Hin]; [contradiction |].
    destruct (mem k' seen); [now apply IH |].
    right. apply IH; [exact Hin |].
    cbn. apply String.eqb_neq in Hne. now rewrite Hne.
Qed.

Lemma nth_error_default {A : Type} (l : list A) (i : nat) (x d : A) :
  nth_error l i = Some x -> nth i l d = x.
Proof.
  revert i. induction l as [| a r IH]; intros [| i]; cbn;
    try discriminate.
  - intros H. now injection H.
  - apply IH.
Qed.

(** X13: an instance produced by the transform is of the class asked for
    and owns every exposed property of that class, inherited ones included,
    and no other; a property absent from the raw object is set to
    [undefined]. *)
Theorem instance_owns_every_exposed_property
  (Date_parse : string -> option Z) (c : class) (fs : list (string * json))
  (y : value) :
  transform Date_parse default_transform_options (Some (TClass c)) (JObj fs)
  = inr y ->
  class_of y = Some c /\
  own_keys y = uniq (exposed_properties c) /\
  (forall k, In k (exposed_properties c) -> lookup k fs = None ->
             match y with
             | VObj _ ps => lookup k ps = Some VUndefined
             | _ => False
             end).
Proof.
  intros H. pose proof H as Hi. apply transform_instance in Hi.
  destruct Hi as (ps & -> & Hkeys & _).
  split; [reflexivity | split; [exact Hkeys |]].
  intros k Hk Hl.
  assert (Hk' : In k (uniq (exposed_properties c))).
  { now apply uniq_from_complete. }
  destruct (transform_field _ _ _ _ k H Hk')
    as (ps' & ty & v & Heq & _ & _ & Hv & Hlv).
  injection Heq as <-. rewrite Hl in Hv. injection Hv as <-. exact Hlv.
Qed.

Lemma instance_owns_every_exposed_property_witness :
  class_of (VObj (CClass QuestionOption)
              [("id", VStr "1"); ("value", VUndefined); ("text", VUndefined)])
  = Some QuestionOption.
Proof.
  apply (proj1 (instance_owns_every_exposed_property Date_parse_none
                  QuestionOption [("id", JStr "1"); ("next", JStr "x")] _
                  eq_refl)).
Defined.

Lemma agent_hint_type (mfs dfs : list (string * json)) :
  isAnswer (Some (JObj mfs)) = false ->
  lookup "data" mfs = Some (JObj dfs) ->
  array_contains (lookup "types" dfs) QuestionType.HINT = true ->
  type_of (Some Message) "data" (JObj mfs) = inr (Some (TClass Hint)).
Proof.
  intros Hs Hd Ht.
  change (type_of (Some Message) "data" (JObj mfs))
    with (t <- Message_data_type (Some (JObj mfs)) ;; ret (Some t)).
  unfold Message_data_type. unfold isAnswer in Hs. rewrite Hs.
  cbn [opt_get]. rewrite Hd. cbn [opt_get].
  destruct (lookup "types" dfs) as [[| b | n | s | xs | tfs] |];
    try discriminate.
  cbn in Ht. cbn [opt_includes bind ret truthy]. now rewrite Ht.
Qed.

(** X8: a payload resolved as a Hint keeps [_id], [types] and [contents]
    only: whatever else the raw payload carries, [masterId] and [options]
    among them, is not on the instance. *)
Theorem hint_payload_keeps_three_fields (Date_parse : string -> option Z)
  (mfs dfs : list (string * json)) (y : value) :
  isAnswer (Some (JObj mfs)) = false ->
  lookup "data" mfs = Some (JObj dfs) ->
  array_contains (lookup "types" dfs) QuestionType.HINT = true ->
  transform Date_parse default_transform_options (Some (TClass Message))
    (JObj mfs) = inr y ->
  class_of (vget y "data") = Some Hint /\
  own_keys (vget y "data") = ["_id"; "types"; "contents"].
Proof.
  intros Hs Hd Ht Hy.
  destruct (transform_field _ _ _ _ "data" Hy)
    as (ps & ty & h & -> & _ & Hty & Hh & Hl); [vm_compute; tauto |].
  rewrite (agent_hint_type mfs dfs Hs Hd Ht) in Hty. injection Hty as <-.
  rewrite Hd in Hh. apply transform_instance in Hh.
  destruct Hh as (hps & -> & Hkeys & _).
  cbn [vget]. rewrite Hl. split; [reflexivity | exact Hkeys].
Qed.

Lemma hint_payload_keeps_three_fields_witness :
  own_keys
    (vget (VObj (CClass Message)
             [("id", VUndefined); ("sender", VUndefined);
              ("label", VUndefined);
              ("data",
               VObj (CClass Hint)
                 [("_id", VUndefined); ("types", VArr [VStr "HINT"]);
                  ("contents", VUndefined)]);
              ("userAgent", VUndefined); ("timeTaken", VUndefined);
              ("time", VUndefined)]) "data")
  = ["_id"; "types"; "contents"].
Proof.
  apply (proj2 (hint_payload_keeps_three_fields Date_parse_none
                  [("data", JObj [("types", JArr [JStr "HINT"]);
                                  ("masterId", JStr "greeting")])]
                  [("types", JArr [JStr "HINT"]);
                   ("masterId", JStr "greeting")] _
                  eq_refl eq_refl eq_refl eq_refl)).
Defined.

(** X9: the options of a question are instances of the option class of
    its variant: [QuestionOption] with [id], [value], [text] on a Question,
    [ButtonGroupOption] with [triggers] and [style] besides on a
    ButtonGroupQuestion. *)
Theorem options_follow_the_variant (Date_parse : string -> option Z)
  (c : class) (dfs : list (string * json)) (q : value) (os : list json)
  (j : nat) (ofs : list (string * json)) :
  c = Question \/ c = ButtonGroupQuestion ->
  transform Date_parse default_transform_options (Some (TClass c)) (JObj dfs)
  = inr q ->
  lookup "options" dfs = Some (JArr os) ->
  nth_error os j = Some (JObj ofs) ->
  class_of (vnth (vget q "options") j) = Some (option_class c) /\
  own_keys (vnth (vget q "options") j)
  = ["id"; "value"; "text"] ++
    match c with
    | ButtonGroupQuestion => ["triggers"; "style"]
    | _ => []
    end.
Proof.
  intros Hc Hq Ho Hj.
  assert (Hk : In "options" (uniq (exposed_properties c))).
  { destruct Hc as [-> | ->]; vm_compute; tauto. }
  destruct (transform_field _ _ _ _ "options" Hq Hk)
    as (ps & ty & v & -> & _ & Hty & Hv & Hl).
  assert (Hty' : ty = Some (TClass (option_class c))).
  { destruct Hc as [-> | ->]; now injection Hty as <-. }
  subst ty. rewrite Ho in Hv. cbn [transform] in Hv.
  apply bind_ret_inv in Hv. destruct Hv as (ys & Hys & Hv).
  injection Hv as <-. apply mapM_success in Hys.
  destruct (Forall2_nth_error _ _ _ j _ Hys Hj) as (y & Hy & Hto).
  apply transform_instance in Hto. destruct Hto as (ops & -> & Hkeys & _).
  cbn [vget]. rewrite Hl. cbn [vnth].
  rewrite (nth_error_default _ _ _ VUndefined Hy).
  split; [reflexivity |].
  cbn [own_keys]. rewrite Hkeys. destruct Hc as [-> | ->]; reflexivity.
Qed.

Lemma options_follow_the_variant_witness :
  class_of
    (vnth (vget (VObj (CClass ButtonGroupQuestion)
                   [("masterId", VUndefined); ("parentId", VUndefined);
                    ("traits", VUndefined); ("rules", VUndefined);
                    ("options",
                     VArr [VObj (CClass ButtonGroupOption)
                             [("id", VStr "1"); ("value", VUndefined);
                              ("text", VUndefined); ("triggers", VUndefined);
                              ("style", VUndefined)]]);
                    ("version", VUndefined); ("language", VUndefined);
                    ("_id", VUndefined); ("types", VUndefined);
                    ("contents", VUndefined)]) "options") 0)
  = Some ButtonGroupOption.
Proof.
  apply (proj1 (options_follow_the_variant Date_parse_none
                  ButtonGroupQuestion
                  [("options", JArr [JObj [("id", JStr "1")]])] _
                  [JObj [("id", JStr "1")]] 0 [("id", JStr "1")]
                  (or_intror eq_refl) eq_refl eq_refl eq_refl)).
Defined.

(** ** Button group options *)

Lemma agent_button_group_type (mfs dfs : list (string * json)) :
  isAnswer (Some (JObj mfs)) = false ->
  lookup "data" mfs = Some (JObj dfs) ->
  array_contains (lookup "types" dfs) QuestionType.HINT = false ->
  array_contains (lookup "types" dfs) QuestionType.BGQ = true ->
  type_of (Some Message) "data" (JObj mfs)
  = inr (Some (TClass ButtonGroupQuestion)).
Proof.
  intros Hs Hd Hh Hb.
  change (type_of (Some Message) "data" (JObj mfs))
    with (t <- Message_data_type (Some (JObj mfs)) ;; ret (Some t)).
  unfold Message_data_type. unfold isAnswer in Hs. rewrite Hs.
  cbn [opt_get]. rewrite Hd. cbn [opt_get].
  destruct (lookup "types" dfs) as [[| b | n | s | xs | tfs] |];
    try discriminate.
  cbn in Hh, Hb. cbn [opt_includes bind ret truthy]. now rewrite Hh, Hb.
Qed.

(** X10: every option of a button-group question needs a [style]: a
    message from the agent whose payload is tagged BUTTON_GROUP_QUESTION
    (and not HINT) and has an option object without [style] is never
    accepted; once the transform has returned, validation rejects the
    entity with the error naming [chatLogs]. *)
Theorem button_group_option_needs_style (Date_parse : string -> option Z)
  (obj : json) (i j : nat) (mfs dfs ofs : list (string * json))
  (os : list json) :
  message_at obj i mfs ->
  isAnswer (Some (JObj mfs)) = false ->
  lookup "data" mfs = Some (JObj dfs) ->
  array_contains (lookup "types" dfs) QuestionType.HINT = false ->
  array_contains (lookup "types" dfs) QuestionType.BGQ = true ->
  lookup "options" dfs = Some (JArr os) ->
  nth_error os j = Some (JObj ofs) ->
  lookup "style" ofs = None ->
  rejected_once_transformed Date_parse obj.
Proof.
  intros Hm Hs Hd Hh Hb Ho Hj Hst.
  apply (message_reported _ _ i mfs Hm). intros y Hy.
  destruct (transform_field _ _ _ _ "data" Hy)
    as (ps & ty & q & -> & Hkeys & Hty & Hq & Hl); [vm_compute; tauto |].
  rewrite (agent_button_group_type mfs dfs Hs Hd Hh Hb) in Hty.
  injection Hty as <-. rewrite Hd in Hq.
  destruct (transform_field _ _ _ _ "options" Hq)
    as (qps & ty & v & -> & Hqkeys & Hty & Hv & Hlo); [vm_compute; tauto |].
  injection Hty as <-. rewrite Ho in Hv. cbn [transform] in Hv.
  apply bind_ret_inv in Hv. destruct Hv as (ys & Hys & Hv).
  injection Hv as <-. apply mapM_success in Hys.
  destruct (Forall2_nth_error _ _ _ j _ Hys Hj) as (o & Hoj & Hto).
  destruct (transform_field _ _ _ _ "style" Hto)
    as (ops & ty & st & -> & Hokeys & _ & Hsv & Hls); [vm_compute; tauto |].
  rewrite Hst in Hsv. injection Hsv as <-.
  apply (reports_nested Message ps "data" _
           (instance_owns_no_constructor Message _ Hkeys)
           ltac:(vm_compute; tauto) Hl eq_refl).
  apply (reports_nested ButtonGroupQuestion qps "options" _
           (instance_owns_no_constructor ButtonGroupQuestion _ Hqkeys)
           ltac:(vm_compute; tauto) Hlo eq_refl).
  apply (reports_element ys _ (nth_error_In _ _ Hoj)).
  apply (reports_constraint ButtonGroupOption ops "style");
    [now apply (instance_owns_no_constructor ButtonGroupOption)
    | vm_compute; tauto |].
  unfold own_value. rewrite Hls. discriminate.
Qed.

Lemma button_group_option_needs_style_witness :
  rejected_once_transformed Date_parse_none
    (JObj [("chatLogs",
            JArr [JObj [("id", JStr "m1"); ("sender", JStr "AGENT");
                        ("data",
                         JObj [("types", JArr [JStr "BUTTON_GROUP_QUESTION"]);
                               ("options",
                                JArr [JObj [("id", JStr "1")]])])]])]).
Proof.
  apply (button_group_option_needs_style Date_parse_none _ 0 0
           [("id", JStr "m1"); ("sender", JStr "AGENT");
            ("data", JObj [("types", JArr [JStr "BUTTON_GROUP_QUESTION"]);
                           ("options", JArr [JObj [("id", JStr "1")]])])]
           [("types", JArr [JStr "BUTTON_GROUP_QUESTION"]);
            ("options", JArr [JObj [("id", JStr "1")]])]
           [("id", JStr "1")] [JObj [("id", JStr "1")]]).
  - eexists _, _. repeat split.
  - reflexivity.
  - reflexivity.
  - reflexivity.
  - reflexivity.
  - reflexivity.
  - reflexivity.
  - reflexivity.
Defined.

(** ** The two whitelists *)

(** A key the transform visits is none of the names [whitelist] takes for
    declared. *)
Lemma visited_has_no_inherited_metadata (oc : option class) (k : string) :
  visited oc k = true -> mem k Object_prototype_with_length = false.
Proof.
  intros Hv. destruct (mem k Object_prototype_with_length) eqn:Hm;
    [| reflexivity].
  apply mem_In in Hm. unfold visited, is_method in Hv.
  repeat (destruct Hm as [<- | Hm]; [discriminate |]). contradiction.
Qed.

(** The whitelist error of an own property without metadata is among the
    errors [validate] returns with the default options. *)
Lemma undeclared_own_property_listed (c : class)
  (fs : list (string * value)) (k : string) :
  lookup "constructor" fs = None ->
  has_key k fs = true ->
  has_metadata (getTargetValidationMetadatas c) k = false ->
  In k
     (map property_text
        (snd (validate_model (VObj (CClass c) fs) default_validator_options))).
Proof.
  intros Hc Hk Hm. rewrite validate_model_pair. cbn [snd].
  assert (Hw : In (VError (Some k) ["whitelistValidation"] [])
                  (execute_errors default_validator_options
                     (VObj (CClass c) fs))).
  { rewrite execute_instance, execute_object_class by exact Hc.
    apply in_or_app. left. unfold whitelist_errors.
    cbn [flag whitelist forbidNonWhitelisted default_validator_options andb].
    apply (in_map (fun k => VError (Some k) ["whitelistValidation"] [])).
    unfold notAllowedProperties. apply filter_In.
    split; [| now rewrite Hm].
    unfold has_key in Hk. destruct (lookup k fs) as [v |] eqn:Hl;
      [| discriminate].
    apply lookup_In in Hl. apply in_map_iff. exists (k, v). auto. }
  destruct (stripEmptyErrors_keeps _ _ Hw) as (e' & He' & Hp).
  { left. discriminate. }
  apply in_map_iff. exists e'. split; [| exact He'].
  unfold property_text. now rewrite Hp.
Qed.

(** X11: the two stages strip and forbid in tandem.  When a caller turns
    the stripping off ([excludeExtraneousValues: false]), an undeclared key
    of the raw object that the transform visits (any key but [__proto__],
    [constructor] and the names of the methods an Assessment has, its own
    [validate] and those every object inherits) reaches the instance, and
    [validateClassInstance] with its defaults then rejects the instance:
    the list of the error thrown, the names joined with commas after the
    title, names that key. *)
Theorem unstripped_key_is_rejected_by_name (Date_parse : string -> option Z)
  (fs : list (string * json)) (k : string) (x : json) (entity : value)
  (t t' : trace) :
  lookup k fs = Some x ->
  k <> "chatLogs" ->
  visited (Some Assessment) k = true ->
  parsePlainObject (plainToInstance_lib Date_parse) Assessment (JObj fs)
    {| excludeExtraneousValues := Some false; exposeUnsetFields := None |} t
  = (t', inr entity) ->
  In k (own_keys entity) /\
  exists errors,
    validateClassInstance validate_lib entity Assessment
      no_validator_options None t'
    = (t' ++ [Called_validate entity default_validator_options;
              Console_error (ValidatingFailed "Assessment" errors)],
       inl (Error
              ("The following field values do not meet constraints: " ++
               String.concat "," (map property_text errors)))) /\
    In k (map property_text errors).
Proof.
  intros Hl Hne Hvis Hp.
  set (options := {| excludeExtraneousValues := Some false;
                     exposeUnsetFields := Some true |}).
  assert (He : transform Date_parse options (Some (TClass Assessment))
                 (JObj fs) = inr entity).
  { unfold parsePlainObject, io_try, io_bind, io_emit, io_lift, io_throw
      in Hp.
    change (spread_transform _ _) with options in Hp.
    unfold plainToInstance_lib, plainToInstance_model in Hp.
    destruct (transform Date_parse options (Some (TClass Assessment))
                (JObj fs)) as [e | a]; [discriminate |].
    now injection Hp as _ ->. }
  pose proof (transform_constructor_not_hidden _ _ _ _ _ He) as Hnh.
  rewrite transform_typed_object in He.
  apply bind_ret_inv in He. destruct He as (ps & Hset & He).
  injection He as <-.
  destruct (constructor_not_hidden_object _ _ Hnh) as [Hc _].
  destruct (set_keys_lookup options (Some Assessment) (JObj fs) _ eq_refl
              _ ps k Hset)
    as (ty & v & _ & _ & Hlv); [| exact Hvis |].
  { cbn [getKeys flag excludeExtraneousValues options].
    apply uniq_from_complete; [| reflexivity].
    apply in_or_app. left. apply lookup_In in Hl.
    apply in_map_iff. exists (k, x). auto. }
  assert (Hk : has_key k ps = true).
  { unfold has_key. now rewrite Hlv. }
  split.
  { cbn [own_keys]. apply lookup_In in Hlv.
    apply in_map_iff. exists (k, v). auto. }
  assert (Hm : has_metadata (getTargetValidationMetadatas Assessment) k
               = false).
  { unfold has_metadata.
    rewrite (visited_has_no_inherited_metadata _ _ Hvis).
    apply String.eqb_neq in Hne. cbn. now rewrite Hne. }
  pose proof (undeclared_own_property_listed Assessment ps k Hc Hk Hm) as Hin.
  exists (snd (validate_model (VObj (CClass Assessment) ps)
                 default_validator_options)).
  split; [| exact Hin].
  rewrite <- Array_toString_concat.
  apply (validateClassInstance_fails validate_lib _
           (VObj (CClass Assessment) ps) Assessment no_validator_options
           "The following field values do not meet constraints").
  - change (spread_validator default_validator_options no_validator_options)
      with default_validator_options.
    rewrite (validate_lib_returns _ _ _ Hnh).
    now rewrite validate_model_pair.
  - intros Hnil. rewrite Hnil in Hin. contradiction.
Qed.

Lemma unstripped_key_is_rejected_by_name_witness :
  In "extra"
     (own_keys (VObj (CClass Assessment)
                  [("extra", VBool true); ("chatLogs", VUndefined)])) /\
  exists errors,
    validateClassInstance validate_lib
      (VObj (CClass Assessment)
         [("extra", VBool true); ("chatLogs", VUndefined)]) Assessment
      no_validator_options None
      [Called_plainToInstance Assessment (JObj [("extra", JBool true)])
         {| excludeExtraneousValues := Some false;
            exposeUnsetFields := Some true |}]
    = ([Called_plainToInstance Assessment (JObj [("extra", JBool true)])
          {| excludeExtraneousValues := Some false;
             exposeUnsetFields := Some true |}] ++
       [Called_validate
          (VObj (CClass Assessment)
             [("extra", VBool true); ("chatLogs", VUndefined)])
          default_validator_options;
        Console_error (ValidatingFailed "Assessment" errors)],
       inl (Error
              ("The following field values do not meet constraints: " ++
               String.concat "," (map property_text errors)))) /\
    In "extra" (map property_text errors).
Proof.
  apply (unstripped_key_is_rejected_by_name Date_parse_none
           [("extra", JBool true)] "extra" (JBool true)
           (VObj (CClass Assessment)
              [("extra", VBool true); ("chatLogs", VUndefined)]) []).
  - reflexivity.
  - discriminate.
  - reflexivity.
  - reflexivity.
Defined.

Lemma has_key_filter {A : Type} (f : string -> bool) (k : string)
  (l : list (string * A)) :
  has_key k (filter (fun kv => f (fst kv)) l) = f k && has_key k l.
Proof.
  unfold has_key. induction l as [| [k' v] r IH].
  - now destruct (f k).
  - cbn [filter fst]. destruct (f k') eqn:Hk'; cbn [lookup].
    + destruct (String.eqb_spec k k') as [-> | _]; [now rewrite Hk' | exact IH].
    + destruct (String.eqb_spec k k') as [-> | _]; [| exact IH].
      rewrite Hk' in *. cbn [andb] in *. exact IH.
Qed.

Lemma has_key_map {A : Type} (g : string * A -> string * A) (k : string)
  (l : list (string * A)) :
  (forall kv, fst (g kv) = fst kv) ->
  has_key k (map g l) = has_key k l.
Proof.
  intros Hg. unfold has_key. induction l as [| [k' v] r IH]; [reflexivity |].
  cbn [map]. specialize (Hg (k', v)). destruct (g (k', v)) as [k'' v'].
  cbn in Hg. subst k''. cbn [lookup].
  destruct (String.eqb k k'); [reflexivity | exact IH].
Qed.

(** X12: with [forbidNonWhitelisted: false] from the caller, undeclared
    properties are stripped instead of rejected: an instance of a schema
    class that is valid apart from them passes, and of its own properties
    the instance returned keeps those with a validation decorator and
    those whose name [whitelist] takes for declared ([constructor],
    [__proto__], [hasOwnProperty], [isPrototypeOf],
    [propertyIsEnumerable], [__defineGetter__], [__defineSetter__],
    [__lookupGetter__], [__lookupSetter__]), and no other. *)
Theorem undeclared_property_is_stripped
  (c : class) (fs : list (string * value)) (type : class)
  (title : option string) (instance' : value) :
  let options := {| whitelist := None; forbidNonWhitelisted := Some false |} in
  let validatorOptions :=
    {| whitelist := Some true; forbidNonWhitelisted := Some false |} in
  has_key "constructor" fs = false ->
  validate_lib (VObj (CClass c) fs) validatorOptions = inr (instance', []) ->
  run (validateClassInstance validate_lib (VObj (CClass c) fs) type
         options title)
  = ([Called_validate (VObj (CClass c) fs) validatorOptions],
     inr instance') /\
  exists fs',
    instance' = VObj (CClass c) fs' /\
    forall k,
      has_key k fs'
      = has_key k fs &&
        (mem k (map propertyName (getTargetValidationMetadatas c))
         || mem k Object_prototype_with_length).
Proof.
  intros options validatorOptions Hc Hv. split.
  - unfold run.
    apply (validateClassInstance_passes validate_lib (VObj (CClass c) fs)
             _ type options title []).
    exact Hv.
  - apply validate_lib_outcome in Hv. unfold validate_model in Hv.
    injection Hv as -> _. apply has_key_lookup in Hc.
    cbn [validated_instance flag whitelist forbidNonWhitelisted
           validatorOptions andb negb whitelist_strip].
    rewrite (instance_metadatas_class _ _ Hc). cbn [ctor_metadatas].
    pose proof (class_has_metadata c) as Hne.
    destruct (getTargetValidationMetadatas c) as [| m ms] eqn:Hms;
      [contradiction |].
    eexists. split; [reflexivity |]. intros k.
    rewrite (has_key_filter (has_metadata (m :: ms))).
    rewrite has_key_map.
    + unfold has_metadata. apply andb_comm.
    + intros kv. destruct (conditionalValidations _ _); [| reflexivity].
      destruct (of_type NESTED_VALIDATION _); reflexivity.
Qed.

Lemma undeclared_property_is_stripped_witness :
  run (validateClassInstance validate_lib
         (VObj (CClass Assessment)
            [("extra", VBool true); ("isPrototypeOf", VBool true);
             ("chatLogs", VArr [])]) Assessment
         {| whitelist := None; forbidNonWhitelisted := Some false |} None)
  = ([Called_validate
        (VObj (CClass Assessment)
           [("extra", VBool true); ("isPrototypeOf", VBool true);
            ("chatLogs", VArr [])])
        {| whitelist := Some true; forbidNonWhitelisted := Some false |}],
     inr (VObj (CClass Assessment)
            [("isPrototypeOf", VBool true); ("chatLogs", VArr [])])) /\
  exists fs',
    VObj (CClass Assessment)
      [("isPrototypeOf", VBool true); ("chatLogs", VArr [])]
    = VObj (CClass Assessment) fs' /\
    forall k,
      has_key k fs'
      = has_key k [("extra", VBool true); ("isPrototypeOf", VBool true);
                   ("chatLogs", VArr [])] &&
        (mem k (map propertyName (getTargetValidationMetadatas Assessment))
         || mem k Object_prototype_with_length).
Proof.
  apply (undeclared_property_is_stripped Assessment
           [("extra", VBool true); ("isPrototypeOf", VBool true);
            ("chatLogs", VArr [])] Assessment None
           (VObj (CClass Assessment)
              [("isPrototypeOf", VBool true); ("chatLogs", VArr [])]));
    reflexivity.
Defined.

(** ** Which raw [time] values pass *)

(** X14: what [@Type(() => Date)], [@IsDate] and [@IsOptional] make of a
    raw [time].  Of the values the transform returns, [null] passes
    (optional); a boolean always becomes a valid date; a number does when
    it is within the range of time values; a string when the engine parses
    it; an object when the engine parses "[object Object]"; an array never
    passes.  The transform returns on every raw value that is no array,
    except on an object that owns a [toString] property: there [new Date]
    throws the TypeError "Cannot convert object to primitive value". *)
Theorem time_values_that_pass (Date_parse : string -> option Z)
  (options : ClassTransformOptions) (x : json) :
  (forall v,
     transform Date_parse options (Some TDate) x = inr v ->
     (failed_constraints Message "time" v = [] <->
      match x with
      | JNull | JBool _ => True
      | JNum n => TimeClip n <> None
      | JStr s => Date_parse s <> None
      | JObj _ => Date_parse "[object Object]" <> None
      | JArr _ => False
      end)) /\
  match x with
  | JArr _ => True
  | JObj fs =>
      if has_key "toString" fs
      then transform Date_parse options (Some TDate) x
           = throw (TypeError "Cannot convert object to primitive value")
      else exists v, transform Date_parse options (Some TDate) x = inr v
  | _ => exists v, transform Date_parse options (Some TDate) x = inr v
  end.
Proof.
  assert (Hdate : forall d : option Z,
            failed_constraints Message "time" (VDate d) = [] <-> d <> None).
  { intros [z |]; split; try discriminate; try reflexivity.
    intros H. now contradiction H. }
  destruct x as [| b | n | s | xs | fs].
  - split; [| eexists; reflexivity].
    intros v H. injection H as <-. split; [trivial | reflexivity].
  - split; [| eexists; reflexivity].
    intros v H. injection H as <-. split; [trivial | reflexivity].
  - split; [| eexists; reflexivity].
    intros v H. injection H as <-. apply Hdate.
  - split; [| eexists; reflexivity].
    intros v H. injection H as <-. apply Hdate.
  - split; [| exact I].
    intros v H. cbn [transform] in H. apply bind_ret_inv in H.
    destruct H as (ys & _ & H). injection H as <-.
    split; [discriminate | contradiction].
  - cbn [transform new_Date].
    destruct (has_key "toString" fs).
    + split; [discriminate | reflexivity].
    + split; [| eexists; reflexivity].
      intros v H. injection H as <-. apply Hdate.
Qed.

Lemma time_values_that_pass_witness :
  failed_constraints Message "time" (VDate None) = [] <->
  Date_parse_none "not a date" <> None.
Proof.
  apply (proj1 (time_values_that_pass Date_parse_none
                  default_transform_options (JStr "not a date"))
           (VDate None)).
  reflexivity.
Defined.
